(** * Scrape-and-checkpoint core of the web-scraping samples

    A shallow embedding of [public_data_digger_scraper.py] and
    [scrape_kickstarter.py].  Python strings are [string]s of bytes, Python
    integers are [Z], dictionaries are [gmap]s, the file system is a pair of
    finite maps keyed by paths, and every function that touches the file
    system, the network or the log is a computation in a small state and
    exception monad over a [World]. *)

From stdpp Require Import gmap strings list fin_maps.
From Stdlib Require Import ZArith Ascii String DecimalString Lia.

Set Warnings "-register-all".
Open Scope string_scope.
Open Scope Z_scope.

(** ** Python strings (ASCII fragment) *)

Module Str.

Definition chars (s : string) : list ascii := list_ascii_of_string s.
Definition of_chars (l : list ascii) : string := string_of_list_ascii l.

Definition code (c : ascii) : N := N_of_ascii c.

Definition is_upper (c : ascii) : bool := ((65 <=? code c) && (code c <=? 90))%N.
Definition is_lower (c : ascii) : bool := ((97 <=? code c) && (code c <=? 122))%N.
Definition is_digit (c : ascii) : bool := ((48 <=? code c) && (code c <=? 57))%N.

(** Python's [str.isspace] on ASCII: space, TAB, LF, VT, FF, CR and the
    separators 0x1c-0x1f. *)
Definition is_space (c : ascii) : bool :=
  ((code c =? 32) || ((9 <=? code c) && (code c <=? 13))
   || ((28 <=? code c) && (code c <=? 31)))%N.

(** [\w] of the [re] module: letters, digits, underscore.  Bytes above 127
    belong to multi-byte characters, which are letters in names; they are
    kept as word characters. *)
Definition is_word (c : ascii) : bool :=
  (is_upper c || is_lower c || is_digit c || (code c =? 95) || (128 <=? code c))%N.

Definition lower_char (c : ascii) : ascii :=
  if is_upper c then ascii_of_N (code c + 32) else c.
Definition upper_char (c : ascii) : ascii :=
  if is_lower c then ascii_of_N (code c - 32) else c.

Definition lower (s : string) : string := of_chars (map lower_char (chars s)).
Definition upper (s : string) : string := of_chars (map upper_char (chars s)).

Fixpoint lstrip_chars (l : list ascii) : list ascii :=
  match l with
  | c :: l' => if is_space c then lstrip_chars l' else l
  | [] => []
  end.

(** [s.strip()] *)
Definition strip (s : string) : string :=
  of_chars (rev (lstrip_chars (rev (lstrip_chars (chars s))))).

Fixpoint starts_with (p l : list ascii) : bool :=
  match p, l with
  | [], _ => true
  | a :: p', b :: l' => Ascii.eqb a b && starts_with p' l'
  | _ :: _, [] => false
  end.

Fixpoint contains_chars (p l : list ascii) : bool :=
  starts_with p l ||
  match l with
  | [] => false
  | _ :: l' => contains_chars p l'
  end.

(** [sub in s] *)
Definition contains (sub s : string) : bool := contains_chars (chars sub) (chars s).

(** [s.endswith(suffix)] *)
Definition endswith (s suffix : string) : bool :=
  starts_with (rev (chars suffix)) (rev (chars s)).

Definition startswith (s pre : string) : bool :=
  starts_with (chars pre) (chars s).

(** [sep.join(parts)] *)
Fixpoint join (sep : string) (parts : list string) : string :=
  match parts with
  | [] => ""
  | [p] => p
  | p :: rest => p ++ sep ++ join sep rest
  end.

(** [s.split(sep)] for a one-character separator: the current field is
    accumulated in reverse in [cur]. *)
Fixpoint split_chars (sep : ascii) (cur : list ascii) (l : list ascii) : list string :=
  match l with
  | [] => [of_chars (rev cur)]
  | c :: l' =>
      if Ascii.eqb c sep then of_chars (rev cur) :: split_chars sep [] l'
      else split_chars sep (c :: cur) l'
  end.

Definition split (sep : ascii) (s : string) : list string :=
  split_chars sep [] (chars s).

(** [s.replace(old, '')] for a one-character [old]. *)
Definition remove_char (old : ascii) (s : string) : string :=
  of_chars (filter (fun c => c ≠ old) (chars s)).

(** [re.sub(r'[\W]', '_', s)] *)
Definition sub_nonword (s : string) : string :=
  of_chars (map (fun c => if is_word c then c else "_"%char) (chars s)).

(** [re.sub(r'[_+]', '_', s)]: the class holds the two characters [_] and
    [+]. *)
Definition sub_underscore_plus (s : string) : string :=
  of_chars (map (fun c => if (code c =? 43)%N then "_"%char else c) (chars s)).

(** [re.sub(r'[^a-z0-9]+', '_', s)]: each maximal run of other characters
    becomes one underscore; [in_run] tells that the previous character was
    already replaced. *)
Fixpoint sub_runs (in_run : bool) (l : list ascii) : list ascii :=
  match l with
  | [] => []
  | c :: l' =>
      if is_lower c || is_digit c then c :: sub_runs false l'
      else if in_run then sub_runs true l'
      else "_"%char :: sub_runs true l'
  end.

Definition sub_non_alnum_runs (s : string) : string := of_chars (sub_runs false (chars s)).

Definition LF : ascii := ascii_of_N 10.
Definition CR : ascii := ascii_of_N 13.
Definition nl : string := String LF EmptyString.

(** [io.readlines()] of a text file opened with the default newline
    handling: a line ends at LF, CR or CR LF, and every line end is handed
    out as LF; a last line without line end is a line too. *)
Fixpoint readlines_chars (cur : list ascii) (l : list ascii) : list string :=
  match l with
  | [] => match cur with [] => [] | _ => [of_chars (rev cur)] end
  | c :: l' =>
      if Ascii.eqb c LF then of_chars (rev (LF :: cur)) :: readlines_chars [] l'
      else if Ascii.eqb c CR then
        of_chars (rev (LF :: cur)) ::
        match l' with
        | d :: l'' => if Ascii.eqb d LF then readlines_chars [] l'' else readlines_chars [] l'
        | [] => []
        end
      else readlines_chars (c :: cur) l'
  end.

Definition readlines (s : string) : list string := readlines_chars [] (chars s).

End Str.

(** ** JSON values, dates and the library interface *)

Inductive JValue :=
| JNull
| JBool (b : bool)
| JInt (n : Z)
| JStr (s : string)
| JList (l : list JValue)
| JDict (d : gmap string JValue).

(** A [datetime.datetime] value. *)
Record datetime := mkDatetime {
  dt_year : Z; dt_month : Z; dt_day : Z;
  dt_hour : Z; dt_minute : Z; dt_second : Z
}.

(** The pure functions of the third-party packages the scrapers call
    ([json], [dateparser], [datetime], [urllib.parse]).  [None] stands for
    Python's [None] in [search_dates] and [parse_dates], and for a
    [JSONDecodeError] in [json_loads]. *)
Record Library := mkLibrary {
  json_dumps : JValue -> string;
  json_loads : string -> option JValue;
  search_dates : string -> option (list (string * datetime));
  parse_dates : string -> option datetime;
  strftime : datetime -> string -> string;
  urlparse_path : string -> string
}.

(** ** Exceptions, the world and the monad *)

Inductive exn :=
| AttributeError | TypeError | IndexError | KeyError | NameError
| AssertionError | JSONDecodeError
| FileNotFoundError | FileExistsError | NotADirectoryError | IsADirectoryError
| ConnectionError
| SystemExit.

#[global] Instance exn_eq_dec : EqDecision exn.
Proof. solve_decision. Defined.

(** [except Exception] catches everything but [SystemExit]. *)
Definition is_Exception (e : exn) : bool :=
  match e with SystemExit => false | _ => true end.

Inductive Res (A : Type) :=
| Ok (a : A)
| Raise (e : exn).
Arguments Ok {A} a.
Arguments Raise {A} e.

Inductive Level := INFO | WARNING | ERROR | CRITICAL.

(** One call of [logging.<level>(fmt, *args)] or one [print]. *)
Record LogRecord := mkLog { lg_level : Level; lg_fmt : string; lg_args : list JValue }.

(** A path is the list of its components below the file-system root;
    components hold no slash.  A component is a name: [.] and [..] are not
    resolved, so the paths of the model are those of the operating system
    when no component is one of the two. *)
Abbreviation Path := (list string).

Record World := mkWorld {
  w_files : gmap Path string;   (* regular files and their text *)
  w_dirs : gset Path;           (* directories, the root apart *)
  w_cwd : Path;                 (* working directory of the process *)
  w_log : list LogRecord;       (* log records, oldest first *)
  w_requests : list string;     (* URLs given to requests.get, oldest first *)
  w_writes : list Path          (* paths opened for writing, oldest first *)
}.

Definition set_files (f : gmap Path string) (w : World) : World :=
  mkWorld f (w_dirs w) (w_cwd w) (w_log w) (w_requests w) (w_writes w).
Definition set_dirs (d : gset Path) (w : World) : World :=
  mkWorld (w_files w) d (w_cwd w) (w_log w) (w_requests w) (w_writes w).
Definition add_log (r : LogRecord) (w : World) : World :=
  mkWorld (w_files w) (w_dirs w) (w_cwd w) (w_log w ++ [r]) (w_requests w) (w_writes w).
Definition add_request (u : string) (w : World) : World :=
  mkWorld (w_files w) (w_dirs w) (w_cwd w) (w_log w) (w_requests w ++ [u]) (w_writes w).
Definition add_write (p : Path) (w : World) : World :=
  mkWorld (w_files w) (w_dirs w) (w_cwd w) (w_log w) (w_requests w) (w_writes w ++ [p]).

(** A computation runs in a world and ends normally or by an exception;
    what it did to the world before an exception stays done. *)
Definition M (A : Type) : Type := World -> Res A * World.

Definition ret {A} (a : A) : M A := fun w => (Ok a, w).
Definition raise {A} (e : exn) : M A := fun w => (Raise e, w).
Definition bind {A B} (m : M A) (f : A -> M B) : M B :=
  fun w => match m w with
           | (Ok a, w') => f a w'
           | (Raise e, w') => (Raise e, w')
           end.

Declare Scope py_scope.
Delimit Scope py_scope with py.
Notation "x <- c1 ;; c2" := (bind c1 (fun x => c2))
  (at level 100, c1 at next level, right associativity) : py_scope.
Notation "c1 ;; c2" := (bind c1 (fun _ => c2))
  (at level 100, right associativity) : py_scope.
Open Scope py_scope.

(** [try: m except Exception as ex: h ex] *)
Definition try_except {A} (m : M A) (h : exn -> M A) : M A :=
  fun w => match m w with
           | (Ok a, w') => (Ok a, w')
           | (Raise e, w') => if is_Exception e then h e w' else (Raise e, w')
           end.

(** A pure step that may raise. *)
Definition lift {A} (r : Res A) : M A := fun w => (r, w).

Definition logging (l : Level) (fmt : string) (args : list JValue) : M unit :=
  fun w => (Ok tt, add_log (mkLog l fmt args) w).

(** [for x in l: body x] *)
Fixpoint for_each {A} (l : list A) (body : A -> M unit) : M unit :=
  match l with
  | [] => ret tt
  | x :: l' => body x ;; for_each l' body
  end.

(** The artifacts of a world: its files and directories. *)
Definition artifacts (w : World) : gmap Path string * gset Path := (w_files w, w_dirs w).

(** ** The file system *)

Module Os.

(** [os.path.join(base, *parts)] for relative, slash-free parts: an empty
    part adds no component. *)
Definition path_join (base : Path) (parts : list string) : Path :=
  base ++ filter (fun s => s ≠ "") parts.

(** [os.path.dirname] *)
Definition dirname (p : Path) : Path := removelast p.

(** The path as the text the log shows. *)
Definition path_str (p : Path) : string := "/" ++ Str.join "/" p.

Definition isfile (p : Path) (w : World) : bool :=
  match w_files w !! p with Some _ => true | None => false end.

Definition isdir (p : Path) (w : World) : bool :=
  match p with [] => true | _ => bool_decide (p ∈ w_dirs w) end.

Definition exists_ (p : Path) (w : World) : bool := isfile p w || isdir p w.

(** [os.mkdir(p)] *)
Definition mkdir (p : Path) : M unit := fun w =>
  if exists_ p w then (Raise FileExistsError, w)
  else if isdir (dirname p) w then (Ok tt, set_dirs ({[p]} ∪ w_dirs w) w)
  else if isfile (dirname p) w then (Raise NotADirectoryError, w)
  else (Raise FileNotFoundError, w).

(** [os.makedirs(p)], on the reversed path: missing ancestors are made
    first (a [FileExistsError] from that call is passed over), then the
    leaf. *)
Fixpoint makedirs_rev (rp : list string) : M unit :=
  match rp with
  | [] => mkdir []
  | _ :: rhead =>
      (fun w =>
         if exists_ (rev rhead) w then (Ok tt, w)
         else match makedirs_rev rhead w with
              | (Raise FileExistsError, w') => (Ok tt, w')
              | r => r
              end) ;;
      mkdir (rev rp)
  end.

Definition makedirs (p : Path) : M unit := makedirs_rev (rev p).

(** [with open(p, "w") as io: io.write(text)] *)
Definition write_file (p : Path) (text : string) : M unit := fun w =>
  if isdir p w then (Raise IsADirectoryError, w)
  else if isdir (dirname p) w then
    (Ok tt, add_write p (set_files (<[p := text]> (w_files w)) w))
  else if isfile (dirname p) w then (Raise NotADirectoryError, w)
  else (Raise FileNotFoundError, w).

(** [open(p).read()] *)
Definition read_file (p : Path) : M string := fun w =>
  match w_files w !! p with
  | Some text => (Ok text, w)
  | None => if isdir p w then (Raise IsADirectoryError, w)
            else (Raise FileNotFoundError, w)
  end.

(** The name [n] such that [q = d ++ [n]], if any. *)
Fixpoint child_of (d q : Path) : option string :=
  match d, q with
  | [], [n] => Some n
  | a :: d', b :: q' => if decide (a = b) then child_of d' q' else None
  | _, _ => None
  end.

(** The names of the entries of directory [d], files and directories. *)
Definition entries (d : Path) (w : World) : list string :=
  omap (child_of d) (elements (dom (w_files w) ∪ w_dirs w)).

(** [os.listdir(d)] *)
Definition listdir (d : Path) : M (list string) := fun w =>
  if isdir d w then (Ok (entries d w), w)
  else if isfile d w then (Raise NotADirectoryError, w)
  else (Raise FileNotFoundError, w).

End Os.

(** ** The HTTP client and the parsed page *)

(** What [BeautifulSoup] finds in a page, query by query.  Every record
    below holds the answers to the look-ups the scrapers make on one
    element; [None] is the [None] a look-up returns when nothing matches. *)

Record Anchor := mkAnchor {
  a_href : option string;             (* anchor.attrs.get('href') *)
  a_text : string                     (* anchor.text *)
}.

Record Child := mkChild {
  c_name : option string;             (* rsb.name; None for a text node *)
  c_text : string                     (* rsb.text *)
}.

(** One element of [soup.find_all(attrs={'class': 'result-body'})].  The
    children are those seen by the loop over [result_body.children], which
    runs after the line breaks next to the home icon were replaced. *)
Record ResultBody := mkResultBody {
  rb_h4_anchor : option (option Anchor);  (* find_previous_sibling('h4'), then .find('a') *)
  rb_stripped_strings : list string;      (* result_body.stripped_strings *)
  rb_fa_home : option (list string);      (* find fa-home: text runs of its parent between <br> *)
  rb_fa_envelope : option (option string);(* find fa-envelope: text of find_next(), if any *)
  rb_fa_phone : option (option string);   (* find fa-phone: text of find_next(), if any *)
  rb_children : list Child                (* result_body.children *)
}.

(** An element of class [profile-info-label]. *)
Record Label := mkLabel {
  lb_text : string;                       (* label.getText() *)
  lb_next_value : option (list string)    (* find_next(profile-info-value): its text runs between <br> *)
}.

Record ProfileHeader := mkProfileHeader {
  ph_text : string;                       (* x.text *)
  ph_next_div : option (list Label)       (* find_next('div'), then its labels *)
}.

Record ContainerHeader := mkContainerHeader {
  ch_text : string;                       (* x.text, the same as getText() *)
  ch_body : option (list Label)           (* find_next('div', page-container-body), then its labels *)
}.

(** An element of class [js-react-proj-card]. *)
Record Card := mkCard {
  cd_pid : option string;                 (* p.get('data-pid') *)
  cd_project : option string              (* p.get('data-project') *)
}.

Record Soup := mkSoup {
  result_bodies : list ResultBody;
  profile_headers : list ProfileHeader;
  page_container_headers : list ContainerHeader;
  proj_cards : list Card
}.

Record Response := mkResponse {
  status_code : Z;
  text : string;                          (* page.text *)
  soup : Soup                             (* BeautifulSoup(page.content, 'html.parser') *)
}.

(** What surrounds one run: the answer of the network to a GET of a URL
    (a response, or the exception [requests.get] raises) and the reading of
    the clock. *)
Record Env := mkEnv {
  net : string -> Res Response;
  now : datetime
}.

(** [requests.get(url)] *)
Definition requests_get (env : Env) (url : string) : M Response :=
  fun w => (net env url, add_request url w).

(** ** public_data_digger_scraper.py *)

Module Digger.

Definition INPUT_DATA_DIR : Path := ["data"; "project"; "voter_registration_scraping"; "input"].
Definition SEARCH_URL : string := "https://publicdatadigger.com/search".
Definition MAX_RESULTS_ON_SEARCH_PAGE : Z := 10000.
Definition SCRAPING_SEARCH_DIR : Path :=
  ["data"; "project"; "voter_registration_scraping"; "output"; "search"].
Definition SCRAPING_DETAILS_DIR : Path :=
  ["data"; "project"; "voter_registration_scraping"; "output"; "details"].

(** A parsed search result. *)
Abbreviation Record_ := (gmap string JValue).

Section WithLibrary.

Context (lib : Library).

(** *** Search *)

(** [urlparse(SEARCH_URL)._replace(query=...).geturl()] *)
Definition complete_url_with_names (fname lname : string) : string :=
  SEARCH_URL ++ "?" ++
  ("q=" ++ Str.upper (Str.strip fname) ++ "+" ++ Str.upper (Str.strip lname)).

(** [urlparse(SEARCH_URL)._replace(path=href, query='').geturl()]: a path
    that does not start with a slash gets one; without an [href] the
    concatenation inside [geturl] fails. *)
Definition complete_url_with_anchor (anchor : option Anchor) : Res string :=
  match anchor with
  | None => Raise AttributeError
  | Some a =>
      match a_href a with
      | None => Raise TypeError
      | Some href =>
          Ok ("https://publicdatadigger.com" ++
              (if Str.startswith href "/" || String.eqb href "" then href
               else "/" ++ href))
      end
  end.

Definition next_text_only (next_elm : option string) : JValue :=
  match next_elm with
  | Some t => JStr (Str.strip t)
  | None => JNull
  end.

(** [parent_text_with_nl] and [text_with_nl]: the line breaks become the
    delimiter, the text is stripped. *)
Definition text_with_nl (runs : list string) (delimiter : string) : string :=
  Str.strip (Str.join delimiter runs).

(** The body of [for rsb in result_body.children]. *)
Definition scan_child (date_format : string) (rsb : Child) (res : Record_) : Res Record_ :=
  match c_name rsb with
  | None | Some "" => Ok res
  | Some _ =>
      let txt := Str.strip (c_text rsb) in
      if Str.contains "born" (Str.lower txt) then
        match search_dates lib txt with
        | None => Raise TypeError                   (* len(None) *)
        | Some [] => Ok res
        | Some ((dtext, d) :: _) =>
            Ok (<["birth_date_text" := JStr dtext]>
                  (<["birth_date" := JStr (strftime lib d date_format)]> res))
        end
      else if Str.contains "updated" (Str.lower txt) then
        match search_dates lib txt with
        | None => Raise TypeError
        | Some [] => Ok res
        | Some ((dtext, d) :: _) =>
            Ok (<["updated_date_text" := JStr dtext]>
                  (<["updated_date" := JStr (strftime lib d date_format)]> res))
        end
      else Ok res
  end.

Fixpoint scan_children (date_format : string) (children : list Child) (res : Record_)
  : Res Record_ :=
  match children with
  | [] => Ok res
  | rsb :: rest =>
      match scan_child date_format rsb res with
      | Ok res' => scan_children date_format rest res'
      | Raise e => Raise e
      end
  end.

(** One pass of the loop over the result bodies, up to [results.append]. *)
Definition parse_result_body (line_delimiter date_format : string) (result_body : ResultBody)
  : Res Record_ :=
  match rb_h4_anchor result_body with
  | None => Raise AttributeError
  | Some detail_a =>
      match complete_url_with_anchor detail_a, detail_a with
      | Raise e, _ => Raise e
      | Ok _, None => Raise AttributeError
      | Ok detail_url, Some a =>
          let res : Record_ := <["detail_url" := JStr detail_url]> ∅ in
          let res := <["detail_url_text" := JStr (Str.strip (a_text a))]> res in
          let res := <["display_text" :=
                         JStr (Str.join line_delimiter (rb_stripped_strings result_body))]> res in
          let res := match rb_fa_home result_body with
                     | Some runs => <["home_address" := JStr (text_with_nl runs line_delimiter)]> res
                     | None => res
                     end in
          let res := match rb_fa_envelope result_body with
                     | Some nxt => <["email_address" := next_text_only nxt]> res
                     | None => res
                     end in
          let res := match rb_fa_phone result_body with
                     | Some nxt => <["phone_number" := next_text_only nxt]> res
                     | None => res
                     end in
          scan_children date_format (rb_children result_body) res
      end
  end.

(** [for j, result_body in enumerate(...)], from index [j] on, with the
    records appended so far. *)
Fixpoint parse_result_bodies (line_delimiter date_format : string)
    (j : Z) (bodies : list ResultBody) (results : list Record_) : M (list Record_) :=
  match bodies with
  | [] => ret results
  | result_body :: rest =>
      if MAX_RESULTS_ON_SEARCH_PAGE <? j then
        logging ERROR "Too many results on search page. Number exceeds %d"
                [JInt MAX_RESULTS_ON_SEARCH_PAGE] ;;
        ret results
      else
        res <- lift (parse_result_body line_delimiter date_format result_body) ;;
        parse_result_bodies line_delimiter date_format (j + 1) rest (results ++ [res])
  end.

Definition datadigger_by_name (env : Env) (fname lname : string)
    (line_delimiter date_format : string) : M (string * list Record_) :=
  let query_url := complete_url_with_names fname lname in
  logging INFO "Query: %s" [JStr query_url] ;;
  page <- requests_get env query_url ;;
  results <-
    (if status_code page =? 200 then
       parse_result_bodies line_delimiter date_format 0 (result_bodies (soup page)) []
     else ret []) ;;
  ret (text page, results).

(** The lines of the JSON file of a search task, from index [j] on. *)
Fixpoint search_json_lines (env : Env) (fname lname : string) (output_name : Path)
    (date_format_now : string) (j : Z) (results : list Record_) : string :=
  match results with
  | [] => ""
  | res :: rest =>
      let res := <["order_number" := JInt j]> res in
      let res := <["first_name" := JStr fname]> res in
      let res := <["last_name" := JStr lname]> res in
      let res := <["json_file" := JStr (Os.path_str output_name)]> res in
      let res := <["scrape_date" := JStr (strftime lib (now env) date_format_now)]> res in
      json_dumps lib (JDict res) ++ Str.nl ++
      search_json_lines env fname lname output_name date_format_now (j + 1) rest
  end.

Definition search_output_fname (fname : string) : string := Str.sub_nonword (Str.strip (Str.lower fname)).
Definition search_output_path (lname : string) : Path :=
  Os.path_join SCRAPING_SEARCH_DIR ["json"; search_output_fname lname].
Definition search_output_name (fname lname : string) : Path :=
  Os.path_join (search_output_path lname) [search_output_fname fname ++ ".json"].
Definition search_html_path (lname : string) : Path :=
  Os.path_join SCRAPING_SEARCH_DIR ["html"; search_output_fname lname].
Definition search_html_name (fname lname : string) : Path :=
  Os.path_join (search_html_path lname) [search_output_fname fname ++ ".html"].

(** [for pth in [output_path, html_path]: if not os.path.isdir(pth): os.makedirs(pth)] *)
Definition ensure_dirs (paths : list Path) : M unit :=
  for_each paths (fun pth w => if Os.isdir pth w then (Ok tt, w) else Os.makedirs pth w).

(** The pause [time.sleep(random.randint( *sleep_time))] changes nothing
    the model keeps, and is left out. *)
Definition scrape_by_name (env : Env) (fname lname : string)
    (line_delimiter date_format : string) : M unit :=
  let output_path := search_output_path lname in
  let output_name := search_output_name fname lname in
  let html_path := search_html_path lname in
  let html_name := search_html_name fname lname in
  logging INFO "File: %s" [JStr (Os.path_str output_name)] ;;
  fun w =>
    if Os.isfile html_name w then
      logging INFO "Skip %s %s, file %s already exists."
              [JStr fname; JStr lname; JStr (Os.path_str html_name)] w
    else
      (ensure_dirs [output_path; html_path] ;;
       page <- datadigger_by_name env fname lname line_delimiter date_format ;;
       let '(html, results) := page in
       Os.write_file html_name html ;;
       if 0 <? Z.of_nat (List.length results) then
         logging INFO "Number or records: %d" [JInt (Z.of_nat (List.length results))] ;;
         Os.write_file output_name
           (search_json_lines env fname lname output_name "%Y-%m-%dT%H:%M:%S" 0 results)
       else
         logging WARNING "No records for %s %s" [JStr fname; JStr lname]) w.

(** *** Details *)

Definition clean_label (label : Label) : string :=
  let l_1 := Str.remove_char ":"%char (Str.strip (lb_text label)) in
  let l_2 := Str.sub_nonword l_1 in
  let l_3 := Str.sub_underscore_plus l_2 in
  Str.lower l_3.

(** [if key in date_keys and (prsdt := parse_dates(value)): value = prsdt.strftime(date_format)] *)
Definition reformat_date (date_format : string) (date_keys : list string)
    (key value : string) : string :=
  if bool_decide (key ∈ date_keys) then
    match parse_dates lib value with
    | Some prsdt => strftime lib prsdt date_format
    | None => value
    end
  else value.

(** The loop over the labels of a profile or of a registration body. *)
Fixpoint parse_labels (delimiter date_format : string) (date_keys : list string)
    (labels : list Label) (attrs : gmap string JValue) : Res (gmap string JValue) :=
  match labels with
  | [] => Ok attrs
  | label :: rest =>
      let key := clean_label label in
      match lb_next_value label with
      | None => Raise AttributeError
      | Some runs =>
          let value := reformat_date date_format date_keys key (text_with_nl runs delimiter) in
          parse_labels delimiter date_format date_keys rest (<[key := JStr value]> attrs)
      end
  end.

(** The loop over the headers titled "Voter Registration". *)
Fixpoint parse_registrations (line_delimiter date_format : string)
    (headers : list ContainerHeader) (acc : list JValue) : Res (list JValue) :=
  match headers with
  | [] => Ok acc
  | container_header :: rest =>
      match search_dates lib (ch_text container_header) with
      | None => Raise TypeError                      (* None[0] *)
      | Some [] => Raise IndexError
      | Some ((vr_date_text, vr_date) :: _) =>
          match ch_body container_header with
          | None => Raise AttributeError
          | Some labels =>
              match parse_labels line_delimiter date_format
                      ["birthdate"; "registration"] labels ∅ with
              | Raise e => Raise e
              | Ok vr_attr =>
                  parse_registrations line_delimiter date_format rest
                    (acc ++ [JDict (<["voter_registration_attributes" := JDict vr_attr]>
                                   (<["voter_registration_date_text" := JStr vr_date_text]>
                                   (<["voter_registration_date" :=
                                        JStr (strftime lib vr_date date_format)]> ∅)))])
              end
          end
      end
  end.

Definition parse_detail_page (line_delimiter date_format : string) (s : Soup)
  : Res (gmap string JValue) :=
  match filter (fun x => Str.contains "Additional Information" (ph_text x) = true)
               (profile_headers s) with
  | [] => Raise IndexError
  | profile_header :: _ =>
      match ph_next_div profile_header with
      | None => Raise AttributeError
      | Some labels =>
          match parse_labels Str.nl date_format ["born"] labels ∅ with
          | Raise e => Raise e
          | Ok profile =>
              match parse_registrations line_delimiter date_format
                      (filter (fun x => Str.contains "Voter Registration" (ch_text x) = true)
                              (page_container_headers s)) [] with
              | Raise e => Raise e
              | Ok regs =>
                  Ok (<["voter_registrations" := JList regs]>
                        (<["profile" := JDict profile]> ∅))
              end
          end
      end
  end.

Definition datadigger_detail_page (env : Env) (detail_url : string)
    (line_delimiter date_format : string) : M (string * gmap string JValue) :=
  page <- requests_get env detail_url ;;
  attributes <-
    (if status_code page =? 200 then
       lift (parse_detail_page line_delimiter date_format (soup page))
     else ret ∅) ;;
  ret (text page, attributes).

(** [path_parts[1:3]] and ['_'.join(path_parts[3:])] of the URL's path.
    When the first of the two leading segments is empty, their join starts
    with a slash and [os.path.join] drops everything before it.  The
    segments go into the name as they are, as in the string
    [os.path.join] returns, a segment [..] included. *)
Definition details_file (detail_url : string) (kind suffix : string) : Path :=
  let path_parts := Str.split "/"%char (urlparse_path lib detail_url) in
  let lead := take 2 (drop 1 path_parts) in
  let rel := (lead ++ [(Str.join "_" (drop 3 path_parts) ++ suffix)%string])%list in
  match lead with
  | ["" ; _] => Os.path_join [] rel
  | _ => Os.path_join SCRAPING_DETAILS_DIR (kind :: rel)
  end.

Definition details_output_name (detail_url : string) : Path := details_file detail_url "json" ".json".
Definition details_html_name (detail_url : string) : Path := details_file detail_url "html" ".html".

(** Truth value of a dictionary. *)
Definition dict_truthy (d : gmap string JValue) : bool := negb (Nat.eqb (size d) 0).

Definition scrape_details (env : Env) (detail_url : string)
    (line_delimiter date_format : string) : M unit :=
  let output_name := details_output_name detail_url in
  let output_path := Os.dirname output_name in
  let html_name := details_html_name detail_url in
  let html_path := Os.dirname html_name in
  logging INFO "File: %s" [JStr (Os.path_str output_name)] ;;
  fun w =>
    if Os.isfile html_name w then
      logging INFO "Skip %s, file %s already exists."
              [JStr detail_url; JStr (Os.path_str html_name)] w
    else
      (ensure_dirs [output_path; html_path] ;;
       page <- datadigger_detail_page env detail_url line_delimiter date_format ;;
       let '(html, results) := page in
       Os.write_file html_name html ;;
       if dict_truthy results then
         let results := <["detail_url" := JStr detail_url]> results in
         let results := <["json_file" := JStr (Os.path_str output_name)]> results in
         let results := <["scrape_date" :=
                            JStr (strftime lib (now env) "%Y-%m-%dT%H:%M:%S")]> results in
         Os.write_file output_name (json_dumps lib (JDict results) ++ Str.nl)
       else
         logging WARNING "No records for %s" [JStr detail_url]) w.

(** *** Data *)

Record DataFrame := mkDataFrame {
  df_rows : list JValue;                (* one row per element of the data *)
  df_attrs : gmap string JValue
}.

(** [n] in decimal with a comma between groups of three digits, the
    format [{n:,}]. *)
Fixpoint group_thousands (rev_digits : list ascii) : list ascii :=
  match rev_digits with
  | a :: b :: c :: ((_ :: _) as rest) => a :: b :: c :: ","%char :: group_thousands rest
  | _ => rev_digits
  end.

Definition format_thousands (n : Z) : string :=
  let digits := Str.chars (NilZero.string_of_uint (N.to_uint (Z.to_N (Z.abs n)))) in
  ((if (n <? 0)%Z then "-" else "") ++ Str.of_chars (rev (group_thousands (rev digits))))%string.

(** [map(json.loads, lines)], consumed in order. *)
Fixpoint loads_lines (lines : list string) : Res (list JValue) :=
  match lines with
  | [] => Ok []
  | l :: rest =>
      match json_loads lib l with
      | None => Raise JSONDecodeError
      | Some v =>
          match loads_lines rest with
          | Ok vs => Ok (v :: vs)
          | Raise e => Raise e
          end
      end
  end.

(** The inner loop of [load_search_results]; the state is [data] and
    [num_files]. *)
Fixpoint load_first_names (last : string) (firsts : list string)
    (st : list JValue * Z) : M (list JValue * Z) :=
  match firsts with
  | [] => ret st
  | first :: rest =>
      let data_file := Os.path_join SCRAPING_SEARCH_DIR ["json"; last; first] in
      st' <-
        (if Str.endswith (Os.path_str data_file) ".json" then
           content <- Os.read_file data_file ;;
           rows <- lift (loads_lines (Str.readlines content)) ;;
           ret ((fst st ++ rows)%list, snd st + 1)
         else ret st) ;;
      load_first_names last rest st'
  end.

Fixpoint load_last_names (lasts : list string) (st : list JValue * Z)
  : M (list JValue * Z) :=
  match lasts with
  | [] => ret st
  | last :: rest =>
      firsts <- Os.listdir (Os.path_join SCRAPING_SEARCH_DIR ["json"; last]) ;;
      st' <- load_first_names last firsts st ;;
      load_last_names rest st'
  end.

Definition load_search_results : M DataFrame :=
  lasts <- Os.listdir (Os.path_join SCRAPING_SEARCH_DIR ["json"]) ;;
  st <- load_last_names lasts ([], 0) ;;
  let '(data, num_files) := st in
  let number_of_records := Z.of_nat (List.length data) in
  ret (mkDataFrame data
         (<["summary_text" :=
              JStr ("Number of files: " ++ format_thousands num_files ++ Str.nl ++
                    "Number of records: " ++ format_thousands number_of_records)]>
         (<["number_of_records" := JInt number_of_records]>
         (<["number_of_files" := JInt num_files]>
         (<["data_source" := JStr (Os.path_str SCRAPING_SEARCH_DIR)]> ∅))))).

(** *** Main *)

Definition check_for_termination : M unit := fun w =>
  if Os.isfile (Os.path_join (w_cwd w) ["TERMINATE.NOW"]) w then
    (logging CRITICAL "Exit: termination on request" [] ;; raise SystemExit) w
  else (Ok tt, w).

Inductive Signal := SIGINT | SIGTERM.

Record GracefulTerminate := mkGracefulTerminate {
  gt_args : list Signal;                (* the signal the handler was called with *)
  terminate_now : bool
}.

(** [GracefulTerminate()]: the handlers are installed, the flag is down. *)
Definition GracefulTerminate_init : GracefulTerminate := mkGracefulTerminate [] false.

Definition exit_gracefully (self : GracefulTerminate) (sig : Signal) : GracefulTerminate :=
  mkGracefulTerminate [sig] true.

(** The signal, if any, that arrived since the flag was last read. *)
Definition deliver (arrived : option Signal) (self : GracefulTerminate) : GracefulTerminate :=
  match arrived with
  | Some sig => exit_gracefully self sig
  | None => self
  end.

Definition exn_name (e : exn) : string :=
  match e with
  | AttributeError => "AttributeError" | TypeError => "TypeError"
  | IndexError => "IndexError" | KeyError => "KeyError" | NameError => "NameError"
  | AssertionError => "AssertionError" | JSONDecodeError => "JSONDecodeError"
  | FileNotFoundError => "FileNotFoundError" | FileExistsError => "FileExistsError"
  | NotADirectoryError => "NotADirectoryError" | IsADirectoryError => "IsADirectoryError"
  | ConnectionError => "ConnectionError" | SystemExit => "SystemExit"
  end.

(** A row of the table of names; [JNull] is a missing value. *)
Record Row := mkRow { f_name : JValue; l_name : JValue }.

Definition is_na (v : JValue) : bool := match v with JNull => true | _ => false end.

Definition dropna (rows : list Row) : list Row :=
  filter (fun r => (is_na (f_name r) || is_na (l_name r)) = false) rows.

(** [v.strip() if isinstance(v, str) else ''] *)
Definition strip_if_str (v : JValue) : string :=
  match v with JStr s => Str.strip s | _ => "" end.

(** One pass of the loop of [main_search], after the flag was read. *)
Definition search_row (env : Env) (row : Row) : M unit :=
  let l_name := strip_if_str (l_name row) in
  let f_name := strip_if_str (f_name row) in
  if (0 <? Z.of_nat (String.length l_name)) && (0 <? Z.of_nat (String.length f_name)) then
    try_except (scrape_by_name env f_name l_name Str.nl "%Y-%m-%d")
               (fun ex => logging ERROR "Exception: %s" [JStr (exn_name ex)])
  else
    logging WARNING "Invalid record: '%s' '%s'" [JStr f_name; JStr l_name].

(** [for j, row in names_df.iterrows()], from pass [j] on.  [signals j]
    is the signal that arrived after the flag was read in pass [j - 1]
    (after the handlers were installed, for [j = 0]) and before it is read
    in pass [j]. *)
Fixpoint search_loop (env : Env) (signals : nat -> option Signal) (j : nat)
    (terminate : GracefulTerminate) (rows : list Row) : M unit :=
  match rows with
  | [] => ret tt
  | row :: rest =>
      let terminate := deliver (signals j) terminate in
      if terminate_now terminate then ret tt
      else search_row env row ;; search_loop env signals (S j) terminate rest
  end.

(** [names_df_file] is the table read from [final_race.csv]. *)
Definition main_search (env : Env) (signals : nat -> option Signal)
    (names_df_file : list Row) : M unit :=
  logging INFO "Started" [] ;;
  let names_df := dropna names_df_file in
  logging INFO "Number of records: %d" [JInt (Z.of_nat (List.length names_df))] ;;
  let terminate := GracefulTerminate_init in
  search_loop env signals 0 terminate names_df ;;
  logging INFO "Finished" [].

(** One pass of the loop of [main_details]; in the [else] branch the name
    [row] is not bound. *)
Definition details_row (env : Env) (detail_url : string) : M unit :=
  if 0 <? Z.of_nat (String.length detail_url) then
    try_except (scrape_details env detail_url Str.nl "%Y-%m-%d")
               (fun ex => logging ERROR "Exception: %s" [JStr (exn_name ex)])
  else raise NameError.

Fixpoint details_loop (env : Env) (signals : nat -> option Signal) (j : nat)
    (terminate : GracefulTerminate) (details_list : list string) : M unit :=
  match details_list with
  | [] => ret tt
  | detail_url :: rest =>
      let terminate := deliver (signals j) terminate in
      if terminate_now terminate then ret tt
      else details_row env detail_url ;; details_loop env signals (S j) terminate rest
  end.

Definition main_details (env : Env) (signals : nat -> option Signal)
    (url_list_file : Path) : M unit :=
  logging INFO "Started" [] ;;
  content <- Os.read_file url_list_file ;;
  let details_list :=
    filter (fun u => (0 <? Z.of_nat (String.length u)) = true)
           (map Str.strip (Str.readlines content)) in
  logging INFO "Number of records: %d" [JInt (Z.of_nat (List.length details_list))] ;;
  let terminate := GracefulTerminate_init in
  details_loop env signals 0 terminate details_list ;;
  logging INFO "Finished" [].

End WithLibrary.

End Digger.

(** ** scrape_kickstarter.py *)

Module Kickstarter.

Definition data_dir : Path := ["data"; "project"; "kickstarter_indiegogo2021"].

Definition categories_to_scrape : list string := ["design"; "fashion"; "food"; "technology"].

(** The dictionary in the order it is written, which is the order of
    [cat_dict.keys()]. *)
Definition cat_dict : list (string * Z) :=
  [("art", 1); ("comics", 3); ("crafts", 26); ("dance", 6); ("design", 7);
   ("fashion", 9); ("film_video", 11); ("food", 10); ("games", 12);
   ("journalism", 13); ("music", 14); ("photography", 15); ("publishing", 18);
   ("technology", 16); ("theater", 17)].

(** [cat_dict.get(sect, -1)] *)
Fixpoint cat_dict_get (d : list (string * Z)) (sect : string) : Z :=
  match d with
  | [] => -1
  | (k, v) :: d' => if String.eqb k sect then v else cat_dict_get d' sect
  end.

(** The module-level names set when the module is loaded.  [any_state] is
    bound only when the file runs as a script. *)
Record Globals := mkGlobals {
  web_scrape_timestamp : Z;
  web_scrape_isodate : string;
  web_scrape_path : Path;               (* "%Y/%m%d/%H%M", by component *)
  any_state : option bool
}.

(** The answers of the site to the pages 1, 2, ... of a listing; past the
    end of the list it answers with a status other than 200. *)
Abbreviation Site := (string -> list (Res Response)).

Definition str_of_Z (n : Z) : string :=
  ((if (n <? 0)%Z then "-" else "") ++ NilZero.string_of_uint (N.to_uint (Z.to_N (Z.abs n))))%string.

(** [print] of one line. *)
Definition info (msg : string) : M unit := logging INFO msg [].

Definition clean_category_string (s : string) : string :=
  let s0 := Str.lower s in
  let s1 := Str.sub_non_alnum_runs s0 in
  s1.

(** [os.system("mkdir -p " + p)] on the prefixes of [p] not yet visited,
    [done] being the one visited last: the exit status and the directories
    made. *)
Fixpoint mkdir_p_from (done : Path) (todo : list string) (w : World) : Z * World :=
  match todo with
  | [] => (0, w)
  | c :: todo' =>
      let q := (done ++ [c])%list in
      if Os.isfile q w then (1, w)
      else mkdir_p_from q todo' (if Os.isdir q w then w else set_dirs ({[q]} ∪ w_dirs w) w)
  end.

Definition mkdir_p (p : Path) : M Z := fun w =>
  let '(res, w') := mkdir_p_from [] p w in (Ok res, w').

(** [d[key]] *)
Definition subscript (d : JValue) (key : string) : Res JValue :=
  match d with
  | JDict m => match m !! key with Some v => Ok v | None => Raise KeyError end
  | _ => Raise TypeError
  end.

(** [d[key] = v] *)
Definition set_item (d : JValue) (key : string) (v : JValue) : Res JValue :=
  match d with
  | JDict m => Ok (JDict (<[key := v]> m))
  | _ => Raise TypeError
  end.

(** [f"{pid}"] *)
Definition format_pid (pid : option string) : string :=
  match pid with Some s => s | None => "None" end.

(** The URL of a listing, without the page. *)
Definition base_url (state_arg : string) (category_id : Z) : string :=
  "https://www.kickstarter.com/discover/advanced?" ++ state_arg ++
  "category_id=" ++ str_of_Z category_id ++ "&sort=newest&seed=2731239".

(** The value of [stloop] for a value of the global [any_state]. *)
Definition stloop_of (any_state : bool) : list (string * string) :=
  if any_state then [("any", "")]
  else map (fun s => (s, "state=" ++ s ++ "&")) ["live"; "upcoming"].

Section WithLibrary.

Context (lib : Library) (g : Globals).

(** The body of [for k, p in enumerate(projects)] up to the test of the
    limit; the result is the new [project_counter]. *)
Definition scrape_project (p : Card) (project_counter : Z) : M Z :=
  let pid := cd_pid p in
  data <- lift (match cd_project p with
                | None => Raise TypeError
                | Some s => match json_loads lib s with
                            | Some v => Ok v
                            | None => Raise JSONDecodeError
                            end
                end) ;;
  let project_counter := project_counter + 1 in
  info ("Project ID: " ++ format_pid pid ++ ", (" ++
        Digger.format_thousands project_counter ++ ")") ;;
  slug <- lift (match subscript data "category" with
                | Ok c => subscript c "slug"
                | Raise e => Raise e
                end) ;;
  category <- lift (match slug with
                    | JStr s => Ok (clean_category_string s)
                    | _ => Raise AttributeError
                    end) ;;
  let dest_dir :=
    Os.path_join data_dir (web_scrape_path g ++ [category; format_pid pid])%list in
  res <- mkdir_p dest_dir ;;
  (if res =? 0 then ret tt else raise AssertionError) ;;
  data <- lift (set_item data "web_scrape_timestamp" (JInt (web_scrape_timestamp g))) ;;
  data <- lift (set_item data "web_scrape_isodate" (JStr (web_scrape_isodate g))) ;;
  Os.write_file (Os.path_join dest_dir ["data.json"]) (json_dumps lib data) ;;
  ret project_counter.

(** How a loop inside [scraping] ends: it runs out, or [return] leaves the
    function. *)
Inductive Ctl :=
| Continue (project_counter : Z)
| Return (n : Z).

Fixpoint projects_loop (limit : Z) (projects : list Card) (project_counter : Z) : M Ctl :=
  match projects with
  | [] => ret (Continue project_counter)
  | p :: rest =>
      project_counter <- scrape_project p project_counter ;;
      if (0 <? limit) && (limit <? project_counter) then ret (Return project_counter)
      else projects_loop limit rest project_counter
  end.

(** [for soup in get_pages_yield_soup(base_url)], from the request of page
    [page_number] on; [answers] are the answers of the site from that page
    on.  The pause between two pages is left out. *)
Fixpoint pages_loop (limit : Z) (base_url : string) (page_number : Z)
    (answers : list (Res Response)) (project_counter : Z) : M Ctl :=
  fun w =>
    let w := add_request (base_url ++ "&page=" ++ str_of_Z page_number) w in
    match answers with
    | [] => (Ok (Continue project_counter), w)
    | Raise e :: _ => (Raise e, w)
    | Ok page :: rest =>
        if status_code page =? 200 then
          (info ("Page Number: " ++ Digger.format_thousands page_number) ;;
           ctl <- projects_loop limit (proj_cards (soup page)) project_counter ;;
           match ctl with
           | Return n => ret (Return n)
           | Continue project_counter =>
               pages_loop limit base_url (page_number + 1) rest project_counter
           end) w
        else (Ok (Continue project_counter), w)
    end.

Fixpoint states_loop (site : Site) (limit : Z) (category_id : Z)
    (stloop : list (string * string)) (project_counter : Z) : M Ctl :=
  match stloop with
  | [] => ret (Continue project_counter)
  | (state, state_arg) :: rest =>
      let base_url := base_url state_arg category_id in
      ctl <- pages_loop limit base_url 1 (site base_url) project_counter ;;
      match ctl with
      | Return n => ret (Return n)
      | Continue project_counter => states_loop site limit category_id rest project_counter
      end
  end.

Fixpoint sections_loop (site : Site) (limit : Z) (stloop : list (string * string))
    (sections : list string) (project_counter : Z) : M Ctl :=
  match sections with
  | [] => ret (Continue project_counter)
  | sect :: rest =>
      info ("Start section `" ++ sect ++ "`") ;;
      let category_id := cat_dict_get cat_dict sect in
      if category_id <? 0 then
        info ("Unknown category '" ++ sect ++ "'") ;;
        sections_loop site limit stloop rest project_counter
      else
        ctl <- states_loop site limit category_id stloop project_counter ;;
        match ctl with
        | Return n => ret (Return n)
        | Continue project_counter => sections_loop site limit stloop rest project_counter
        end
  end.

Definition scraping (site : Site) (sections : option (list string)) (anyState : bool)
    (limit : Z) : M Z :=
  let sections := match sections with
                  | None => map fst cat_dict
                  | Some l => l
                  end in
  let project_counter := 0 in
  stloop <- lift (match any_state g with
                  | None => Raise NameError
                  | Some b => Ok (stloop_of b)
                  end) ;;
  ctl <- sections_loop site limit stloop sections project_counter ;;
  match ctl with
  | Return n => ret n
  | Continue project_counter => ret project_counter
  end.

End WithLibrary.

End Kickstarter.

(** ** Sample data

    Stand-ins for the libraries and small pages, used to run the model on
    concrete inputs. *)

Module Sample.

Definition jan_1_1990 : datetime := mkDatetime 1990 1 1 0 0 0.

(** A library that knows one date phrase, prints every value as an empty
    object and reads every line as one. *)
Definition lib : Library :=
  mkLibrary
    (fun _ => "{}")
    (fun _ => Some (JDict ∅))
    (fun txt => if Str.contains "Jan 1, 1990" txt then Some [("Jan 1, 1990", jan_1_1990)] else None)
    (fun txt => if Str.contains "Jan 1, 1990" txt then Some jan_1_1990 else None)
    (fun _ _ => "1990-01-01")
    (fun url => "/person/doe/jane/42").

Definition empty_soup : Soup := mkSoup [] [] [] [].

Definition empty_world : World := mkWorld ∅ ∅ ["home"; "scraper"] [] [] [].

(** A result block with a heading link and the given children. *)
Definition block (children : list Child) : ResultBody :=
  mkResultBody (Some (Some (mkAnchor (Some "/person/doe/jane/42") "Jane Doe")))
               ["Jane Doe"] None None None children.

Definition search_page (bodies : list ResultBody) : Response :=
  mkResponse 200 "<html>results</html>" (mkSoup bodies [] [] []).

Definition not_found : Response := mkResponse 404 "Not Found" empty_soup.

(** An environment whose network gives the same answer to every URL. *)
Definition env_of (answer : Res Response) : Env := mkEnv (fun _ => answer) jan_1_1990.

(** A project card of the crowdfunding listing. *)
Definition card (pid : string) : Card := mkCard (Some pid) (Some "{}").

(** A library whose [json_loads] gives every card the category slug
    [design/product]. *)
Definition ks_lib : Library :=
  mkLibrary
    (fun _ => "{}")
    (fun _ => Some (JDict {[ "category" := JDict {[ "slug" := JStr "design/product" ]} ]}))
    (fun _ => None) (fun _ => None) (fun _ _ => "") (fun url => url).

Definition ks_globals (any : bool) : Kickstarter.Globals :=
  Kickstarter.mkGlobals 1656000000 "2022-06-23T16:00:00" ["2022"; "0623"; "1600"] (Some any).

Definition listing (cards : list Card) : Response := mkResponse 200 "" (mkSoup [] [] [] cards).

End Sample.

(** * The words of the properties *)

(** Two worlds with the same files and directories. *)
Definition same_store (w w' : World) : Prop := artifacts w = artifacts w'.

(** The outcome of [m] and the store it leaves depend on the store only. *)
Definition store_only {A} (m : M A) : Prop :=
  forall w w', same_store w w' ->
    fst (m w) = fst (m w') /\ same_store (snd (m w)) (snd (m w')).

(** What [makedirs] leaves behind: only directories are added, none longer
    than the path; after a failure the path itself is not among them, and
    the same call fails again without adding anything. *)
Definition makedirs_outcome (rp : list string) (w : World) (out : Res unit * World) : Prop :=
  snd out = set_dirs (w_dirs (snd out)) w /\
  w_dirs w ⊆ w_dirs (snd out) /\
  match fst out with
  | Ok _ =>
      Os.isdir (rev rp) (snd out) = true /\
      forall q, q ∈ w_dirs (snd out) -> q ∈ w_dirs w \/ (List.length q <= List.length rp)%nat
  | Raise e =>
      (forall q, q ∈ w_dirs (snd out) -> q ∈ w_dirs w \/ (List.length q < List.length rp)%nat) /\
      Os.makedirs_rev rp (snd out) = (Raise e, snd out)
  end.

(** What [ensure_dirs] leaves behind: directories only; all of the paths
    when it ends normally; and when it fails it fails again, changing
    nothing, from every world with the store it left. *)
Definition ensure_outcome (ps : list Path) (w : World) (out : Res unit * World) : Prop :=
  snd out = set_dirs (w_dirs (snd out)) w /\
  w_dirs w ⊆ w_dirs (snd out) /\
  match fst out with
  | Ok _ => forall p, p ∈ ps -> Os.isdir p (snd out) = true
  | Raise _ =>
      forall w2, same_store w2 (snd out) ->
        (exists e', fst (Digger.ensure_dirs ps w2) = Raise e') /\
        same_store (snd (Digger.ensure_dirs ps w2)) w2
  end.

(** The common shape of [scrape_by_name] and [scrape_details]. *)
Definition runner {R} (file_msg skip_msg : LogRecord) (html_name : Path) (dirs : list Path)
    (fetch : M (string * R)) (persist : R -> M unit) : M unit :=
  fun w0 =>
    let w := add_log file_msg w0 in
    if Os.isfile html_name w then (Ok tt, add_log skip_msg w)
    else match Digger.ensure_dirs dirs w with
         | (Raise e, w1) => (Raise e, w1)
         | (Ok _, w1) =>
             match fetch w1 with
             | (Raise e, w2) => (Raise e, w2)
             | (Ok (html, results), w2) =>
                 match Os.write_file html_name html w2 with
                 | (Raise e, w3) => (Raise e, w3)
                 | (Ok _, w3) => persist results w3
                 end
             end
         end.

(** What is written after the raw page, for a search and for a detail
    page. *)
Definition search_persist (lib : Library) (env : Env) (fname lname : string)
    (results : list Digger.Record_) : M unit :=
  let output_name := Digger.search_output_name fname lname in
  if 0 <? Z.of_nat (List.length results) then
    logging INFO "Number or records: %d" [JInt (Z.of_nat (List.length results))] ;;
    Os.write_file output_name
      (Digger.search_json_lines lib env fname lname output_name "%Y-%m-%dT%H:%M:%S" 0 results)
  else
    logging WARNING "No records for %s %s" [JStr fname; JStr lname].

Definition details_persist (lib : Library) (env : Env) (detail_url : string)
    (results : gmap string JValue) : M unit :=
  let output_name := Digger.details_output_name lib detail_url in
  if Digger.dict_truthy results then
    let results := <["detail_url" := JStr detail_url]> results in
    let results := <["json_file" := JStr (Os.path_str output_name)]> results in
    let results := <["scrape_date" :=
                       JStr (strftime lib (now env) "%Y-%m-%dT%H:%M:%S")]> results in
    Os.write_file output_name (json_dumps lib (JDict results) ++ Str.nl)
  else
    logging WARNING "No records for %s" [JStr detail_url].

(** A computation that leaves the store alone and whose outcome does not
    depend on the world: fetching and parsing. *)
Definition observer {A} (m : M A) : Prop :=
  (forall w, same_store (snd (m w)) w) /\ (forall w w', fst (m w) = fst (m w')).

(** A computation that removes no file. *)
Definition keeps_files {A} (m : M A) : Prop :=
  forall p w, Os.isfile p w = true -> Os.isfile p (snd (m w)) = true.

(** No file sits on the way to [p], [p] included. *)
Definition clear_path (p : Path) (w : World) : Prop :=
  forall q, q `prefix_of` p -> Os.isfile q w = false.

(** The store has room for a task: no file on the way to its two
    directories, and neither of its two files is there, as a file or as a
    directory. *)
Definition fresh_task (html_name output_name : Path) (w : World) : Prop :=
  clear_path html_name w /\ clear_path (Os.dirname output_name) w /\
  Os.isdir html_name w = false /\ Os.isdir output_name w = false.

(** The run ended normally, changed nothing on disk, fetched nothing and
    wrote nothing. *)
Definition no_op (m : M unit) (w : World) : Prop :=
  fst (m w) = Ok tt /\ artifacts (snd (m w)) = artifacts w /\
  w_requests (snd (m w)) = w_requests w /\ w_writes (snd (m w)) = w_writes w.

(** A log record of level CRITICAL. *)
Definition is_critical (r : LogRecord) : bool :=
  match lg_level r with CRITICAL => true | _ => false end.

(** A computation that does not leave the process and logs nothing
    critical. *)
Definition calm {A} (m : M A) : Prop :=
  forall w, fst (m w) <> Raise SystemExit /\
            exists l, w_log (snd (m w)) = (w_log w ++ l)%list /\
                      Forall (fun r => is_critical r = false) l.

(** The file-system calls write no log record and raise only their own
    exceptions. *)
Definition silent {A} (m : M A) : Prop :=
  forall w, fst (m w) <> Raise SystemExit /\ w_log (snd (m w)) = w_log w.

(** The directory [json] of the search store. *)
Definition json_dir : Path := Os.path_join Digger.SCRAPING_SEARCH_DIR ["json"].

(** The test [data_file.endswith('.json')] for the entry [first] of the
    directory [last]. *)
Definition is_json_name (last first : string) : Prop :=
  Str.endswith (Os.path_str (Os.path_join Digger.SCRAPING_SEARCH_DIR ["json"; last; first]))
               ".json" = true.

#[global] Instance is_json_name_dec last first : Decision (is_json_name last first).
Proof. unfold is_json_name. apply _. Defined.

(** The JSON-lines files of one last-name directory, and of the store. *)
Definition dir_json_files (w : World) (last : string) : list Path :=
  map (fun first => Os.path_join Digger.SCRAPING_SEARCH_DIR ["json"; last; first])
      (filter (is_json_name last)
              (Os.entries (Os.path_join Digger.SCRAPING_SEARCH_DIR ["json"; last]) w)).

Definition json_files (w : World) : list Path :=
  flat_map (dir_json_files w) (Os.entries json_dir w).

(** The number of lines of a file. *)
Definition line_count (w : World) (p : Path) : nat :=
  match w_files w !! p with
  | Some content => List.length (Str.readlines content)
  | None => 0
  end.

(** [p] is a file and each of its lines is read by [json.loads]. *)
Definition readable (lib : Library) (w : World) (p : Path) : Prop :=
  exists content, w_files w !! p = Some content /\
                  Forall (fun l => is_Some (json_loads lib l)) (Str.readlines content).

(** The store as the scraper lays it out: the directory [json] is there,
    its entries are directories, and the entries of those named [*.json]
    are readable files. *)
Definition readable_store (lib : Library) (w : World) : Prop :=
  Os.isdir json_dir w = true /\
  Forall (fun last => Os.isdir (Os.path_join Digger.SCRAPING_SEARCH_DIR ["json"; last]) w = true)
         (Os.entries json_dir w) /\
  Forall (readable lib w) (json_files w).

(** The category of the project of a card, when its data can be read. *)
Definition project_category (lib : Library) (p : Card) : option string :=
  match cd_project p with
  | Some s =>
      match json_loads lib s with
      | Some (JDict d) =>
          match d !! "category" with
          | Some (JDict c) =>
              match c !! "slug" with
              | Some (JStr slug) => Some (Kickstarter.clean_category_string slug)
              | _ => None
              end
          | _ => None
          end
      | _ => None
      end
  | None => None
  end.

(** A card the scraper can store: its data is read, and the category and
    the project id are not empty. *)
Definition scrapable (lib : Library) (p : Card) : bool :=
  match project_category lib p with
  | Some category =>
      negb (String.eqb category "") && negb (String.eqb (Kickstarter.format_pid (cd_pid p)) "")
  | None => false
  end.

(** The directory below which a run stores its projects. *)
Definition run_dir (g : Kickstarter.Globals) : Path :=
  Os.path_join Kickstarter.data_dir (Kickstarter.web_scrape_path g).

(** The file of a project and the text written to it. *)
Definition project_file (lib : Library) (g : Kickstarter.Globals) (p : Card) : Path :=
  (run_dir g ++ [default "" (project_category lib p);
                 Kickstarter.format_pid (cd_pid p); "data.json"])%list.

Definition project_text (lib : Library) (g : Kickstarter.Globals) (p : Card) : string :=
  match cd_project p with
  | Some s =>
      match json_loads lib s with
      | Some (JDict d) =>
          json_dumps lib
            (JDict (<["web_scrape_isodate" := JStr (Kickstarter.web_scrape_isodate g)]>
                   (<["web_scrape_timestamp" := JInt (Kickstarter.web_scrape_timestamp g)]> d)))
      | _ => ""
      end
  | None => ""
  end.

(** The store leaves room for the projects of a run: no file sits on the
    way to a project directory, and below [run_dir] no directory sits where
    a project file goes. *)
Definition ks_store (g : Kickstarter.Globals) (w : World) : Prop :=
  (forall q category pid,
      is_Some (w_files w !! q) -> ~ q `prefix_of` (run_dir g ++ [category; pid])%list) /\
  (forall q, q ∈ w_dirs w -> run_dir g `prefix_of` q ->
             (List.length q <= List.length (run_dir g) + 2)%nat).

(** The cards a loop meets when nothing stops it, and whether it ends by an
    exception of the network. *)
Fixpoint listing_cards (answers : list (Res Response)) : list Card * bool :=
  match answers with
  | [] => ([], false)
  | Raise _ :: _ => ([], true)
  | Ok page :: rest =>
      if status_code page =? 200 then
        ((proj_cards (soup page) ++ fst (listing_cards rest))%list, snd (listing_cards rest))
      else ([], false)
  end.

(** One loop after another: the second runs if the first did not raise. *)
Definition chain (a b : list Card * bool) : list Card * bool :=
  if snd a then a else ((fst a ++ fst b)%list, snd b).

(** The cards of the listings of one category, state after state. *)
Fixpoint states_cards (site : Kickstarter.Site) (category_id : Z)
    (stloop : list (string * string)) : list Card * bool :=
  match stloop with
  | [] => ([], false)
  | (_, state_arg) :: rest =>
      chain (listing_cards (site (Kickstarter.base_url state_arg category_id)))
            (states_cards site category_id rest)
  end.

(** The cards of the sections, the unknown ones passed over. *)
Fixpoint sections_cards (site : Kickstarter.Site) (stloop : list (string * string))
    (sections : list string) : list Card * bool :=
  match sections with
  | [] => ([], false)
  | sect :: rest =>
      let category_id := Kickstarter.cat_dict_get Kickstarter.cat_dict sect in
      if category_id <? 0 then sections_cards site stloop rest
      else chain (states_cards site category_id stloop) (sections_cards site stloop rest)
  end.

(** The projects on offer to a run. *)
Definition available (site : Kickstarter.Site) (any_state : bool)
    (sections : option (list string)) : list Card :=
  fst (sections_cards site (Kickstarter.stloop_of any_state)
         (match sections with
          | None => map fst Kickstarter.cat_dict
          | Some l => l
          end)).

(** How a loop over [cards] ends when it starts with the counter at [c]. *)
Definition loop_end (limit c : Z) (cards : list Card) : Kickstarter.Ctl :=
  if limit + 1 - c <=? Z.of_nat (List.length cards) then Kickstarter.Return (limit + 1)
  else Kickstarter.Continue (c + Z.of_nat (List.length cards)).

(** The files after the projects of [cards] were written, in order. *)
Definition store_projects (lib : Library) (g : Kickstarter.Globals) (cards : list Card)
    (files : gmap Path string) : gmap Path string :=
  foldl (fun m p => <[project_file lib g p := project_text lib g p]> m) files cards.

(** [loop], started with any counter [c] up to the limit, stores the first
    [limit + 1 - c] of the cards [cr] and ends as [loop_end] tells. *)
Definition visits (lib : Library) (g : Kickstarter.Globals) (limit : Z)
    (loop : Z -> M Kickstarter.Ctl) (cr : list Card * bool) : Prop :=
  forall c w,
    c <= limit -> ks_store g w ->
    Forall (fun p => scrapable lib p = true) (take (Z.to_nat (limit + 1 - c)) (fst cr)) ->
    snd cr = false \/ limit + 1 - c <= Z.of_nat (List.length (fst cr)) ->
    exists w',
      loop c w = (Ok (loop_end limit c (fst cr)), w') /\
      ks_store g w' /\
      w_writes w' =
        (w_writes w ++ map (project_file lib g) (take (Z.to_nat (limit + 1 - c)) (fst cr)))%list /\
      w_files w' =
        store_projects lib g (take (Z.to_nat (limit + 1 - c)) (fst cr)) (w_files w).

(** A string of word characters only. *)
Definition word_only (s : string) : Prop :=
  Forall (fun c => Str.is_word c = true) (Str.chars s).

(** A string of lower-case letters, digits and underscores only. *)
Definition slug_only (s : string) : Prop :=
  Forall (fun c => Str.is_lower c || Str.is_digit c || Ascii.eqb c "_" = true) (Str.chars s).

(** An element child, as opposed to a text node: [if rsb.name]. *)
Definition is_tag (rsb : Child) : bool :=
  match c_name rsb with
  | None | Some "" => false
  | Some _ => true
  end.

(** [search_dates] finds at least one date in the text. *)
Definition finds_date (lib : Library) (txt : string) : bool :=
  match search_dates lib txt with
  | Some (_ :: _) => true
  | _ => false
  end.

(** A child that gives the birth date: an element whose text holds "born",
    in any case, and a date. *)
Definition born_child (lib : Library) (rsb : Child) : bool :=
  is_tag rsb && Str.contains "born" (Str.lower (Str.strip (c_text rsb))) &&
  finds_date lib (Str.strip (c_text rsb)).

(** A child that gives the date of the last update: an element whose text
    holds "updated" and not "born", and a date. *)
Definition updated_child (lib : Library) (rsb : Child) : bool :=
  is_tag rsb && negb (Str.contains "born" (Str.lower (Str.strip (c_text rsb)))) &&
  Str.contains "updated" (Str.lower (Str.strip (c_text rsb))) &&
  finds_date lib (Str.strip (c_text rsb)).

(** The keys a search record can have when the parser hands it over. *)
Definition search_record_keys : list string :=
  ["detail_url"; "detail_url_text"; "display_text"; "home_address"; "email_address";
   "phone_number"; "birth_date"; "birth_date_text"; "updated_date"; "updated_date_text"].

(** The record [res'] is [res] with the value [v date] under [key] and the
    value [t date] under [key_text] for the first date of the child. *)
Definition with_date (lib : Library) (df : string) (rsb : Child) (key key_text : string)
    (res : Digger.Record_) : Digger.Record_ :=
  match search_dates lib (Str.strip (c_text rsb)) with
  | Some ((dtext, d) :: _) =>
      <[key_text := JStr dtext]> (<[key := JStr (strftime lib d df)]> res)
  | _ => res
  end.

(** The record before the loop over the children. *)
Definition fields_before_children (ld : string) (b : ResultBody) (a : Anchor) (href : string)
  : Digger.Record_ :=
  let res : Digger.Record_ :=
    <["detail_url" := JStr ("https://publicdatadigger.com" ++
         (if Str.startswith href "/" || String.eqb href "" then href
          else "/" ++ href))]> ∅ in
  let res := <["detail_url_text" := JStr (Str.strip (a_text a))]> res in
  let res := <["display_text" := JStr (Str.join ld (rb_stripped_strings b))]> res in
  let res := match rb_fa_home b with
             | Some runs => <["home_address" := JStr (Digger.text_with_nl runs ld)]> res
             | None => res
             end in
  let res := match rb_fa_envelope b with
             | Some nxt => <["email_address" := Digger.next_text_only nxt]> res
             | None => res
             end in
  match rb_fa_phone b with
  | Some nxt => <["phone_number" := Digger.next_text_only nxt]> res
  | None => res
  end.

(** A computation that changes no file outside [ps], removes no file and
    removes no directory. *)
Definition touches_only {A} (ps : list Path) (m : M A) : Prop :=
  forall w,
    (forall p, p ∉ ps -> w_files (snd (m w)) !! p = w_files w !! p) /\
    (forall p, Os.isfile p w = true -> Os.isfile p (snd (m w)) = true) /\
    w_dirs w ⊆ w_dirs (snd (m w)).

(** A computation that makes no request. *)
Definition quiet {A} (m : M A) : Prop :=
  forall w, w_requests (snd (m w)) = w_requests w.

(** A computation whose requests are among [urls], in that order, each at
    most once. *)
Definition asks_within {A} (urls : list string) (m : M A) : Prop :=
  forall w, exists l, w_requests (snd (m w)) = (w_requests w ++ l)%list /\ l `sublist_of` urls.

(** A row of the table [main_search] hands to [scrape_by_name]: both names
    are strings that are not blank. *)
Definition valid_row (row : Digger.Row) : bool :=
  (0 <? Z.of_nat (String.length (Digger.strip_if_str (Digger.l_name row)))) &&
  (0 <? Z.of_nat (String.length (Digger.strip_if_str (Digger.f_name row)))).

(** The query and the two files of a row. *)
Definition row_url (row : Digger.Row) : string :=
  Digger.complete_url_with_names (Digger.strip_if_str (Digger.f_name row))
                                 (Digger.strip_if_str (Digger.l_name row)).

Definition row_html_name (row : Digger.Row) : Path :=
  Digger.search_html_name (Digger.strip_if_str (Digger.f_name row))
                          (Digger.strip_if_str (Digger.l_name row)).

Definition row_output_name (row : Digger.Row) : Path :=
  Digger.search_output_name (Digger.strip_if_str (Digger.f_name row))
                            (Digger.strip_if_str (Digger.l_name row)).

(** The rows of the table that are looked up. *)
Definition valid_rows (rows : list Digger.Row) : list Digger.Row :=
  filter (fun row => valid_row row = true) (Digger.dropna rows).


(** A log record of level ERROR. *)
Definition is_error (r : LogRecord) : bool :=
  match lg_level r with ERROR => true | _ => false end.

(** The lines of the list of URLs that [main_details] hands on. *)
Definition url_lines (content : string) : list string :=
  filter (fun u => (0 <? Z.of_nat (String.length u)) = true)
         (map Str.strip (Str.readlines content)).

Definition urls_files (lib : Library) (urls : list string) : list Path :=
  flat_map (fun u => [Digger.details_html_name lib u; Digger.details_output_name lib u]) urls.

(** The headers the parser of a detail page looks at. *)
Definition information_headers (s : Soup) : list ProfileHeader :=
  filter (fun x => Str.contains "Additional Information" (ph_text x) = true) (profile_headers s).

Definition registration_headers (s : Soup) : list ContainerHeader :=
  filter (fun x => Str.contains "Voter Registration" (ch_text x) = true)
         (page_container_headers s).

(** A registration as the parser stores it: a dictionary with the date, its
    text and the attributes. *)
Definition is_registration (v : JValue) : Prop :=
  exists date date_text attrs,
    v = JDict (<["voter_registration_attributes" := JDict attrs]>
              (<["voter_registration_date_text" := JStr date_text]>
              (<["voter_registration_date" := JStr date]> ∅))).

(** The pages a listing is asked for: page after page, up to and including
    the first one that is not answered with status 200. *)
Fixpoint listing_requests (base_url : string) (page_number : Z)
    (answers : list (Res Response)) : list string :=
  (base_url ++ "&page=" ++ Kickstarter.str_of_Z page_number)%string ::
  match answers with
  | Ok page :: rest =>
      if status_code page =? 200 then listing_requests base_url (page_number + 1) rest else []
  | _ => []
  end.

(** The requests for the listings of one category, state after state, up to
    a request that is answered by an exception. *)
Fixpoint states_requests (site : Kickstarter.Site) (category_id : Z)
    (stloop : list (string * string)) : list string :=
  match stloop with
  | [] => []
  | (_, state_arg) :: rest =>
      let answers := site (Kickstarter.base_url state_arg category_id) in
      (listing_requests (Kickstarter.base_url state_arg category_id) 1 answers ++
       if snd (listing_cards answers) then [] else states_requests site category_id rest)%list
  end.

(** The requests for the sections, the unknown ones passed over. *)
Fixpoint sections_requests (site : Kickstarter.Site) (stloop : list (string * string))
    (sections : list string) : list string :=
  match sections with
  | [] => []
  | sect :: rest =>
      let category_id := Kickstarter.cat_dict_get Kickstarter.cat_dict sect in
      if category_id <? 0 then sections_requests site stloop rest
      else (states_requests site category_id stloop ++
            if snd (states_cards site category_id stloop) then []
            else sections_requests site stloop rest)%list
  end.

(** The sections a run works on. *)
Definition sections_of (sections : option (list string)) : list string :=
  match sections with
  | None => map fst Kickstarter.cat_dict
  | Some l => l
  end.

(** Some request of the run is answered by an exception. *)
Definition network_fails (site : Kickstarter.Site) (any_state : bool)
    (sections : option (list string)) : bool :=
  snd (sections_cards site (Kickstarter.stloop_of any_state) (sections_of sections)).

(** From [w] to [w'] the projects of [cards] were stored, one write each in
    that order, and the requests [reqs] were made. *)
Definition stored (lib : Library) (g : Kickstarter.Globals) (cards : list Card)
    (reqs : list string) (w w' : World) : Prop :=
  ks_store g w' /\
  w_writes w' = (w_writes w ++ map (project_file lib g) cards)%list /\
  w_files w' = store_projects lib g cards (w_files w) /\
  w_requests w' = (w_requests w ++ reqs)%list.

(** How a loop over the cards [cr] ends when neither the limit nor a card
    stops it: by the exception of the network if there is one, with the
    counter moved on by the number of cards otherwise. *)
Definition ended (cr : list Card * bool) (c : Z) (out : Res Kickstarter.Ctl) : Prop :=
  if snd cr then exists e, out = Raise e
  else out = Ok (Kickstarter.Continue (c + Z.of_nat (List.length (fst cr)))).

(** The exceptions by which reading a card ends. *)
Definition unreadable (e : exn) : Prop :=
  e = TypeError \/ e = JSONDecodeError \/ e = KeyError \/ e = AttributeError.

(** The records of the JSON file of a search task, from index [j] on: the
    records of the parser, each with the five fields the runner adds. *)
Fixpoint search_rows (lib : Library) (env : Env) (fname lname : string) (output_name : Path)
    (j : Z) (results : list Digger.Record_) : list JValue :=
  match results with
  | [] => []
  | res :: rest =>
      JDict (<["scrape_date" := JStr (strftime lib (now env) "%Y-%m-%dT%H:%M:%S")]>
            (<["json_file" := JStr (Os.path_str output_name)]>
            (<["last_name" := JStr lname]>
            (<["first_name" := JStr fname]>
            (<["order_number" := JInt j]> res))))) ::
      search_rows lib env fname lname output_name (j + 1) rest
  end.

(** A text without a line end. *)
Definition one_line (s : string) : bool :=
  forallb (fun c => negb (Ascii.eqb c Str.LF) && negb (Ascii.eqb c Str.CR)) (Str.chars s).

(** [json.dumps] writes the value on one line, and [json.loads] reads that
    line, with its line end, back to the value. *)
Definition reads_back (lib : Library) (v : JValue) : Prop :=
  one_line (json_dumps lib v) = true /\
  json_loads lib (json_dumps lib v ++ Str.nl) = Some v.

(** The valid rows of the table whose raw page is not in the store [w]. *)
Definition pending_rows (w : World) (rows : list Digger.Row) : list Digger.Row :=
  filter (fun row => Os.isfile (row_html_name row) w = false) (valid_rows rows).

(** The URLs whose raw page is not in the store [w]. *)
Definition pending_urls (lib : Library) (w : World) (urls : list string) : list string :=
  filter (fun u => Os.isfile (Digger.details_html_name lib u) w = false) urls.

(** The number of log records of level ERROR. *)
Definition errors (w : World) : nat :=
  List.length (filter (fun r => is_error r = true) (w_log w)).

(** A file that is in [w0] is in [w]. *)
Definition holds (w0 w : World) : Prop :=
  forall p, Os.isfile p w0 = true -> Os.isfile p w = true.

(** * Properties *)

(** ** The model at work *)

Example query_url_of_jane_doe :
  Digger.complete_url_with_names " Jane" "Doe " = "https://publicdatadigger.com/search?q=JANE+DOE".
Proof. reflexivity. Qed.

Example files_of_jane_doe :
  Digger.search_html_name "Jane" "Doe" =
    ["data"; "project"; "voter_registration_scraping"; "output"; "search";
     "html"; "doe"; "jane.html"] /\
  Digger.search_output_name "Jane" "Doe" =
    ["data"; "project"; "voter_registration_scraping"; "output"; "search";
     "json"; "doe"; "jane.json"].
Proof. split; reflexivity. Qed.

Example files_of_a_name_with_other_characters :
  Digger.search_html_name " Mary-Ann " "O'Neil" =
    ["data"; "project"; "voter_registration_scraping"; "output"; "search";
     "html"; "o_neil"; "mary_ann.html"].
Proof. reflexivity. Qed.

Example files_of_a_detail_page :
  Digger.details_html_name Sample.lib "https://publicdatadigger.com/person/doe/jane/42" =
    ["data"; "project"; "voter_registration_scraping"; "output"; "details";
     "html"; "person"; "doe"; "jane_42.html"].
Proof. reflexivity. Qed.

Example label_of_date_of_birth :
  Digger.clean_label (mkLabel " Date of Birth: " None) = "date_of_birth".
Proof. reflexivity. Qed.

Example category_of_product_design :
  Kickstarter.clean_category_string "Product Design" = "product_design".
Proof. reflexivity. Qed.

Example thousands_of_a_count : Digger.format_thousands 1234567 = "1,234,567".
Proof. reflexivity. Qed.

Example lines_of_a_file :
  Str.readlines ("{}" ++ Str.nl ++ "{}" ++ Str.nl ++ "{}") =
    [("{}" ++ Str.nl)%string; ("{}" ++ Str.nl)%string; "{}"].
Proof. reflexivity. Qed.

(** A block with a date of birth gives the two date fields; the same block
    without the paragraph gives neither. *)
Example record_with_birth_date :
  (fun res => (res !! "birth_date", res !! "birth_date_text", res !! "updated_date")) <$>
  match Digger.parse_result_body Sample.lib Str.nl "%Y-%m-%d"
          (Sample.block [mkChild (Some "p") " Born Jan 1, 1990 "; mkChild None "born"]) with
  | Ok res => Some res
  | Raise _ => None
  end =
  Some (Some (JStr "1990-01-01"), Some (JStr "Jan 1, 1990"), None).
Proof. vm_compute. reflexivity. Qed.

Example record_without_dates :
  (fun res => (res !! "birth_date", res !! "home_address", res !! "detail_url")) <$>
  match Digger.parse_result_body Sample.lib Str.nl "%Y-%m-%d" (Sample.block []) with
  | Ok res => Some res
  | Raise _ => None
  end =
  Some (None, None, Some (JStr "https://publicdatadigger.com/person/doe/jane/42")).
Proof. vm_compute. reflexivity. Qed.

(** The task runner on Jane Doe and an empty store: two new files; called
    again, no second request and the same two files. *)
Example jane_doe_on_an_empty_store :
  let env := Sample.env_of (Ok (Sample.search_page [Sample.block []])) in
  let run := Digger.scrape_by_name Sample.lib env "Jane" "Doe" Str.nl "%Y-%m-%d" in
  let w1 := snd (run Sample.empty_world) in
  let w2 := snd (run w1) in
  map fst (map_to_list (w_files w1)) =
    [Digger.search_output_name "Jane" "Doe"; Digger.search_html_name "Jane" "Doe"] /\
  w_requests w1 = ["https://publicdatadigger.com/search?q=JANE+DOE"] /\
  w_requests w2 = w_requests w1 /\
  map_to_list (w_files w2) = map_to_list (w_files w1).
Proof. vm_compute. repeat split; reflexivity. Qed.

(** ** Stores and the computations that only look at them *)

Lemma same_store_refl w : same_store w w.
Proof. reflexivity. Qed.

Lemma same_store_sym w w' : same_store w w' -> same_store w' w.
Proof. unfold same_store. congruence. Qed.

Lemma same_store_trans w1 w2 w3 : same_store w1 w2 -> same_store w2 w3 -> same_store w1 w3.
Proof. unfold same_store. congruence. Qed.

Lemma same_store_files w w' : same_store w w' -> w_files w = w_files w'.
Proof. unfold same_store, artifacts. congruence. Qed.

Lemma same_store_dirs w w' : same_store w w' -> w_dirs w = w_dirs w'.
Proof. unfold same_store, artifacts. congruence. Qed.

Lemma same_store_add_log r w : same_store (add_log r w) w.
Proof. reflexivity. Qed.

Lemma same_store_add_request u w : same_store (add_request u w) w.
Proof. reflexivity. Qed.

Lemma isfile_same_store p w w' : same_store w w' -> Os.isfile p w = Os.isfile p w'.
Proof. intros H. unfold Os.isfile. by rewrite (same_store_files _ _ H). Qed.

Lemma isdir_same_store p w w' : same_store w w' -> Os.isdir p w = Os.isdir p w'.
Proof. intros H. unfold Os.isdir. by rewrite (same_store_dirs _ _ H). Qed.

Lemma exists_same_store p w w' : same_store w w' -> Os.exists_ p w = Os.exists_ p w'.
Proof.
  intros H. unfold Os.exists_.
  by rewrite (isfile_same_store _ _ _ H), (isdir_same_store _ _ _ H).
Qed.

Lemma store_only_bind {A B} (m : M A) (f : A -> M B) :
  store_only m -> (forall a, store_only (f a)) -> store_only (bind m f).
Proof.
  intros Hm Hf w w' Hs. unfold bind.
  destruct (Hm w w' Hs) as [Hr Hw].
  destruct (m w) as [[a|e] w1], (m w') as [[a'|e'] w1']; simpl in *; try discriminate.
  - injection Hr as ->. by apply Hf.
  - injection Hr as ->. done.
Qed.

Lemma store_only_mkdir p : store_only (Os.mkdir p).
Proof.
  intros w w' Hs. unfold Os.mkdir.
  rewrite (exists_same_store _ _ _ Hs), (isdir_same_store _ _ _ Hs),
          (isfile_same_store _ _ _ Hs).
  destruct (Os.exists_ p w'); [done|].
  destruct (Os.isdir (Os.dirname p) w'); simpl.
  - split; [done|]. unfold same_store, artifacts, set_dirs; simpl.
    by rewrite (same_store_files _ _ Hs), (same_store_dirs _ _ Hs).
  - by destruct (Os.isfile (Os.dirname p) w').
Qed.

Lemma store_only_makedirs_rev rp : store_only (Os.makedirs_rev rp).
Proof.
  induction rp as [|c rhead IH]; simpl.
  - apply store_only_mkdir.
  - apply store_only_bind; [|intros _; apply store_only_mkdir].
    intros w w' Hs. rewrite (exists_same_store _ _ _ Hs).
    destruct (Os.exists_ (rev rhead) w'); [done|].
    destruct (IH w w' Hs) as [Hr Hw].
    destruct (Os.makedirs_rev rhead w) as [r w1],
             (Os.makedirs_rev rhead w') as [r' w1']; simpl in *; subst r'.
    destruct r as [[]|[]]; done.
Qed.

Lemma store_only_write_file p t : store_only (Os.write_file p t).
Proof.
  intros w w' Hs. unfold Os.write_file.
  rewrite !(isdir_same_store _ _ _ Hs), (isfile_same_store _ _ _ Hs).
  destruct (Os.isdir p w'); [done|].
  destruct (Os.isdir (Os.dirname p) w'); simpl.
  - split; [done|]. unfold same_store, artifacts, add_write, set_files; simpl.
    by rewrite (same_store_files _ _ Hs), (same_store_dirs _ _ Hs).
  - by destruct (Os.isfile (Os.dirname p) w').
Qed.

Lemma store_only_ensure_dirs ps : store_only (Digger.ensure_dirs ps).
Proof.
  induction ps as [|p ps IH]; simpl.
  - intros w w' Hs; done.
  - apply store_only_bind; [|done].
    intros w w' Hs. rewrite (isdir_same_store _ _ _ Hs).
    destruct (Os.isdir p w'); [done|]. by apply store_only_makedirs_rev.
Qed.

(** ** Making directories *)

Lemma mkdir_cases p w :
  (Os.exists_ p w = false /\ Os.isdir (Os.dirname p) w = true /\
   Os.mkdir p w = (Ok tt, set_dirs ({[p]} ∪ w_dirs w) w)) \/
  (exists e, Os.mkdir p w = (Raise e, w)).
Proof.
  unfold Os.mkdir.
  destruct (Os.exists_ p w); [right; eauto|].
  destruct (Os.isdir (Os.dirname p) w); [left; done|].
  destruct (Os.isfile (Os.dirname p) w); right; eauto.
Qed.

Lemma isdir_elem p w : p ∈ w_dirs w -> Os.isdir p w = true.
Proof.
  intros H. unfold Os.isdir. destruct p; [done|]. by apply bool_decide_eq_true.
Qed.

Lemma isdir_inv p w : Os.isdir p w = true -> p = [] \/ p ∈ w_dirs w.
Proof.
  unfold Os.isdir. destruct p; [by left|]. rewrite bool_decide_eq_true. by right.
Qed.

Lemma isdir_mono p w w' : w_dirs w ⊆ w_dirs w' -> Os.isdir p w = true -> Os.isdir p w' = true.
Proof.
  unfold Os.isdir. destruct p; [done|].
  rewrite !bool_decide_eq_true. set_solver.
Qed.

Lemma exists_root w : Os.exists_ [] w = true.
Proof. unfold Os.exists_. simpl. apply orb_true_r. Qed.

Lemma set_dirs_same w : w = set_dirs (w_dirs w) w.
Proof. by destruct w. Qed.

Lemma makedirs_rev_outcome rp : forall w, makedirs_outcome rp w (Os.makedirs_rev rp w).
Proof.
  induction rp as [|c rhead IH]; intros w.
  - simpl. unfold makedirs_outcome, Os.mkdir. rewrite exists_root. simpl.
    split_and!; [apply set_dirs_same|done|by left|].
    unfold Os.mkdir. by rewrite exists_root.
  - destruct (Os.makedirs_rev (c :: rhead) w) as [r w1] eqn:Hrun.
    cbn [Os.makedirs_rev] in Hrun. unfold bind in Hrun.
    destruct (Os.exists_ (rev rhead) w) eqn:Hex.
    + (* the parent is there *)
      destruct (mkdir_cases (rev (c :: rhead)) w) as [(Hn & Hd & Hm)|[e Hm]];
        rewrite Hm in Hrun; injection Hrun as <- <-; unfold makedirs_outcome; simpl.
      * split_and!; [done|set_solver|apply isdir_elem; simpl; set_solver|].
        intros q Hq. apply elem_of_union in Hq as [Hq|Hq]; [|by left].
        apply elem_of_singleton in Hq as ->. right.
        rewrite length_app, length_rev. simpl. lia.
      * split_and!; [apply set_dirs_same|done|by left|].
        unfold bind. by rewrite Hex.
    + (* the parent is made first *)
      specialize (IH w). destruct (Os.makedirs_rev rhead w) as [r0 w0] eqn:H0.
      destruct IH as (Hw0 & Hsub & IH). simpl in Hw0, Hsub, IH.
      assert (Hstep : forall (Hb : forall q, q ∈ w_dirs w0 ->
                                  q ∈ w_dirs w \/ (List.length q <= List.length rhead)%nat)
                             (Hre : forall e, Os.mkdir (rev (c :: rhead)) w0 = (Raise e, w0) ->
                                  Os.makedirs_rev (c :: rhead) w0 = (Raise e, w0)),
                 makedirs_outcome (c :: rhead) w (Os.mkdir (rev (c :: rhead)) w0)).
      { intros Hb Hre.
        destruct (mkdir_cases (rev (c :: rhead)) w0) as [(Hn & Hd & Hm)|[e Hm]];
          rewrite Hm; unfold makedirs_outcome; simpl.
        - split_and!; [by rewrite Hw0|set_solver|apply isdir_elem; simpl; set_solver|].
          intros q Hq. apply elem_of_union in Hq as [Hq|Hq].
          + apply elem_of_singleton in Hq as ->. right.
            rewrite length_app, length_rev. simpl. lia.
          + destruct (Hb q Hq); [by left|right; lia].
        - split_and!; [done|done| |by apply Hre].
          intros q Hq. destruct (Hb q Hq); [by left|right; lia]. }
      destruct r0 as [[]|e0].
      * (* the parent was made *)
        destruct IH as [Hdir Hb]. rewrite <- Hrun. apply Hstep; [done|].
        intros e Hm. cbn [Os.makedirs_rev]. unfold bind.
        replace (Os.exists_ (rev rhead) w0) with true; [done|].
        unfold Os.exists_. by rewrite Hdir, orb_true_r.
      * destruct IH as [Hb Hre0].
        assert (Hb' : forall q, q ∈ w_dirs w0 ->
                        q ∈ w_dirs w \/ (List.length q <= List.length rhead)%nat).
        { intros q Hq. destruct (Hb q Hq); [by left|right; lia]. }
        assert (Hex0 : Os.exists_ (rev rhead) w0 = false).
        { unfold Os.exists_ in *. apply orb_false_iff in Hex as [Hf Hd].
          apply orb_false_iff. split.
          - rewrite Hw0. exact Hf.
          - destruct (Os.isdir (rev rhead) w0) eqn:Hd0; [|done].
            apply isdir_inv in Hd0 as [Hnil|Hin].
            + rewrite Hnil in Hd. discriminate.
            + destruct (Hb _ Hin) as [Hin'|Hlen].
              * apply isdir_elem in Hin'. congruence.
              * rewrite length_rev in Hlen. lia. }
        destruct (decide (e0 = FileExistsError)) as [->|Hne].
        -- (* passed over *)
           rewrite <- Hrun. apply Hstep; [done|].
           intros e Hm. cbn [Os.makedirs_rev]. unfold bind.
           by rewrite Hex0, Hre0.
        -- assert (Hrun' : (Raise e0, w0) = (r, w1)) by (destruct e0; done).
           injection Hrun' as <- <-. unfold makedirs_outcome; simpl.
           split_and!; [done|done| |].
           ++ intros q Hq. destruct (Hb q Hq); [by left|right; lia].
           ++ unfold bind. rewrite Hex0, Hre0. by destruct e0.
Qed.

Lemma ensure_dirs_cons p ps w :
  Digger.ensure_dirs (p :: ps) w =
  if Os.isdir p w then Digger.ensure_dirs ps w
  else match Os.makedirs_rev (rev p) w with
       | (Ok _, w') => Digger.ensure_dirs ps w'
       | (Raise e, w') => (Raise e, w')
       end.
Proof.
  unfold Digger.ensure_dirs. simpl. unfold bind.
  destruct (Os.isdir p w); [done|]. unfold Os.makedirs.
  by destruct (Os.makedirs_rev (rev p) w) as [[[]|?] ?].
Qed.

Lemma ensure_dirs_done ps w :
  (forall p, p ∈ ps -> Os.isdir p w = true) -> Digger.ensure_dirs ps w = (Ok tt, w).
Proof.
  induction ps as [|p ps IH]; intros H; [done|].
  rewrite ensure_dirs_cons, (H p) by set_solver. apply IH. intros q Hq. apply H. set_solver.
Qed.

Lemma ensure_dirs_outcome ps : forall w, ensure_outcome ps w (Digger.ensure_dirs ps w).
Proof.
  induction ps as [|p ps IH]; intros w.
  - unfold ensure_outcome; simpl. split_and!; [apply set_dirs_same|done|].
    intros p Hp. by apply elem_of_nil in Hp.
  - rewrite ensure_dirs_cons.
    destruct (Os.isdir p w) eqn:Hd.
    + (* already a directory *)
      specialize (IH w). destruct (Digger.ensure_dirs ps w) as [r w1].
      destruct IH as (Hw1 & Hsub & IH). simpl in *.
      unfold ensure_outcome; simpl. split_and!; [done|done|].
      destruct r as [[]|e].
      * intros q Hq. apply elem_of_cons in Hq as [->|Hq]; [|by apply IH].
        by apply (isdir_mono _ w).
      * intros w2 Hs. rewrite ensure_dirs_cons.
        assert (Hd2 : Os.isdir p w2 = true).
        { rewrite (isdir_same_store _ _ _ Hs). by apply (isdir_mono _ w). }
        rewrite Hd2. destruct (IH w2 Hs) as [[e' He'] Hs'].
        destruct (Digger.ensure_dirs ps w2) as [r2 w3]. simpl in *. subst r2. eauto.
    + pose proof (makedirs_rev_outcome (rev p) w) as Hm.
      destruct (Os.makedirs_rev (rev p) w) as [r0 w0] eqn:H0.
      destruct Hm as (Hw0 & Hsub0 & Hm). simpl in Hw0, Hsub0, Hm.
      destruct r0 as [[]|e0].
      * destruct Hm as [Hdir _]. rewrite rev_involutive in Hdir.
        specialize (IH w0). destruct (Digger.ensure_dirs ps w0) as [r w1].
        destruct IH as (Hw1 & Hsub & IH). simpl in *.
        unfold ensure_outcome; simpl. split_and!.
        -- rewrite Hw1 at 1. by rewrite Hw0.
        -- set_solver.
        -- destruct r as [[]|e].
           ++ intros q Hq. apply elem_of_cons in Hq as [->|Hq]; [|by apply IH].
              by apply (isdir_mono _ w0).
           ++ intros w2 Hs. rewrite ensure_dirs_cons.
              assert (Hd2 : Os.isdir p w2 = true).
              { rewrite (isdir_same_store _ _ _ Hs). by apply (isdir_mono _ w0). }
              rewrite Hd2. destruct (IH w2 Hs) as [[e' He'] Hs'].
              destruct (Digger.ensure_dirs ps w2) as [r2 w3]. simpl in *. subst r2. eauto.
      * destruct Hm as [Hb Hre]. unfold ensure_outcome; simpl. split_and!; [done|done|].
        intros w2 Hs. rewrite ensure_dirs_cons.
        assert (Hd2 : Os.isdir p w2 = false).
        { rewrite (isdir_same_store _ _ _ Hs).
          destruct (Os.isdir p w0) eqn:Hd0; [|done].
          apply isdir_inv in Hd0 as [->|Hin]; [done|].
          destruct (Hb _ Hin) as [Hin'|Hlen].
          - apply isdir_elem in Hin'. congruence.
          - rewrite length_rev in Hlen. lia. }
        rewrite Hd2.
        destruct (store_only_makedirs_rev (rev p) w2 w0 Hs) as [Hr Hs2].
        rewrite Hre in Hr, Hs2. simpl in Hr, Hs2.
        destruct (Os.makedirs_rev (rev p) w2) as [r2 w3]. simpl in *. subst r2.
        split; [eauto|]. eapply same_store_trans; [exact Hs2|]. by apply same_store_sym.
Qed.

(** ** The task runner *)

Lemma scrape_by_name_runner lib env fname lname ld df w :
  Digger.scrape_by_name lib env fname lname ld df w =
  runner (mkLog INFO "File: %s" [JStr (Os.path_str (Digger.search_output_name fname lname))])
         (mkLog INFO "Skip %s %s, file %s already exists."
                [JStr fname; JStr lname; JStr (Os.path_str (Digger.search_html_name fname lname))])
         (Digger.search_html_name fname lname)
         [Digger.search_output_path lname; Digger.search_html_path lname]
         (Digger.datadigger_by_name lib env fname lname ld df)
         (search_persist lib env fname lname) w.
Proof.
  unfold Digger.scrape_by_name, runner, bind, logging. simpl.
  destruct (Os.isfile _ _); [done|].
  destruct (Digger.ensure_dirs _ _) as [[[]|e] w1]; [|done].
  destruct (Digger.datadigger_by_name _ _ _ _ _ _ _) as [[[html results]|e] w2]; [|done].
  destruct (Os.write_file _ _ _) as [[[]|e] w3]; [|done].
  unfold search_persist, bind, logging. done.
Qed.

Lemma scrape_details_runner lib env detail_url ld df w :
  Digger.scrape_details lib env detail_url ld df w =
  runner (mkLog INFO "File: %s" [JStr (Os.path_str (Digger.details_output_name lib detail_url))])
         (mkLog INFO "Skip %s, file %s already exists."
                [JStr detail_url; JStr (Os.path_str (Digger.details_html_name lib detail_url))])
         (Digger.details_html_name lib detail_url)
         [Os.dirname (Digger.details_output_name lib detail_url);
          Os.dirname (Digger.details_html_name lib detail_url)]
         (Digger.datadigger_detail_page lib env detail_url ld df)
         (details_persist lib env detail_url) w.
Proof.
  unfold Digger.scrape_details, runner, bind, logging. simpl.
  destruct (Os.isfile _ _); [done|].
  destruct (Digger.ensure_dirs _ _) as [[[]|e] w1]; [|done].
  destruct (Digger.datadigger_detail_page _ _ _ _ _ _) as [[[html results]|e] w2]; [|done].
  destruct (Os.write_file _ _ _) as [[[]|e] w3]; [|done].
  done.
Qed.

Lemma observer_ret {A} (a : A) : observer (ret a).
Proof. split; done. Qed.

Lemma observer_lift {A} (r : Res A) : observer (lift r).
Proof. split; done. Qed.

Lemma observer_logging l fmt args : observer (logging l fmt args).
Proof. split; done. Qed.

Lemma observer_requests_get env url : observer (requests_get env url).
Proof. split; done. Qed.

Lemma observer_bind {A B} (m : M A) (f : A -> M B) :
  observer m -> (forall a, observer (f a)) -> observer (bind m f).
Proof.
  intros [Hq Ho] Hf. split.
  - intros w. unfold bind. specialize (Hq w).
    destruct (m w) as [[a|e] w1]; simpl in *; [|done].
    eapply same_store_trans; [apply (Hf a)|done].
  - intros w w'. unfold bind. specialize (Ho w w').
    destruct (m w) as [[a|e] w1], (m w') as [[a'|e'] w1']; simpl in *; try discriminate.
    + injection Ho as ->. apply (Hf a').
    + by injection Ho as ->.
Qed.

Lemma observer_parse_result_bodies lib ld df bodies :
  forall j results, observer (Digger.parse_result_bodies lib ld df j bodies results).
Proof.
  induction bodies as [|b bodies IH]; intros j results; simpl.
  - apply observer_ret.
  - destruct (Digger.MAX_RESULTS_ON_SEARCH_PAGE <? j).
    + apply observer_bind; [apply observer_logging|intros; apply observer_ret].
    + apply observer_bind; [apply observer_lift|intros; apply IH].
Qed.

Lemma observer_datadigger_by_name lib env fname lname ld df :
  observer (Digger.datadigger_by_name lib env fname lname ld df).
Proof.
  unfold Digger.datadigger_by_name.
  apply observer_bind; [apply observer_logging|intros _].
  apply observer_bind; [apply observer_requests_get|intros page].
  apply observer_bind; [|intros; apply observer_ret].
  destruct (status_code page =? 200); [apply observer_parse_result_bodies|apply observer_ret].
Qed.

Lemma observer_datadigger_detail_page lib env url ld df :
  observer (Digger.datadigger_detail_page lib env url ld df).
Proof.
  unfold Digger.datadigger_detail_page.
  apply observer_bind; [apply observer_requests_get|intros page].
  apply observer_bind; [|intros; apply observer_ret].
  destruct (status_code page =? 200); [apply observer_lift|apply observer_ret].
Qed.

Lemma keeps_files_logging l fmt args : keeps_files (logging l fmt args).
Proof. intros p w H. done. Qed.

Lemma keeps_files_write_file q t : keeps_files (Os.write_file q t).
Proof.
  intros p w H. unfold Os.write_file.
  destruct (Os.isdir q w); [done|].
  destruct (Os.isdir (Os.dirname q) w); simpl.
  - unfold Os.isfile in *. simpl. destruct (decide (q = p)) as [->|Hne].
    + by rewrite lookup_insert_eq.
    + by rewrite lookup_insert_ne.
  - by destruct (Os.isfile (Os.dirname q) w).
Qed.

Lemma keeps_files_bind {A B} (m : M A) (f : A -> M B) :
  keeps_files m -> (forall a, keeps_files (f a)) -> keeps_files (bind m f).
Proof.
  intros Hm Hf p w H. unfold bind. specialize (Hm p w H).
  destruct (m w) as [[a|e] w1]; simpl in *; [by apply Hf|done].
Qed.

Lemma keeps_files_search_persist lib env fname lname results :
  keeps_files (search_persist lib env fname lname results).
Proof.
  unfold search_persist. destruct (0 <? _).
  - apply keeps_files_bind; [apply keeps_files_logging|intros; apply keeps_files_write_file].
  - apply keeps_files_logging.
Qed.

Lemma keeps_files_details_persist lib env url results :
  keeps_files (details_persist lib env url results).
Proof.
  unfold details_persist. destruct (Digger.dict_truthy results).
  - apply keeps_files_write_file.
  - apply keeps_files_logging.
Qed.

Lemma write_file_cases p t w :
  (Os.isdir p w = false /\ Os.isdir (Os.dirname p) w = true /\
   Os.write_file p t w = (Ok tt, add_write p (set_files (<[p := t]> (w_files w)) w))) \/
  (exists e, Os.write_file p t w = (Raise e, w)).
Proof.
  unfold Os.write_file.
  destruct (Os.isdir p w); [right; eauto|].
  destruct (Os.isdir (Os.dirname p) w); [left; done|].
  destruct (Os.isfile (Os.dirname p) w); right; eauto.
Qed.

Section Runner.

Context {R : Type} (file_msg skip_msg : LogRecord) (html_name : Path) (dirs : list Path).

Lemma runner_skip (fetch : M (string * R)) (persist : R -> M unit) w :
  Os.isfile html_name w = true ->
  runner file_msg skip_msg html_name dirs fetch persist w =
  (Ok tt, add_log skip_msg (add_log file_msg w)).
Proof.
  intros H. unfold runner.
  replace (Os.isfile html_name (add_log file_msg w)) with true; done.
Qed.

Context (fetch : M (string * R)) (persist : R -> M unit).
Hypothesis persist_keeps : forall r, keeps_files (persist r).

(** A run that ends normally leaves the raw page on disk. *)
Lemma runner_done w :
  fst (runner file_msg skip_msg html_name dirs fetch persist w) = Ok tt ->
  Os.isfile html_name (snd (runner file_msg skip_msg html_name dirs fetch persist w)) = true.
Proof.
  unfold runner.
  destruct (Os.isfile html_name (add_log file_msg w)) eqn:Hf; [done|].
  destruct (Digger.ensure_dirs _ _) as [[[]|e] w1]; [|done].
  destruct (fetch w1) as [[[html results]|e] w2]; [|done].
  destruct (write_file_cases html_name html w2) as [(_ & _ & ->)|[e ->]]; [|done].
  intros _. apply persist_keeps. unfold Os.isfile. simpl. by rewrite lookup_insert_eq.
Qed.

Hypothesis fetch_observer : observer fetch.

(** A run leaves the raw page on disk, or a world from which every
    further run leaves the store as it is. *)
Lemma runner_outcome w out :
  out = runner file_msg skip_msg html_name dirs fetch persist w ->
  Os.isfile html_name (snd out) = true \/
  forall w', same_store w' (snd out) ->
    same_store (snd (runner file_msg skip_msg html_name dirs fetch persist w')) w'.
Proof.
  destruct fetch_observer as [Hq Ho].
  intros Hout. unfold runner in Hout.
  destruct (Os.isfile html_name (add_log file_msg w)) eqn:Hf; [subst out; by left|].
  pose proof (ensure_dirs_outcome dirs (add_log file_msg w)) as He.
  destruct (Digger.ensure_dirs dirs (add_log file_msg w)) as [re w1].
  destruct He as (Hw1 & Hsub & He). simpl in Hw1, Hsub, He.
  assert (Hf1 : Os.isfile html_name w1 = false) by (rewrite Hw1; exact Hf).
  destruct re as [[]|e].
  - (* the directories are there *)
    pose proof (Hq w1) as Hq1.
    destruct (fetch w1) as [rf w2] eqn:Hfetch. simpl in Hq1.
    assert (Hrerun : forall w', same_store w' w2 ->
              runner file_msg skip_msg html_name dirs fetch persist w' =
              match fetch (add_log file_msg w') with
              | (Raise e, w3) => (Raise e, w3)
              | (Ok (html, results), w3) =>
                  match Os.write_file html_name html w3 with
                  | (Raise e, w4) => (Raise e, w4)
                  | (Ok _, w4) => persist results w4
                  end
              end).
    { intros w' Hs. unfold runner.
      assert (Hs1 : same_store (add_log file_msg w') w1).
      { eapply same_store_trans; [apply same_store_add_log|].
        eapply same_store_trans; [exact Hs|exact Hq1]. }
      rewrite (isfile_same_store _ _ _ Hs1), Hf1.
      rewrite ensure_dirs_done; [done|].
      intros p Hp. rewrite (isdir_same_store _ _ _ Hs1). by apply He. }
    assert (Hfetch' : forall w', same_store w' w2 ->
              fst (fetch (add_log file_msg w')) = rf /\
              same_store (snd (fetch (add_log file_msg w'))) w').
    { intros w' Hs. split.
      - rewrite (Ho _ w1). by rewrite Hfetch.
      - eapply same_store_trans; [apply Hq|apply same_store_add_log]. }
    destruct rf as [[html results]|e].
    + destruct (write_file_cases html_name html w2) as [(_ & _ & Hwr)|[e Hwr]];
        rewrite Hwr in Hout; subst out.
      * left. apply persist_keeps. unfold Os.isfile. simpl. by rewrite lookup_insert_eq.
      * right. simpl. intros w' Hs. rewrite (Hrerun w' Hs).
        destruct (Hfetch' w' Hs) as [Hr Hs3].
        destruct (fetch (add_log file_msg w')) as [rf' w3]. simpl in Hr, Hs3. subst rf'.
        assert (Hs32 : same_store w3 w2) by (eapply same_store_trans; [exact Hs3|exact Hs]).
        destruct (store_only_write_file html_name html w3 w2 Hs32) as [Hr3 Hs4].
        rewrite Hwr in Hr3, Hs4. simpl in Hr3, Hs4.
        destruct (Os.write_file html_name html w3) as [r4 w4]. simpl in *. subst r4.
        simpl. eapply same_store_trans; [exact Hs4|]. by apply same_store_sym.
    + subst out. right. simpl. intros w' Hs. rewrite (Hrerun w' Hs).
      destruct (Hfetch' w' Hs) as [Hr Hs3].
      destruct (fetch (add_log file_msg w')) as [rf' w3]. simpl in Hr, Hs3. subst rf'.
      exact Hs3.
  - (* making the directories failed *)
    subst out. right. simpl. intros w' Hs. unfold runner.
    assert (Hs1 : same_store (add_log file_msg w') w1).
    { eapply same_store_trans; [apply same_store_add_log|exact Hs]. }
    rewrite (isfile_same_store _ _ _ Hs1), Hf1.
    destruct (He _ Hs1) as [[e' He'] Hs'].
    destruct (Digger.ensure_dirs dirs (add_log file_msg w')) as [r2 w2]. simpl in *. subst r2.
    simpl. eapply same_store_trans; [exact Hs'|apply same_store_add_log].
Qed.

(** Run again in the world a run has left, the runner leaves the store as
    it is. *)
Lemma runner_twice w :
  same_store
    (snd (runner file_msg skip_msg html_name dirs fetch persist
            (snd (runner file_msg skip_msg html_name dirs fetch persist w))))
    (snd (runner file_msg skip_msg html_name dirs fetch persist w)).
Proof.
  destruct (runner_outcome w _ eq_refl) as [Hfile|Hre].
  - by rewrite runner_skip.
  - apply Hre, same_store_refl.
Qed.

End Runner.

(** ** A run from a store with room for the task *)

Lemma makedirs_rev_ok rp : forall w,
  clear_path (rev rp) w -> Os.isdir (rev rp) w = false ->
  fst (Os.makedirs_rev rp w) = Ok tt.
Proof.
  induction rp as [|c rhead IH]; intros w Hc Hd; [done|].
  assert (Hnf : Os.isfile (rev (c :: rhead)) w = false) by (apply Hc; done).
  assert (Hch : clear_path (rev rhead) w).
  { intros q Hq. apply Hc. simpl. by apply prefix_app_r. }
  assert (Hdn : Os.dirname (rev (c :: rhead)) = rev rhead).
  { unfold Os.dirname. simpl. by rewrite removelast_last. }
  cbn [Os.makedirs_rev]. unfold bind.
  destruct (Os.exists_ (rev rhead) w) eqn:Hex.
  - unfold Os.mkdir, Os.exists_. rewrite Hnf, Hd, Hdn. simpl.
    unfold Os.exists_ in Hex. rewrite (Hch (rev rhead)) in Hex by done. simpl in Hex.
    by rewrite Hex.
  - assert (Hdh : Os.isdir (rev rhead) w = false).
    { unfold Os.exists_ in Hex. by apply orb_false_iff in Hex as [_ ?]. }
    specialize (IH w Hch Hdh).
    pose proof (makedirs_rev_outcome rhead w) as Ho.
    destruct (Os.makedirs_rev rhead w) as [r0 w0]. simpl in IH. subst r0.
    destruct Ho as (Hw0 & Hsub & Hdir & Hb). simpl in *.
    assert (Hf0 : Os.isfile (rev rhead ++ [c]) w0 = false) by (rewrite Hw0; done).
    assert (Hd0 : Os.isdir (rev rhead ++ [c]) w0 = false).
    { destruct (Os.isdir (rev rhead ++ [c]) w0) eqn:Hd0; [|done].
      apply isdir_inv in Hd0 as [Hnil|Hin]; [by destruct (rev rhead)|].
      destruct (Hb _ Hin) as [Hin'|Hlen].
      - apply isdir_elem in Hin'. congruence.
      - rewrite length_app, length_rev in Hlen. simpl in Hlen. lia. }
    unfold Os.mkdir, Os.exists_. by rewrite Hdn, Hf0, Hd0, Hdir.
Qed.

Lemma clear_path_set_dirs p d w : clear_path p w -> clear_path p (set_dirs d w).
Proof. intros H q Hq. apply (H q Hq). Qed.

Lemma ensure_dirs_ok ps : forall w,
  (forall p, p ∈ ps -> clear_path p w) ->
  exists w1, Digger.ensure_dirs ps w = (Ok tt, w1) /\
             w1 = set_dirs (w_dirs w1) w /\ w_dirs w ⊆ w_dirs w1 /\
             (forall p, p ∈ ps -> Os.isdir p w1 = true) /\
             (forall q, q ∈ w_dirs w1 ->
                q ∈ w_dirs w \/ exists p, p ∈ ps /\ (List.length q <= List.length p)%nat).
Proof.
  induction ps as [|p ps IH]; intros w Hc.
  - exists w. split_and!; [done|apply set_dirs_same|done| |by left].
    intros p Hp. by apply elem_of_nil in Hp.
  - rewrite ensure_dirs_cons. destruct (Os.isdir p w) eqn:Hd.
    + destruct (IH w) as (w1 & He & Hw1 & Hsub & Hdirs & Hb); [intros q Hq; apply Hc; set_solver|].
      exists w1. split_and!; [done|done|done| |].
      * intros q Hq. apply elem_of_cons in Hq as [->|Hq]; [by apply (isdir_mono _ w)|by apply Hdirs].
      * intros q Hq. destruct (Hb q Hq) as [?|(p' & Hp' & Hl)]; [by left|right].
        exists p'. split; [set_solver|done].
    + assert (Hcp : clear_path (rev (rev p)) w) by (rewrite rev_involutive; apply Hc; set_solver).
      assert (Hdp : Os.isdir (rev (rev p)) w = false) by (by rewrite rev_involutive).
      pose proof (makedirs_rev_ok (rev p) w Hcp Hdp) as Hok.
      pose proof (makedirs_rev_outcome (rev p) w) as Ho.
      destruct (Os.makedirs_rev (rev p) w) as [r0 w0]. simpl in Hok. subst r0.
      destruct Ho as (Hw0 & Hsub0 & Hdir & Hb0). simpl in *. rewrite rev_involutive in Hdir.
      destruct (IH w0) as (w1 & He & Hw1 & Hsub & Hdirs & Hb).
      { intros q Hq. rewrite Hw0. apply clear_path_set_dirs. apply Hc. set_solver. }
      exists w1. split_and!; [done| |set_solver| |].
      * rewrite Hw1 at 1. by rewrite Hw0.
      * intros q Hq. apply elem_of_cons in Hq as [->|Hq]; [by apply (isdir_mono _ w0)|by apply Hdirs].
      * intros q Hq. destruct (Hb q Hq) as [Hq0|(p' & Hp' & Hl)].
        -- destruct (Hb0 q Hq0) as [?|Hl]; [by left|right].
           exists p. split; [set_solver|]. by rewrite length_rev in Hl.
        -- right. exists p'. split; [set_solver|done].
Qed.

(** With room for the task and a page fetched and parsed, the runner writes
    the raw page and hands the records to [persist]. *)
Lemma runner_fresh {R} file_msg skip_msg html_name output_name
    (fetch : M (string * R)) (persist : R -> M unit) w html results :
  observer fetch ->
  List.length html_name = List.length output_name ->
  fresh_task html_name output_name w ->
  fst (fetch w) = Ok (html, results) ->
  exists w2,
    runner file_msg skip_msg html_name [Os.dirname output_name; Os.dirname html_name]
           fetch persist w =
    persist results (add_write html_name (set_files (<[html_name := html]> (w_files w)) w2)) /\
    w_files w2 = w_files w /\
    Os.isdir (Os.dirname output_name) w2 = true /\ Os.isdir output_name w2 = false.
Proof.
  intros [Hq Ho] Hlen (Hch & Hco & Hdh & Hdo) Hfetch.
  assert (Hfile : Os.isfile html_name (add_log file_msg w) = false) by (apply Hch; done).
  assert (Hne : html_name <> []) by (intros ->; done).
  assert (Hcd : clear_path (Os.dirname html_name) w).
  { intros q Hq'. apply Hch. etrans; [exact Hq'|]. unfold Os.dirname.
    rewrite (app_removelast_last "" Hne) at 2. by apply prefix_app_r. }
  assert (Hdl : forall p : Path, p <> [] -> (List.length (Os.dirname p) < List.length p)%nat).
  { intros p Hp. rewrite (app_removelast_last "" Hp) at 2. rewrite length_app. simpl.
    unfold Os.dirname. lia. }
  assert (Hne' : output_name <> []) by (intros ->; by destruct html_name).
  destruct (ensure_dirs_ok [Os.dirname output_name; Os.dirname html_name] (add_log file_msg w))
    as (w1 & He & Hw1 & Hsub & Hdirs & Hb).
  { intros p Hp. apply elem_of_cons in Hp as [->|Hp]; [exact Hco|].
    apply list_elem_of_singleton in Hp as ->. exact Hcd. }
  assert (Hnew : forall p, List.length p = List.length html_name ->
                   Os.isdir p w = false -> Os.isdir p w1 = false).
  { intros p Hlp Hdp. destruct (Os.isdir p w1) eqn:Hd1; [|done].
    apply isdir_inv in Hd1 as [->|Hin]; [by destruct html_name|].
    destruct (Hb p Hin) as [Hin'|(p' & Hp' & Hl)].
    - apply (isdir_elem p w) in Hin'. congruence.
    - apply elem_of_cons in Hp' as [->|Hp'].
      + pose proof (Hdl _ Hne'). lia.
      + apply list_elem_of_singleton in Hp' as ->. pose proof (Hdl _ Hne). lia. }
  unfold runner. rewrite Hfile, He.
  pose proof (Ho w1 w) as Hr. rewrite Hfetch in Hr. pose proof (Hq w1) as Hs.
  destruct (fetch w1) as [rf w2]. simpl in Hr, Hs. subst rf.
  assert (Hf2 : w_files w2 = w_files w).
  { rewrite (same_store_files _ _ Hs). by rewrite Hw1. }
  exists w2. split_and!.
  - unfold Os.write_file.
    rewrite !(isdir_same_store _ _ _ Hs), (Hnew html_name) by done.
    rewrite (Hdirs (Os.dirname html_name)) by set_solver.
    by rewrite Hf2.
  - done.
  - rewrite (isdir_same_store _ _ _ Hs). apply Hdirs. set_solver.
  - rewrite (isdir_same_store _ _ _ Hs). by apply Hnew.
Qed.

(** ** Idempotence of the task runner *)

Lemma runner_skip_no_op {R} file_msg skip_msg html_name dirs
    (fetch : M (string * R)) (persist : R -> M unit) w :
  Os.isfile html_name w = true ->
  no_op (runner file_msg skip_msg html_name dirs fetch persist) w.
Proof. intros H. unfold no_op. by rewrite runner_skip. Qed.

Lemma scrape_by_name_no_op lib env fname lname ld df w :
  Os.isfile (Digger.search_html_name fname lname) w = true ->
  no_op (Digger.scrape_by_name lib env fname lname ld df) w.
Proof.
  intros H. unfold no_op. rewrite scrape_by_name_runner. by apply runner_skip_no_op.
Qed.

Lemma scrape_details_no_op lib env url ld df w :
  Os.isfile (Digger.details_html_name lib url) w = true ->
  no_op (Digger.scrape_details lib env url ld df) w.
Proof.
  intros H. unfold no_op. rewrite scrape_details_runner. by apply runner_skip_no_op.
Qed.

Lemma scrape_by_name_done lib env fname lname ld df w :
  fst (Digger.scrape_by_name lib env fname lname ld df w) = Ok tt ->
  Os.isfile (Digger.search_html_name fname lname)
            (snd (Digger.scrape_by_name lib env fname lname ld df w)) = true.
Proof.
  rewrite scrape_by_name_runner. apply runner_done.
  intros r. apply keeps_files_search_persist.
Qed.

Lemma scrape_details_done lib env url ld df w :
  fst (Digger.scrape_details lib env url ld df w) = Ok tt ->
  Os.isfile (Digger.details_html_name lib url)
            (snd (Digger.scrape_details lib env url ld df w)) = true.
Proof.
  rewrite scrape_details_runner. apply runner_done.
  intros r. apply keeps_files_details_persist.
Qed.

(** C1.  Once the raw page of a task is on disk, [scrape_by_name] and
    [scrape_details] end at once: no request, no write, the files and
    directories as they were.  So a second run after a run that ended
    normally is such a no-op, whatever the network answers then; and with
    the same answers of the network, a second run leaves the files and
    directories of the first one from every starting world, also when the
    first run ended by an exception. *)
Theorem task_runner_idempotent (lib : Library) (ld df : string) :
  (forall env fname lname w,
      Os.isfile (Digger.search_html_name fname lname) w = true ->
      no_op (Digger.scrape_by_name lib env fname lname ld df) w) /\
  (forall env url w,
      Os.isfile (Digger.details_html_name lib url) w = true ->
      no_op (Digger.scrape_details lib env url ld df) w) /\
  (forall env env' fname lname w,
      fst (Digger.scrape_by_name lib env fname lname ld df w) = Ok tt ->
      no_op (Digger.scrape_by_name lib env' fname lname ld df)
            (snd (Digger.scrape_by_name lib env fname lname ld df w))) /\
  (forall env env' url w,
      fst (Digger.scrape_details lib env url ld df w) = Ok tt ->
      no_op (Digger.scrape_details lib env' url ld df)
            (snd (Digger.scrape_details lib env url ld df w))) /\
  (forall env fname lname w,
      artifacts (snd (Digger.scrape_by_name lib env fname lname ld df
                        (snd (Digger.scrape_by_name lib env fname lname ld df w)))) =
      artifacts (snd (Digger.scrape_by_name lib env fname lname ld df w))) /\
  (forall env url w,
      artifacts (snd (Digger.scrape_details lib env url ld df
                        (snd (Digger.scrape_details lib env url ld df w)))) =
      artifacts (snd (Digger.scrape_details lib env url ld df w))).
Proof.
  split_and!.
  - intros. by apply scrape_by_name_no_op.
  - intros. by apply scrape_details_no_op.
  - intros env env' fname lname w Hok. by apply scrape_by_name_no_op, scrape_by_name_done.
  - intros env env' url w Hok. by apply scrape_details_no_op, scrape_details_done.
  - intros env fname lname w. rewrite !scrape_by_name_runner.
    apply runner_twice; [intros r; apply keeps_files_search_persist|].
    apply observer_datadigger_by_name.
  - intros env url w. rewrite !scrape_details_runner.
    apply runner_twice; [intros r; apply keeps_files_details_persist|].
    apply observer_datadigger_detail_page.
Qed.

Lemma task_runner_idempotent_witness :
  let env := Sample.env_of (Ok (Sample.search_page [Sample.block []])) in
  let w1 := snd (Digger.scrape_by_name Sample.lib env "Jane" "Doe" Str.nl "%Y-%m-%d"
                   Sample.empty_world) in
  Os.isfile (Digger.search_html_name "Jane" "Doe") w1 = true /\
  no_op (Digger.scrape_by_name Sample.lib (Sample.env_of (Raise ConnectionError))
           "Jane" "Doe" Str.nl "%Y-%m-%d") w1.
Proof.
  split; [vm_compute; reflexivity|].
  apply (proj1 (task_runner_idempotent Sample.lib Str.nl "%Y-%m-%d")).
  vm_compute; reflexivity.
Defined.

(** ** The paths of a task *)

Lemma append_nonempty (s suffix : string) : suffix <> "" -> (s ++ suffix)%string <> "".
Proof. intros H. destruct s; [done|]. simpl. discriminate. Qed.

Lemma path_join_nil base : Os.path_join base [] = base.
Proof. unfold Os.path_join. simpl. apply app_nil_r. Qed.

Lemma path_join_cons base (s : string) parts :
  s <> "" -> Os.path_join base (s :: parts) = Os.path_join (base ++ [s]) parts.
Proof.
  intros H. unfold Os.path_join. rewrite filter_cons_True by done. by rewrite <- app_assoc.
Qed.

Lemma path_join_cons_empty base parts : Os.path_join base ("" :: parts) = Os.path_join base parts.
Proof. unfold Os.path_join. by rewrite filter_cons_False by (intros H; by apply H). Qed.

Lemma path_join_length base parts parts' :
  List.length (filter (fun s : string => s <> "") parts) =
  List.length (filter (fun s : string => s <> "") parts') ->
  List.length (Os.path_join base parts) = List.length (Os.path_join base parts').
Proof. intros H. unfold Os.path_join. rewrite !length_app. by rewrite H. Qed.

Lemma path_join_last base (s : string) : s <> "" -> Os.path_join base [s] = (base ++ [s])%list.
Proof. intros H. by rewrite path_join_cons, path_join_nil. Qed.

Lemma dirname_snoc (base : Path) (s : string) : Os.dirname (base ++ [s]) = base.
Proof. unfold Os.dirname. apply removelast_last. Qed.

Lemma search_output_name_dirname fname lname :
  Os.dirname (Digger.search_output_name fname lname) = Digger.search_output_path lname.
Proof.
  unfold Digger.search_output_name. rewrite path_join_last; [apply dirname_snoc|].
  by apply append_nonempty.
Qed.

Lemma search_html_name_dirname fname lname :
  Os.dirname (Digger.search_html_name fname lname) = Digger.search_html_path lname.
Proof.
  unfold Digger.search_html_name. rewrite path_join_last; [apply dirname_snoc|].
  by apply append_nonempty.
Qed.

Lemma search_names_length fname lname :
  List.length (Digger.search_html_name fname lname) =
  List.length (Digger.search_output_name fname lname).
Proof.
  unfold Digger.search_html_name, Digger.search_output_name.
  rewrite !path_join_last by (by apply append_nonempty).
  rewrite !length_app. f_equal.
Qed.

Lemma search_names_differ fname lname :
  Digger.search_html_name fname lname <> Digger.search_output_name fname lname.
Proof.
  unfold Digger.search_html_name, Digger.search_output_name.
  rewrite !path_join_last by (by apply append_nonempty).
  unfold Digger.search_html_path, Digger.search_output_path.
  rewrite !path_join_cons by done. intros H.
  apply (f_equal (fun p : Path => p !! 5%nat)) in H.
  unfold Os.path_join in H. rewrite <- !app_assoc in H. simpl in H. discriminate.
Qed.

Lemma filter_nonempty_snoc (l : list string) (s : string) :
  s <> "" ->
  filter (fun x : string => x <> "") (l ++ [s])%list =
  (filter (fun x : string => x <> "") l ++ [s])%list.
Proof. intros H. rewrite filter_app. by rewrite (filter_cons_True _ s) by done. Qed.

Lemma details_file_length lib url kind kind' suffix suffix' :
  kind <> "" -> kind' <> "" -> suffix <> "" -> suffix' <> "" ->
  List.length (Digger.details_file lib url kind suffix) =
  List.length (Digger.details_file lib url kind' suffix').
Proof.
  intros Hk Hk' Hs Hs'. unfold Digger.details_file.
  set (parts := Str.split "/" (urlparse_path lib url)).
  set (lead := take 2 (drop 1 parts)).
  assert (H : forall base (pre pre' : Path),
             List.length (filter (fun s : string => s <> "") pre) =
             List.length (filter (fun s : string => s <> "") pre') ->
             List.length (Os.path_join base
               (pre ++ [(Str.join "_" (drop 3 parts) ++ suffix)%string])%list) =
             List.length (Os.path_join base
               (pre' ++ [(Str.join "_" (drop 3 parts) ++ suffix')%string])%list)).
  { intros base pre pre' Hp. apply path_join_length.
    rewrite !filter_nonempty_snoc by (by apply append_nonempty).
    rewrite !length_app. by rewrite Hp. }
  assert (H' : List.length (Os.path_join Digger.SCRAPING_DETAILS_DIR
                 (kind :: lead ++ [(Str.join "_" (drop 3 parts) ++ suffix)%string])%list) =
               List.length (Os.path_join Digger.SCRAPING_DETAILS_DIR
                 (kind' :: lead ++ [(Str.join "_" (drop 3 parts) ++ suffix')%string])%list)).
  { apply (H _ (kind :: lead) (kind' :: lead)). by rewrite !filter_cons_True by done. }
  clearbody lead parts.
  destruct lead as [|a [|b [|c l]]]; [exact H'|destruct a; exact H'| |destruct a; exact H'].
  destruct a; [|exact H']. by apply (H [] [""; b] [""; b]).
Qed.

Lemma details_names_length lib url :
  List.length (Digger.details_html_name lib url) =
  List.length (Digger.details_output_name lib url).
Proof. by apply details_file_length. Qed.

Lemma append_inv_head (s a b : string) : (s ++ a)%string = (s ++ b)%string -> a = b.
Proof. induction s as [|c s IH]; simpl; [done|]. intros H. injection H as H. by apply IH. Qed.

Lemma path_join_snoc_last base (pre : Path) (s : string) :
  s <> "" -> last (Os.path_join base (pre ++ [s])) = Some s.
Proof.
  intros H. unfold Os.path_join. rewrite filter_nonempty_snoc by done.
  rewrite app_assoc. apply last_snoc.
Qed.

Lemma details_names_differ lib url :
  Digger.details_html_name lib url <> Digger.details_output_name lib url.
Proof.
  unfold Digger.details_html_name, Digger.details_output_name, Digger.details_file.
  set (parts := Str.split "/" (urlparse_path lib url)).
  set (lead := take 2 (drop 1 parts)). clearbody lead parts.
  assert (H : forall base base' (pre pre' : Path),
             Os.path_join base (pre ++ [(Str.join "_" (drop 3 parts) ++ ".html")%string]) <>
             Os.path_join base' (pre' ++ [(Str.join "_" (drop 3 parts) ++ ".json")%string])).
  { intros base base' pre pre' Heq. apply (f_equal last) in Heq.
    rewrite !path_join_snoc_last in Heq by (by apply append_nonempty).
    injection Heq as Heq. by apply append_inv_head in Heq. }
  assert (H' : forall base base' k k' (pre pre' : Path),
             Os.path_join base (k :: pre ++ [(Str.join "_" (drop 3 parts) ++ ".html")%string]) <>
             Os.path_join base' (k' :: pre' ++ [(Str.join "_" (drop 3 parts) ++ ".json")%string])).
  { intros base base' k k' pre pre'. apply (H base base' (k :: pre) (k' :: pre')). }
  destruct lead as [|a [|b [|c l]]]; [apply H'|destruct a; apply H'| |destruct a; apply H'].
  destruct a; [|apply H']. apply (H [] [] [""; b] [""; b]).
Qed.

(** ** What a run writes *)

Lemma datadigger_by_name_non_200 lib env fname lname ld df w page :
  net env (Digger.complete_url_with_names fname lname) = Ok page ->
  status_code page <> 200 ->
  fst (Digger.datadigger_by_name lib env fname lname ld df w) = Ok (text page, []).
Proof.
  intros Hnet Hst. unfold Digger.datadigger_by_name, bind, logging, requests_get. simpl.
  rewrite Hnet. apply Z.eqb_neq in Hst. by rewrite Hst.
Qed.

Lemma datadigger_detail_page_non_200 lib env url ld df w page :
  net env url = Ok page ->
  status_code page <> 200 ->
  fst (Digger.datadigger_detail_page lib env url ld df w) = Ok (text page, ∅).
Proof.
  intros Hnet Hst. unfold Digger.datadigger_detail_page, bind, requests_get. simpl.
  rewrite Hnet. apply Z.eqb_neq in Hst. by rewrite Hst.
Qed.

Lemma write_file_ok p t w :
  Os.isdir p w = false -> Os.isdir (Os.dirname p) w = true ->
  Os.write_file p t w = (Ok tt, add_write p (set_files (<[p := t]> (w_files w)) w)).
Proof. intros H1 H2. unfold Os.write_file. by rewrite H1, H2. Qed.

Lemma isdir_add_log p r w : Os.isdir p (add_log r w) = Os.isdir p w.
Proof. done. Qed.

Lemma isdir_add_write p q w : Os.isdir p (add_write q w) = Os.isdir p w.
Proof. done. Qed.

Lemma isdir_set_files p f w : Os.isdir p (set_files f w) = Os.isdir p w.
Proof. done. Qed.

(** The files a search run leaves when there was room for the task and the
    page was fetched and parsed. *)
Lemma scrape_by_name_fresh lib env fname lname ld df w html results :
  fresh_task (Digger.search_html_name fname lname) (Digger.search_output_name fname lname) w ->
  fst (Digger.datadigger_by_name lib env fname lname ld df w) = Ok (html, results) ->
  exists w',
    Digger.scrape_by_name lib env fname lname ld df w = (Ok tt, w') /\
    w_files w' =
      match results with
      | [] => <[Digger.search_html_name fname lname := html]> (w_files w)
      | _ :: _ =>
          <[Digger.search_output_name fname lname :=
              Digger.search_json_lines lib env fname lname
                (Digger.search_output_name fname lname) "%Y-%m-%dT%H:%M:%S" 0 results]>
            (<[Digger.search_html_name fname lname := html]> (w_files w))
      end.
Proof.
  intros Hfresh Hfetch. rewrite scrape_by_name_runner.
  rewrite <- search_output_name_dirname with (fname := fname).
  rewrite <- search_html_name_dirname with (fname := fname).
  edestruct (runner_fresh (R := list Digger.Record_)) as (w2 & -> & Hf2 & Hdd & Hdo);
    [apply observer_datadigger_by_name|apply search_names_length|exact Hfresh|exact Hfetch|].
  unfold search_persist. destruct results as [|r results].
  - eexists. split; [reflexivity|]. done.
  - replace (0 <? Z.of_nat (List.length (r :: results))) with true
      by (symmetry; apply Z.ltb_lt; simpl List.length; lia).
    unfold bind, logging.
    rewrite write_file_ok by (by rewrite isdir_add_log, isdir_add_write, isdir_set_files).
    eexists. split; [reflexivity|]. done.
Qed.

Lemma scrape_details_fresh lib env url ld df w html results :
  fresh_task (Digger.details_html_name lib url) (Digger.details_output_name lib url) w ->
  fst (Digger.datadigger_detail_page lib env url ld df w) = Ok (html, results) ->
  exists w',
    Digger.scrape_details lib env url ld df w = (Ok tt, w') /\
    w_files w' =
      if Digger.dict_truthy results then
        <[Digger.details_output_name lib url :=
            (json_dumps lib
               (JDict (<["scrape_date" := JStr (strftime lib (now env) "%Y-%m-%dT%H:%M:%S")]>
                      (<["json_file" := JStr (Os.path_str (Digger.details_output_name lib url))]>
                      (<["detail_url" := JStr url]> results)))) ++ Str.nl)%string]>
          (<[Digger.details_html_name lib url := html]> (w_files w))
      else <[Digger.details_html_name lib url := html]> (w_files w).
Proof.
  intros Hfresh Hfetch. rewrite scrape_details_runner.
  edestruct (runner_fresh (R := gmap string JValue)) as (w2 & -> & Hf2 & Hdd & Hdo);
    [apply observer_datadigger_detail_page|apply details_names_length|exact Hfresh|exact Hfetch|].
  unfold details_persist. destruct (Digger.dict_truthy results).
  - rewrite write_file_ok by (by rewrite isdir_add_write, isdir_set_files).
    eexists. split; [reflexivity|]. done.
  - eexists. split; [reflexivity|]. done.
Qed.

Lemma clear_path_empty_files p w : w_files w = ∅ -> clear_path p w.
Proof. intros H q _. unfold Os.isfile. by rewrite H, lookup_empty. Qed.

Lemma fresh_task_empty html_name output_name w :
  w_files w = ∅ -> w_dirs w = ∅ -> html_name <> [] -> output_name <> [] ->
  fresh_task html_name output_name w.
Proof.
  intros Hf Hd Hh Ho. unfold fresh_task.
  split_and!; try by apply clear_path_empty_files.
  - unfold Os.isdir. destruct html_name; [done|]. rewrite Hd. by apply bool_decide_eq_false.
  - unfold Os.isdir. destruct output_name; [done|]. rewrite Hd. by apply bool_decide_eq_false.
Qed.

(** ** Responses other than 200 *)

(** C2, as the code has it.  When the site answers with a status other than
    200 and the store has room for the task, the run ends normally, writes
    the body of the answer as the raw page of the task and leaves the JSON
    file of the task as it was. *)
Theorem non_200_writes_raw_page_only (lib : Library) (env : Env) (ld df : string) :
  (forall fname lname w page,
      net env (Digger.complete_url_with_names fname lname) = Ok page ->
      status_code page <> 200 ->
      fresh_task (Digger.search_html_name fname lname)
                 (Digger.search_output_name fname lname) w ->
      exists w',
        Digger.scrape_by_name lib env fname lname ld df w = (Ok tt, w') /\
        w_files w' = <[Digger.search_html_name fname lname := text page]> (w_files w) /\
        w_files w' !! Digger.search_output_name fname lname =
        w_files w !! Digger.search_output_name fname lname) /\
  (forall url w page,
      net env url = Ok page ->
      status_code page <> 200 ->
      fresh_task (Digger.details_html_name lib url) (Digger.details_output_name lib url) w ->
      exists w',
        Digger.scrape_details lib env url ld df w = (Ok tt, w') /\
        w_files w' = <[Digger.details_html_name lib url := text page]> (w_files w) /\
        w_files w' !! Digger.details_output_name lib url =
        w_files w !! Digger.details_output_name lib url).
Proof.
  split.
  - intros fname lname w page Hnet Hst Hfresh.
    destruct (scrape_by_name_fresh lib env fname lname ld df w (text page) [] Hfresh)
      as (w' & Hrun & Hfiles); [by apply datadigger_by_name_non_200|].
    exists w'. split_and!; [done|done|].
    rewrite Hfiles. apply lookup_insert_ne, search_names_differ.
  - intros url w page Hnet Hst Hfresh.
    destruct (scrape_details_fresh lib env url ld df w (text page) ∅ Hfresh)
      as (w' & Hrun & Hfiles); [by apply datadigger_detail_page_non_200|].
    exists w'. split_and!; [done|done|].
    rewrite Hfiles. apply lookup_insert_ne, details_names_differ.
Qed.

Lemma non_200_writes_raw_page_only_witness :
  exists w',
    Digger.scrape_by_name Sample.lib (Sample.env_of (Ok Sample.not_found))
      "Jane" "Doe" Str.nl "%Y-%m-%d" Sample.empty_world = (Ok tt, w') /\
    w_files w' = <[Digger.search_html_name "Jane" "Doe" := "Not Found"]> ∅ /\
    w_files w' !! Digger.search_output_name "Jane" "Doe" = None.
Proof.
  apply (proj1 (non_200_writes_raw_page_only Sample.lib
                  (Sample.env_of (Ok Sample.not_found)) Str.nl "%Y-%m-%d")
               "Jane" "Doe" Sample.empty_world Sample.not_found).
  - reflexivity.
  - vm_compute. discriminate.
  - apply fresh_task_empty; [reflexivity|reflexivity|vm_compute; discriminate|vm_compute; discriminate].
Defined.

(** C2 fails: a 404 answer to the search for Jane Doe leaves its body on
    disk as the raw page of the task. *)
Lemma non_200_raw_page_on_disk :
  let w' := snd (Digger.scrape_by_name Sample.lib (Sample.env_of (Ok Sample.not_found))
                   "Jane" "Doe" Str.nl "%Y-%m-%d" Sample.empty_world) in
  status_code Sample.not_found = 404 /\
  Os.isfile (Digger.search_html_name "Jane" "Doe") Sample.empty_world = false /\
  w_files w' !! Digger.search_html_name "Jane" "Doe" = Some "Not Found".
Proof. vm_compute. done. Qed.

(** ** The pair of artifacts *)

(** A run of a task that ends normally from a store without the raw page,
    when what the look-up gave is persisted without writing: the raw page
    is the one file the run leaves. *)
Lemma runner_raw_page_only {R} file_msg skip_msg html_name dirs
    (fetch : M (string * R)) (persist : R -> M unit) w w' html (r : R) :
  observer fetch ->
  (forall w0, w_files (snd (persist r w0)) = w_files w0) ->
  Os.isfile html_name w = false ->
  fst (fetch w) = Ok (html, r) ->
  runner file_msg skip_msg html_name dirs fetch persist w = (Ok tt, w') ->
  w_files w' = <[html_name := html]> (w_files w).
Proof.
  intros [Hq Ho] Hp Hfile Hfetch. unfold runner.
  replace (Os.isfile html_name (add_log file_msg w)) with false by done.
  pose proof (ensure_dirs_outcome dirs (add_log file_msg w)) as He.
  destruct (Digger.ensure_dirs dirs (add_log file_msg w)) as [[[]|e] w1]; [|done].
  destruct He as (Hw1 & _ & _). cbn [snd] in Hw1.
  rewrite (Ho w w1) in Hfetch. pose proof (same_store_files _ _ (Hq w1)) as Hs.
  destruct (fetch w1) as [[[html' r']|e] w2]; [|done].
  cbn [fst snd] in Hfetch, Hs. injection Hfetch as -> ->.
  destruct (write_file_cases html_name html w2) as [(_ & _ & ->)|[e ->]]; [|done].
  intros Hrun.
  pose proof (Hp (add_write html_name (set_files (<[html_name := html]> (w_files w2)) w2)))
    as Hfiles.
  rewrite Hrun in Hfiles. cbn [snd] in Hfiles. rewrite Hfiles. cbn [w_files add_write set_files].
  rewrite Hs, Hw1. done.
Qed.

(** C3 at the failing input: a look-up that gives no record.  The docstrings
    of [scrape_by_name] and [scrape_details] promise two files for each
    request, the raw page and the JSON record.  But the JSON file is opened
    only when the parser gave something: whenever a run ends normally after
    a look-up without a record (a search page with no result block) or with
    an empty mapping, from a store with neither file of the task, the raw
    page is on disk afterwards and the JSON file is not.  Such runs exist:
    from a store with room for the task the run does end normally. *)
Theorem no_record_leaves_raw_page_without_json (lib : Library) (env : Env) (ld df : string) :
  (forall fname lname w w' html,
      Os.isfile (Digger.search_html_name fname lname) w = false ->
      Os.isfile (Digger.search_output_name fname lname) w = false ->
      fst (Digger.datadigger_by_name lib env fname lname ld df w) = Ok (html, []) ->
      Digger.scrape_by_name lib env fname lname ld df w = (Ok tt, w') ->
      w_files w' !! Digger.search_html_name fname lname = Some html /\
      Os.isfile (Digger.search_output_name fname lname) w' = false) /\
  (forall url w w' html,
      Os.isfile (Digger.details_html_name lib url) w = false ->
      Os.isfile (Digger.details_output_name lib url) w = false ->
      fst (Digger.datadigger_detail_page lib env url ld df w) = Ok (html, ∅) ->
      Digger.scrape_details lib env url ld df w = (Ok tt, w') ->
      w_files w' !! Digger.details_html_name lib url = Some html /\
      Os.isfile (Digger.details_output_name lib url) w' = false) /\
  (forall fname lname w html,
      fresh_task (Digger.search_html_name fname lname)
                 (Digger.search_output_name fname lname) w ->
      fst (Digger.datadigger_by_name lib env fname lname ld df w) = Ok (html, []) ->
      exists w', Digger.scrape_by_name lib env fname lname ld df w = (Ok tt, w')).
Proof.
  assert (Halone : forall (html_name output_name : Path) html (w w' : World),
             html_name <> output_name ->
             Os.isfile output_name w = false ->
             w_files w' = <[html_name := html]> (w_files w) ->
             w_files w' !! html_name = Some html /\ Os.isfile output_name w' = false).
  { intros html_name output_name html w w' Hne Hout Hfiles. unfold Os.isfile in *.
    rewrite Hfiles. split; [by rewrite lookup_insert_eq|]. by rewrite lookup_insert_ne. }
  split_and!.
  - intros fname lname w w' html Hfile Hout Hfetch Hrun.
    apply (Halone _ _ html w w'); [apply search_names_differ|done|].
    rewrite scrape_by_name_runner in Hrun.
    eapply runner_raw_page_only;
      [apply observer_datadigger_by_name| |exact Hfile|exact Hfetch|exact Hrun].
    intros w0. done.
  - intros url w w' html Hfile Hout Hfetch Hrun.
    apply (Halone _ _ html w w'); [apply details_names_differ|done|].
    rewrite scrape_details_runner in Hrun.
    eapply runner_raw_page_only;
      [apply observer_datadigger_detail_page| |exact Hfile|exact Hfetch|exact Hrun].
    intros w0. done.
  - intros fname lname w html Hfresh Hfetch.
    destruct (scrape_by_name_fresh lib env fname lname ld df w html [] Hfresh Hfetch)
      as (w' & Hrun & _).
    by exists w'.
Qed.

Lemma no_record_leaves_raw_page_without_json_witness :
  exists w',
    Digger.scrape_by_name Sample.lib (Sample.env_of (Ok (Sample.search_page [])))
      "Jane" "Doe" Str.nl "%Y-%m-%d" Sample.empty_world = (Ok tt, w') /\
    w_files w' !! Digger.search_html_name "Jane" "Doe" = Some "<html>results</html>" /\
    Os.isfile (Digger.search_output_name "Jane" "Doe") w' = false.
Proof.
  pose proof (no_record_leaves_raw_page_without_json Sample.lib
                (Sample.env_of (Ok (Sample.search_page []))) Str.nl "%Y-%m-%d")
    as (Hbug & _ & Hruns).
  assert (Hfetch : fst (Digger.datadigger_by_name Sample.lib
                          (Sample.env_of (Ok (Sample.search_page [])))
                          "Jane" "Doe" Str.nl "%Y-%m-%d" Sample.empty_world) =
                   Ok ("<html>results</html>", [])) by (vm_compute; reflexivity).
  destruct (Hruns "Jane" "Doe" Sample.empty_world "<html>results</html>") as [w' Hrun].
  - apply fresh_task_empty; [reflexivity|reflexivity|vm_compute; discriminate|vm_compute; discriminate].
  - exact Hfetch.
  - exists w'. split; [exact Hrun|].
    apply (Hbug "Jane" "Doe" Sample.empty_world w' "<html>results</html>");
      [reflexivity|reflexivity|exact Hfetch|exact Hrun].
Defined.

(** ** The batch loops and the termination flag *)

(** A loop entered with the flag up leaves at once. *)
Lemma search_loop_flag_up lib env signals j terminate rows w :
  Digger.terminate_now terminate = true ->
  Digger.search_loop lib env signals j terminate rows w = (Ok tt, w).
Proof.
  intros H. destruct rows as [|row rest]; [done|]. simpl.
  unfold Digger.deliver. destruct (signals j); [done|]. by rewrite H.
Qed.

Lemma details_loop_flag_up lib env signals j terminate urls w :
  Digger.terminate_now terminate = true ->
  Digger.details_loop lib env signals j terminate urls w = (Ok tt, w).
Proof.
  intros H. destruct urls as [|url rest]; [done|]. simpl.
  unfold Digger.deliver. destruct (signals j); [done|]. by rewrite H.
Qed.

Lemma search_loop_until_signal lib env signals rows : forall j k terminate w,
  Digger.terminate_now terminate = false ->
  (forall i, (j <= i < j + k)%nat -> signals i = None) ->
  (signals (j + k)%nat <> None \/ (List.length rows <= k)%nat) ->
  Digger.search_loop lib env signals j terminate rows w =
  for_each (take k rows) (Digger.search_row lib env) w.
Proof.
  induction rows as [|row rest IH]; intros j k terminate w Hflag Hnone Hsig.
  - by rewrite take_nil.
  - destruct k as [|k].
    + destruct Hsig as [Hsig|Hlen]; [|simpl in Hlen; lia].
      rewrite Nat.add_0_r in Hsig. simpl. unfold Digger.deliver.
      destruct (signals j); [done|by destruct Hsig].
    + simpl. rewrite (Hnone j) by lia. simpl. rewrite Hflag. unfold bind.
      destruct (Digger.search_row lib env row w) as [[[]|e] w1]; [|done].
      apply IH; [done| |].
      * intros i Hi. apply Hnone. lia.
      * replace (S j + k)%nat with (j + S k)%nat by lia.
        destruct Hsig as [?|Hlen]; [by left|right; simpl in Hlen; lia].
Qed.

Lemma details_loop_until_signal lib env signals urls : forall j k terminate w,
  Digger.terminate_now terminate = false ->
  (forall i, (j <= i < j + k)%nat -> signals i = None) ->
  (signals (j + k)%nat <> None \/ (List.length urls <= k)%nat) ->
  Digger.details_loop lib env signals j terminate urls w =
  for_each (take k urls) (Digger.details_row lib env) w.
Proof.
  induction urls as [|url rest IH]; intros j k terminate w Hflag Hnone Hsig.
  - by rewrite take_nil.
  - destruct k as [|k].
    + destruct Hsig as [Hsig|Hlen]; [|simpl in Hlen; lia].
      rewrite Nat.add_0_r in Hsig. simpl. unfold Digger.deliver.
      destruct (signals j); [done|by destruct Hsig].
    + simpl. rewrite (Hnone j) by lia. simpl. rewrite Hflag. unfold bind.
      destruct (Digger.details_row lib env url w) as [[[]|e] w1]; [|done].
      apply IH; [done| |].
      * intros i Hi. apply Hnone. lia.
      * replace (S j + k)%nat with (j + S k)%nat by lia.
        destruct Hsig as [?|Hlen]; [by left|right; simpl in Hlen; lia].
Qed.

(** C8.  Let the first signal arrive before the flag is read in pass [k]
    (so during pass [k - 1], or before the loop for [k = 0]).  Then each
    batch loop does what running the first [k] tasks, each one to its end,
    does, and starts no task after them; a loop entered with the flag up
    starts no task at all; and [main_search] as a whole handles the first
    [k] rows of its table and logs that it has finished. *)
Theorem no_task_after_signal (lib : Library) (env : Env) (signals : nat -> option Digger.Signal)
    (k : nat) :
  signals k <> None ->
  (forall i, (i < k)%nat -> signals i = None) ->
  (forall rows w,
      Digger.search_loop lib env signals 0 Digger.GracefulTerminate_init rows w =
      for_each (take k rows) (Digger.search_row lib env) w) /\
  (forall urls w,
      Digger.details_loop lib env signals 0 Digger.GracefulTerminate_init urls w =
      for_each (take k urls) (Digger.details_row lib env) w) /\
  (forall j terminate rows w,
      Digger.terminate_now terminate = true ->
      Digger.search_loop lib env signals j terminate rows w = (Ok tt, w)) /\
  (forall j terminate urls w,
      Digger.terminate_now terminate = true ->
      Digger.details_loop lib env signals j terminate urls w = (Ok tt, w)) /\
  (forall names_df_file w,
      Digger.main_search lib env signals names_df_file w =
      (logging INFO "Started" [] ;;
       logging INFO "Number of records: %d"
               [JInt (Z.of_nat (List.length (Digger.dropna names_df_file)))] ;;
       for_each (take k (Digger.dropna names_df_file)) (Digger.search_row lib env) ;;
       logging INFO "Finished" []) w).
Proof.
  intros Hsig Hnone.
  assert (Hsearch : forall rows w,
             Digger.search_loop lib env signals 0 Digger.GracefulTerminate_init rows w =
             for_each (take k rows) (Digger.search_row lib env) w).
  { intros rows w. apply search_loop_until_signal; [done| |by left].
    intros i Hi. apply Hnone. lia. }
  split_and!.
  - exact Hsearch.
  - intros urls w. apply details_loop_until_signal; [done| |by left].
    intros i Hi. apply Hnone. lia.
  - intros. by apply search_loop_flag_up.
  - intros. by apply details_loop_flag_up.
  - intros rows w. unfold Digger.main_search, bind, logging. by rewrite Hsearch.
Qed.

Lemma no_task_after_signal_witness :
  let env := Sample.env_of (Ok Sample.not_found) in
  let signals := fun j : nat => if (j =? 1)%nat then Some Digger.SIGTERM else None in
  let rows := [Digger.mkRow (JStr "Jane") (JStr "Doe"); Digger.mkRow (JStr "John") (JStr "Roe")] in
  Digger.search_loop Sample.lib env signals 0 Digger.GracefulTerminate_init rows
    Sample.empty_world =
  for_each [Digger.mkRow (JStr "Jane") (JStr "Doe")] (Digger.search_row Sample.lib env)
    Sample.empty_world.
Proof.
  intros env signals rows.
  apply (proj1 (no_task_after_signal Sample.lib env signals 1 ltac:(simpl; discriminate)
                  ltac:(intros i Hi; assert (i = 0%nat) as -> by lia; reflexivity))
               rows Sample.empty_world).
Defined.

(** ** The parameter [anyState] *)

(** C9.  [scraping] never reads its parameter [anyState]: with the global
    [any_state] fixed, every value of the parameter gives the same run.  The
    global does choose the states: with [any_state] true one listing is
    asked for per category, with [any_state] false two. *)
Theorem anyState_is_not_read (lib : Library) (g : Kickstarter.Globals) (site : Kickstarter.Site)
    (sections : option (list string)) (limit : Z) (w : World) :
  Kickstarter.scraping lib g site sections true limit w =
  Kickstarter.scraping lib g site sections false limit w /\
  w_requests (snd (Kickstarter.scraping Sample.ks_lib (Sample.ks_globals true)
                     (fun _ => []) (Some ["design"]) false 0 Sample.empty_world)) =
    ["https://www.kickstarter.com/discover/advanced?category_id=7&sort=newest&seed=2731239&page=1"] /\
  w_requests (snd (Kickstarter.scraping Sample.ks_lib (Sample.ks_globals false)
                     (fun _ => []) (Some ["design"]) true 0 Sample.empty_world)) =
    ["https://www.kickstarter.com/discover/advanced?state=live&category_id=7&sort=newest&seed=2731239&page=1";
     "https://www.kickstarter.com/discover/advanced?state=upcoming&category_id=7&sort=newest&seed=2731239&page=1"].
Proof. split_and!; [reflexivity|vm_compute; reflexivity|vm_compute; reflexivity]. Qed.

(** ** Dates that cannot be extracted *)

(** C5 at the failing input: a search page with one result block whose
    paragraph reads "Born: unknown".  [search_dates] finds no date in it and
    returns [None]; the parser then takes [len(None)], the look-up of the
    page ends by a [TypeError], and the task runner writes no file. *)
Theorem born_without_date_raises (lib : Library) (env : Env) (fname lname ld df : string)
    (w : World) :
  search_dates lib "Born: unknown" = None ->
  net env (Digger.complete_url_with_names fname lname) =
    Ok (Sample.search_page [Sample.block [mkChild (Some "p") "Born: unknown"]]) ->
  Digger.parse_result_body lib ld df (Sample.block [mkChild (Some "p") "Born: unknown"]) =
    Raise TypeError /\
  fst (Digger.datadigger_by_name lib env fname lname ld df w) = Raise TypeError /\
  (Os.isfile (Digger.search_html_name fname lname) w = false ->
   fst (Digger.scrape_by_name lib env fname lname ld df w) <> Ok tt /\
   w_files (snd (Digger.scrape_by_name lib env fname lname ld df w)) = w_files w).
Proof.
  intros Hdates Hnet.
  assert (Hparse : Digger.parse_result_body lib ld df
                     (Sample.block [mkChild (Some "p") "Born: unknown"]) = Raise TypeError).
  { unfold Digger.parse_result_body, Sample.block. cbn -[Str.strip Str.contains Str.lower Str.join].
    replace (Str.strip "Born: unknown") with "Born: unknown" by (vm_compute; reflexivity).
    replace (Str.contains "born" (Str.lower "Born: unknown")) with true by (vm_compute; reflexivity).
    by rewrite Hdates. }
  assert (Hfetch : forall w0, fst (Digger.datadigger_by_name lib env fname lname ld df w0) =
                              Raise TypeError).
  { intros w0. unfold Digger.datadigger_by_name, bind, logging, requests_get.
    rewrite Hnet. cbn [status_code Sample.search_page Z.eqb Pos.eqb soup result_bodies].
    cbn [Digger.parse_result_bodies]. unfold bind, lift.
    replace (Digger.MAX_RESULTS_ON_SEARCH_PAGE <? 0) with false by (vm_compute; reflexivity).
    by rewrite Hparse. }
  split_and!; [done|apply Hfetch|].
  intros Hfile. rewrite scrape_by_name_runner. unfold runner.
  replace (Os.isfile (Digger.search_html_name fname lname) (add_log _ w)) with false by done.
  pose proof (ensure_dirs_outcome
                [Digger.search_output_path lname; Digger.search_html_path lname]
                (add_log (mkLog INFO "File: %s"
                            [JStr (Os.path_str (Digger.search_output_name fname lname))]) w)) as He.
  destruct (Digger.ensure_dirs _ _) as [[[]|e] w1]; destruct He as (Hw1 & _ & _); simpl in Hw1.
  - specialize (Hfetch w1).
    pose proof (proj1 (observer_datadigger_by_name lib env fname lname ld df) w1) as Hs.
    destruct (Digger.datadigger_by_name lib env fname lname ld df w1) as [r w2].
    simpl in Hfetch, Hs. subst r. simpl. split; [done|].
    rewrite (same_store_files _ _ Hs). by rewrite Hw1.
  - simpl. split; [done|]. by rewrite Hw1.
Qed.

Lemma born_without_date_raises_witness :
  fst (Digger.datadigger_by_name Sample.lib
         (Sample.env_of (Ok (Sample.search_page [Sample.block [mkChild (Some "p") "Born: unknown"]])))
         "Jane" "Doe" Str.nl "%Y-%m-%d" Sample.empty_world) = Raise TypeError.
Proof.
  apply (born_without_date_raises Sample.lib
           (Sample.env_of (Ok (Sample.search_page [Sample.block [mkChild (Some "p") "Born: unknown"]])))
           "Jane" "Doe" Str.nl "%Y-%m-%d" Sample.empty_world).
  - vm_compute. reflexivity.
  - reflexivity.
Defined.

(** ** The cap on the results of a page *)

Lemma parse_result_bodies_length lib ld df bodies : forall j results w,
  0 <= j <= Digger.MAX_RESULTS_ON_SEARCH_PAGE + 1 ->
  Forall (fun b => exists r, Digger.parse_result_body lib ld df b = Ok r) bodies ->
  exists rs,
    fst (Digger.parse_result_bodies lib ld df j bodies results w) = Ok rs /\
    Z.of_nat (List.length rs) =
      Z.of_nat (List.length results) +
      Z.min (Z.of_nat (List.length bodies))
            (Z.max 0 (Digger.MAX_RESULTS_ON_SEARCH_PAGE + 1 - j)) /\
    w_log (snd (Digger.parse_result_bodies lib ld df j bodies results w)) =
      if Digger.MAX_RESULTS_ON_SEARCH_PAGE + 1 - j <? Z.of_nat (List.length bodies)
      then (w_log w ++ [mkLog ERROR "Too many results on search page. Number exceeds %d"
                          [JInt Digger.MAX_RESULTS_ON_SEARCH_PAGE]])%list
      else w_log w.
Proof.
  unfold Digger.MAX_RESULTS_ON_SEARCH_PAGE.
  induction bodies as [|b bodies IH]; intros j results w Hj Hall.
  - exists results. cbn [Digger.parse_result_bodies ret fst snd List.length].
    split_and!; [done|lia|].
    destruct (_ <? _) eqn:E; [apply Z.ltb_lt in E; simpl in E; lia|done].
  - apply Forall_cons in Hall as [[r Hr] Hall]. cbn [Digger.parse_result_bodies].
    unfold Digger.MAX_RESULTS_ON_SEARCH_PAGE.
    destruct (10000 <? j) eqn:Hcap.
    + apply Z.ltb_lt in Hcap. exists results. unfold bind, logging, ret. simpl fst. simpl snd.
      split_and!; [done|lia|].
      destruct (10000 + 1 - j <? Z.of_nat (List.length (b :: bodies))) eqn:E; [done|].
      apply Z.ltb_ge in E. simpl List.length in E. lia.
    + apply Z.ltb_ge in Hcap. unfold bind, lift. rewrite Hr.
      destruct (IH (j + 1) (results ++ [r])%list w ltac:(lia) Hall) as (rs & Hrs & Hlen & Hlog).
      exists rs. split_and!; [done| |].
      * rewrite Hlen, length_app. simpl List.length. lia.
      * rewrite Hlog.
        replace (10000 + 1 - (j + 1) <? Z.of_nat (List.length bodies))
          with (10000 + 1 - j <? Z.of_nat (List.length (b :: bodies))); [done|].
        simpl List.length.
        destruct (10000 + 1 - j <? Z.of_nat (S (List.length bodies))) eqn:E1,
                 (10000 + 1 - (j + 1) <? Z.of_nat (List.length bodies)) eqn:E2; try done.
        -- apply Z.ltb_lt in E1. apply Z.ltb_ge in E2. lia.
        -- apply Z.ltb_ge in E1. apply Z.ltb_lt in E2. lia.
Qed.

(** C6 at the failing input.  The loop leaves only when the index is above
    the cap, so the blocks 0 to 10000 are all parsed: a page with 10001
    result blocks, one more than MAX_RESULTS_ON_SEARCH_PAGE, gives 10001
    records and no log record. *)
Theorem cap_lets_one_more_through (lib : Library) (env : Env) (fname lname ld df : string)
    (w : World) (page : Response) :
  net env (Digger.complete_url_with_names fname lname) = Ok page ->
  status_code page = 200 ->
  Forall (fun b => exists r, Digger.parse_result_body lib ld df b = Ok r)
         (result_bodies (soup page)) ->
  Z.of_nat (List.length (result_bodies (soup page))) = Digger.MAX_RESULTS_ON_SEARCH_PAGE + 1 ->
  exists rs,
    fst (Digger.datadigger_by_name lib env fname lname ld df w) = Ok (text page, rs) /\
    Z.of_nat (List.length rs) = Digger.MAX_RESULTS_ON_SEARCH_PAGE + 1 /\
    w_log (snd (Digger.datadigger_by_name lib env fname lname ld df w)) =
      (w_log w ++ [mkLog INFO "Query: %s" [JStr (Digger.complete_url_with_names fname lname)]])%list.
Proof.
  intros Hnet Hst Hall Hlen.
  unfold Digger.datadigger_by_name, bind, logging, requests_get. rewrite Hnet, Hst, Z.eqb_refl.
  set (w0 := add_request _ (add_log _ w)).
  destruct (parse_result_bodies_length lib ld df (result_bodies (soup page)) 0 [] w0
              ltac:(unfold Digger.MAX_RESULTS_ON_SEARCH_PAGE; lia) Hall) as (rs & Hrs & Hl & Hlog).
  exists rs.
  match goal with
  | |- context [let (_, _) := ?X in _] => rewrite (surjective_pairing X), Hrs
  end.
  cbn [ret fst snd]. split_and!; [done| |].
  - rewrite Hl, Hlen. unfold Digger.MAX_RESULTS_ON_SEARCH_PAGE. simpl List.length. lia.
  - rewrite Hlog, Hlen. rewrite Z.sub_0_r. by rewrite Z.ltb_irrefl.
Qed.

Lemma cap_lets_one_more_through_witness :
  let page := Sample.search_page (replicate (Z.to_nat 10001) (Sample.block [])) in
  exists rs,
    fst (Digger.datadigger_by_name Sample.lib (Sample.env_of (Ok page))
           "Jane" "Doe" Str.nl "%Y-%m-%d" Sample.empty_world) = Ok (text page, rs) /\
    Z.of_nat (List.length rs) = 10001.
Proof.
  intros page.
  destruct (cap_lets_one_more_through Sample.lib (Sample.env_of (Ok page))
              "Jane" "Doe" Str.nl "%Y-%m-%d" Sample.empty_world page) as (rs & Hrs & Hlen & _).
  - reflexivity.
  - reflexivity.
  - apply Forall_replicate. eexists. reflexivity.
  - unfold page. cbn [result_bodies soup Sample.search_page].
    rewrite length_replicate, Z2Nat.id by lia. reflexivity.
  - exists rs. split; [exact Hrs|exact Hlen].
Defined.

(** ** The sentinel file *)

Lemma calm_ret {A} (a : A) : calm (ret a).
Proof. intros w. split; [done|]. exists []. by rewrite app_nil_r. Qed.

Lemma calm_lift {A} (r : Res A) : r <> Raise SystemExit -> calm (lift r).
Proof. intros H w. split; [done|]. exists []. by rewrite app_nil_r. Qed.

Lemma calm_raise {A} (e : exn) : e <> SystemExit -> calm (@raise A e).
Proof. intros H w. split; [simpl; congruence|]. exists []. by rewrite app_nil_r. Qed.

Lemma calm_logging l fmt args : l <> CRITICAL -> calm (logging l fmt args).
Proof.
  intros H w. split; [done|]. exists [mkLog l fmt args]. split; [done|].
  apply Forall_singleton. unfold is_critical. simpl. by destruct l.
Qed.

Lemma calm_bind {A B} (m : M A) (f : A -> M B) :
  calm m -> (forall a, calm (f a)) -> calm (bind m f).
Proof.
  intros Hm Hf w. unfold bind. destruct (Hm w) as [Hne (l & Hl & Hall)].
  destruct (m w) as [[a|e] w1]; simpl in *.
  - destruct (Hf a w1) as [Hne' (l' & Hl' & Hall')]. split; [done|].
    exists (l ++ l')%list. split; [by rewrite Hl', Hl, app_assoc|by apply Forall_app].
  - split; [intros [= ->]; by apply Hne|]. eauto.
Qed.

Lemma calm_if {A} (c : World -> bool) (m1 m2 : M A) :
  calm m1 -> calm m2 -> calm (fun w => if c w then m1 w else m2 w).
Proof. intros H1 H2 w. destruct (c w); [apply H1|apply H2]. Qed.

(** A [try] around a calm body with a calm handler ends normally. *)
Lemma try_except_calm (m : M unit) (h : exn -> M unit) :
  calm m -> (forall e w, fst (h e w) = Ok tt) -> (forall e, calm (h e)) ->
  calm (try_except m h) /\ forall w, fst (try_except m h w) = Ok tt.
Proof.
  intros Hm Hok Hh.
  assert (Hshape : forall w,
             try_except m h w = m w /\ fst (m w) = Ok tt \/
             exists e w1, m w = (Raise e, w1) /\ e <> SystemExit /\ try_except m h w = h e w1).
  { intros w. unfold try_except. destruct (Hm w) as [Hne _].
    destruct (m w) as [[[]|e] w1]; simpl in *; [by left|right].
    exists e, w1. split_and!; [done|congruence|]. destruct e; done. }
  split.
  - intros w. destruct (Hshape w) as [[-> _]|(e & w1 & Hmw & Hne & ->)]; [apply Hm|].
    destruct (Hm w) as [_ (l & Hl & Hall)]. rewrite Hmw in Hl. simpl in Hl.
    destruct (Hh e w1) as [Hne' (l' & Hl' & Hall')]. split; [done|].
    exists (l ++ l')%list. split; [by rewrite Hl', Hl, app_assoc|by apply Forall_app].
  - intros w. destruct (Hshape w) as [[-> ?]|(e & w1 & _ & _ & ->)]; [done|apply Hok].
Qed.

Lemma silent_calm {A} (m : M A) : silent m -> calm m.
Proof.
  intros H w. destruct (H w) as [Hne Hl]. split; [done|]. exists []. by rewrite app_nil_r.
Qed.

Lemma silent_mkdir p : silent (Os.mkdir p).
Proof.
  intros w. unfold Os.mkdir.
  destruct (Os.exists_ p w); [done|].
  destruct (Os.isdir (Os.dirname p) w); [done|].
  by destruct (Os.isfile (Os.dirname p) w).
Qed.

Lemma silent_makedirs_rev rp : silent (Os.makedirs_rev rp).
Proof.
  induction rp as [|c rhead IH]; [apply silent_mkdir|].
  intros w. cbn [Os.makedirs_rev]. unfold bind.
  destruct (Os.exists_ (rev rhead) w).
  - apply silent_mkdir.
  - destruct (IH w) as [Hne Hl].
    destruct (Os.makedirs_rev rhead w) as [[[]|e] w1]; simpl in *.
    + destruct (silent_mkdir (rev rhead ++ [c]) w1) as [? Hl1]. split; [done|congruence].
    + destruct e; try done.
      destruct (silent_mkdir (rev rhead ++ [c]) w1) as [? Hl1]. split; [done|congruence].
Qed.

Lemma silent_ensure_dirs ps : silent (Digger.ensure_dirs ps).
Proof.
  induction ps as [|p ps IH]; [done|].
  intros w. rewrite ensure_dirs_cons. destruct (Os.isdir p w); [apply IH|].
  destruct (silent_makedirs_rev (rev p) w) as [Hne Hl].
  destruct (Os.makedirs_rev (rev p) w) as [[[]|e] w1]; simpl in *; [|done].
  destruct (IH w1) as [? Hl1]. split; [done|congruence].
Qed.

Lemma silent_write_file p t : silent (Os.write_file p t).
Proof.
  intros w. unfold Os.write_file.
  destruct (Os.isdir p w); [done|].
  destruct (Os.isdir (Os.dirname p) w); [done|].
  by destruct (Os.isfile (Os.dirname p) w).
Qed.

Lemma silent_read_file p : silent (Os.read_file p).
Proof.
  intros w. unfold Os.read_file.
  destruct (w_files w !! p); [done|]. by destruct (Os.isdir p w).
Qed.

Lemma scan_children_no_exit lib df children : forall res,
  Digger.scan_children lib df children res <> Raise SystemExit.
Proof.
  induction children as [|c children IH]; intros res; [done|]. simpl.
  assert (H : Digger.scan_child lib df c res <> Raise SystemExit).
  { unfold Digger.scan_child. destruct (c_name c) as [[|]|]; try done.
    destruct (Str.contains "born" _); [by destruct (search_dates lib _) as [[|[]]|]|].
    destruct (Str.contains "updated" _); [by destruct (search_dates lib _) as [[|[]]|]|done]. }
  destruct (Digger.scan_child lib df c res) as [res'|e]; [apply IH|congruence].
Qed.

Lemma parse_result_body_no_exit lib ld df b :
  Digger.parse_result_body lib ld df b <> Raise SystemExit.
Proof.
  unfold Digger.parse_result_body, Digger.complete_url_with_anchor.
  destruct (rb_h4_anchor b) as [[a|]|]; try done.
  destruct (a_href a); [|done]. apply scan_children_no_exit.
Qed.

Lemma parse_labels_no_exit lib d df keys labels : forall attrs,
  Digger.parse_labels lib d df keys labels attrs <> Raise SystemExit.
Proof.
  induction labels as [|l labels IH]; intros attrs; [done|]. cbn [Digger.parse_labels].
  destruct (lb_next_value l); [apply IH|done].
Qed.

Lemma parse_registrations_no_exit lib ld df headers : forall acc,
  Digger.parse_registrations lib ld df headers acc <> Raise SystemExit.
Proof.
  induction headers as [|h headers IH]; intros acc; [done|]. cbn [Digger.parse_registrations].
  destruct (search_dates lib (ch_text h)) as [[|[t d] ?]|]; try done.
  destruct (ch_body h) as [labels|]; [|done].
  pose proof (parse_labels_no_exit lib ld df ["birthdate"; "registration"] labels ∅) as H.
  destruct (Digger.parse_labels _ _ _ _ _ _) as [attrs|e]; [apply IH|congruence].
Qed.

Lemma parse_detail_page_no_exit lib ld df s :
  Digger.parse_detail_page lib ld df s <> Raise SystemExit.
Proof.
  unfold Digger.parse_detail_page.
  destruct (filter _ (profile_headers s)) as [|ph ?]; [done|].
  destruct (ph_next_div ph) as [labels|]; [|done].
  pose proof (parse_labels_no_exit lib Str.nl df ["born"] labels ∅) as H.
  destruct (Digger.parse_labels _ _ _ _ _ _) as [attrs|e]; [|congruence].
  pose proof (parse_registrations_no_exit lib ld df
                (filter (fun x => Str.contains "Voter Registration" (ch_text x) = true)
                        (page_container_headers s)) []) as H'.
  destruct (Digger.parse_registrations _ _ _ _ _) as [regs|e]; [done|congruence].
Qed.

Section Calm.

Context (lib : Library) (env : Env).
Hypothesis never_exits : forall url, net env url <> Raise SystemExit.

Lemma calm_requests_get url : calm (requests_get env url).
Proof.
  intros w. split; [apply never_exits|]. exists []. simpl. by rewrite app_nil_r.
Qed.

Lemma calm_parse_result_bodies ld df bodies :
  forall j results, calm (Digger.parse_result_bodies lib ld df j bodies results).
Proof.
  induction bodies as [|b bodies IH]; intros j results; simpl; [apply calm_ret|].
  destruct (_ <? j).
  - apply calm_bind; [by apply calm_logging|intros; apply calm_ret].
  - apply calm_bind; [apply calm_lift, parse_result_body_no_exit|intros; apply IH].
Qed.

Lemma calm_datadigger_by_name fname lname ld df :
  calm (Digger.datadigger_by_name lib env fname lname ld df).
Proof.
  unfold Digger.datadigger_by_name.
  apply calm_bind; [by apply calm_logging|intros _].
  apply calm_bind; [apply calm_requests_get|intros page].
  apply calm_bind; [|intros; apply calm_ret].
  destruct (_ =? 200); [apply calm_parse_result_bodies|apply calm_ret].
Qed.

Lemma calm_datadigger_detail_page url ld df :
  calm (Digger.datadigger_detail_page lib env url ld df).
Proof.
  unfold Digger.datadigger_detail_page.
  apply calm_bind; [apply calm_requests_get|intros page].
  apply calm_bind; [|intros; apply calm_ret].
  destruct (_ =? 200); [apply calm_lift, parse_detail_page_no_exit|apply calm_ret].
Qed.

Lemma calm_scrape_by_name fname lname ld df :
  calm (Digger.scrape_by_name lib env fname lname ld df).
Proof.
  unfold Digger.scrape_by_name.
  apply calm_bind; [by apply calm_logging|intros _].
  apply calm_if; [by apply calm_logging|].
  apply calm_bind; [apply silent_calm, silent_ensure_dirs|intros _].
  apply calm_bind; [apply calm_datadigger_by_name|intros [html results]].
  apply calm_bind; [apply silent_calm, silent_write_file|intros _].
  destruct (0 <? _); [|by apply calm_logging].
  apply calm_bind; [by apply calm_logging|intros _; apply silent_calm, silent_write_file].
Qed.

Lemma calm_scrape_details url ld df :
  calm (Digger.scrape_details lib env url ld df).
Proof.
  unfold Digger.scrape_details.
  apply calm_bind; [by apply calm_logging|intros _].
  apply calm_if; [by apply calm_logging|].
  apply calm_bind; [apply silent_calm, silent_ensure_dirs|intros _].
  apply calm_bind; [apply calm_datadigger_detail_page|intros [html results]].
  apply calm_bind; [apply silent_calm, silent_write_file|intros _].
  destruct (Digger.dict_truthy results);
    [apply silent_calm, silent_write_file|by apply calm_logging].
Qed.

Lemma search_row_calm row :
  calm (Digger.search_row lib env row) /\
  forall w, fst (Digger.search_row lib env row w) = Ok tt.
Proof.
  unfold Digger.search_row. destruct (_ && _).
  - apply try_except_calm; [apply calm_scrape_by_name|done|].
    intros e. by apply calm_logging.
  - split; [by apply calm_logging|done].
Qed.

Lemma search_loop_calm signals rows : forall j terminate,
  calm (Digger.search_loop lib env signals j terminate rows) /\
  forall w, fst (Digger.search_loop lib env signals j terminate rows w) = Ok tt.
Proof.
  induction rows as [|row rows IH]; intros j terminate; [split; [apply calm_ret|done]|].
  simpl. destruct (Digger.terminate_now _); [split; [apply calm_ret|done]|].
  destruct (search_row_calm row) as [Hc Hok]. split.
  - apply calm_bind; [done|intros _; apply IH].
  - intros w. unfold bind. specialize (Hok w).
    destruct (Digger.search_row lib env row w) as [[[]|e] w1]; [apply IH|done].
Qed.

Lemma main_search_calm signals rows :
  calm (Digger.main_search lib env signals rows) /\
  forall w, fst (Digger.main_search lib env signals rows w) = Ok tt.
Proof.
  unfold Digger.main_search.
  destruct (search_loop_calm signals (Digger.dropna rows) 0 Digger.GracefulTerminate_init)
    as [Hc Hok].
  split.
  - apply calm_bind; [by apply calm_logging|intros _].
    apply calm_bind; [by apply calm_logging|intros _].
    apply calm_bind; [done|intros _; by apply calm_logging].
  - intros w. unfold bind, logging. simpl.
    match goal with |- context [Digger.search_loop ?a ?b ?c ?d ?e ?f ?g] =>
      specialize (Hok g); destruct (Digger.search_loop a b c d e f g) as [[[]|?] ?] end; done.
Qed.

Lemma details_loop_calm signals urls : forall j terminate,
  calm (Digger.details_loop lib env signals j terminate urls).
Proof.
  induction urls as [|url urls IH]; intros j terminate; [apply calm_ret|].
  simpl. destruct (Digger.terminate_now _); [apply calm_ret|].
  apply calm_bind; [|intros _; apply IH].
  unfold Digger.details_row. destruct (0 <? _); [|by apply calm_raise].
  apply try_except_calm; [apply calm_scrape_details|done|].
  intros e. by apply calm_logging.
Qed.

Lemma main_details_calm signals file : calm (Digger.main_details lib env signals file).
Proof.
  unfold Digger.main_details.
  apply calm_bind; [by apply calm_logging|intros _].
  apply calm_bind; [apply silent_calm, silent_read_file|intros content].
  apply calm_bind; [by apply calm_logging|intros _].
  apply calm_bind; [apply details_loop_calm|intros _; by apply calm_logging].
Qed.

End Calm.

(** C4, as the code has it.  [check_for_termination] logs a critical record
    and leaves the process when the file TERMINATE.NOW is in the working
    directory, and does nothing otherwise; but neither batch loop calls it:
    whatever files there are, [main_search] ends normally and [main_details]
    does not leave the process, and neither logs a critical record.  (The
    network is taken not to end the process by itself.) *)
Theorem kill_switch_is_never_checked (lib : Library) (env : Env)
    (signals : nat -> option Digger.Signal) :
  (forall url, net env url <> Raise SystemExit) ->
  (forall w,
      Digger.check_for_termination w =
      if Os.isfile (Os.path_join (w_cwd w) ["TERMINATE.NOW"]) w
      then (Raise SystemExit, add_log (mkLog CRITICAL "Exit: termination on request" []) w)
      else (Ok tt, w)) /\
  (forall rows w,
      fst (Digger.main_search lib env signals rows w) = Ok tt /\
      exists l, w_log (snd (Digger.main_search lib env signals rows w)) = (w_log w ++ l)%list /\
                Forall (fun r => is_critical r = false) l) /\
  (forall file w,
      fst (Digger.main_details lib env signals file w) <> Raise SystemExit /\
      exists l, w_log (snd (Digger.main_details lib env signals file w)) = (w_log w ++ l)%list /\
                Forall (fun r => is_critical r = false) l).
Proof.
  intros Hnet. split_and!.
  - intros w. unfold Digger.check_for_termination. by destruct (Os.isfile _ w).
  - intros rows w. destruct (main_search_calm lib env Hnet signals rows) as [Hc Hok].
    split; [apply Hok|apply Hc].
  - intros file w. apply (main_details_calm lib env Hnet signals file w).
Qed.

Lemma kill_switch_is_never_checked_witness :
  let w := set_files {[ ["home"; "scraper"; "TERMINATE.NOW"] := "" ]} Sample.empty_world in
  fst (Digger.main_search Sample.lib (Sample.env_of (Ok Sample.not_found)) (fun _ => None)
         [Digger.mkRow (JStr "Jane") (JStr "Doe")] w) = Ok tt.
Proof.
  intros w.
  apply (proj1 (proj1 (proj2 (kill_switch_is_never_checked Sample.lib
                         (Sample.env_of (Ok Sample.not_found)) (fun _ => None)
                         ltac:(intros url; simpl; discriminate)))
                      [Digger.mkRow (JStr "Jane") (JStr "Doe")] w)).
Defined.

(** C4 fails: with TERMINATE.NOW in the working directory, [main_search]
    still looks up the name of its table, ends normally and logs no critical
    record. *)
Lemma sentinel_does_not_stop_main_search :
  let w := set_files {[ ["home"; "scraper"; "TERMINATE.NOW"] := "" ]} Sample.empty_world in
  let out := Digger.main_search Sample.lib (Sample.env_of (Ok Sample.not_found)) (fun _ => None)
               [Digger.mkRow (JStr "Jane") (JStr "Doe")] w in
  Os.isfile (Os.path_join (w_cwd w) ["TERMINATE.NOW"]) w = true /\
  fst out = Ok tt /\
  w_requests (snd out) = ["https://publicdatadigger.com/search?q=JANE+DOE"] /\
  forallb (fun r => negb (is_critical r)) (w_log (snd out)) = true.
Proof. vm_compute. done. Qed.

(** ** Aggregation *)

Lemma loads_lines_ok lib lines :
  Forall (fun l => is_Some (json_loads lib l)) lines ->
  exists vs, Digger.loads_lines lib lines = Ok vs /\ List.length vs = List.length lines.
Proof.
  induction 1 as [|l lines [v Hv] _ (vs & Hvs & Hlen)]; [by exists []|].
  exists (v :: vs). simpl. rewrite Hv, Hvs. split; [done|]. by rewrite Hlen.
Qed.

Lemma load_first_names_rows lib w last firsts : forall st,
  Forall (readable lib w)
         (map (fun first => Os.path_join Digger.SCRAPING_SEARCH_DIR ["json"; last; first])
              (filter (is_json_name last) firsts)) ->
  exists rows,
    Digger.load_first_names lib last firsts st w =
      (Ok ((fst st ++ rows)%list,
           snd st + Z.of_nat (List.length (filter (is_json_name last) firsts))), w) /\
    List.length rows =
      sum_list_with (line_count w)
        (map (fun first => Os.path_join Digger.SCRAPING_SEARCH_DIR ["json"; last; first])
             (filter (is_json_name last) firsts)).
Proof.
  induction firsts as [|first firsts IH]; intros st Hall.
  - exists []. simpl. rewrite app_nil_r, Z.add_0_r. by destruct st.
  - cbn [Digger.load_first_names]. unfold bind.
    destruct (Str.endswith _ ".json") eqn:Hjson.
    + rewrite filter_cons_True in Hall |- * by done. cbn [map] in Hall.
      apply Forall_cons in Hall as [(content & Hc & Hlines) Hall].
      destruct (loads_lines_ok lib _ Hlines) as (vs & Hvs & Hlen).
      unfold Os.read_file, lift, ret. rewrite Hc, Hvs.
      destruct (IH ((fst st ++ vs)%list, snd st + 1) Hall) as (rows & Hrun & Hrows).
      rewrite Hrun. exists (vs ++ rows)%list. cbn [fst snd]. split.
      * rewrite app_assoc. do 3 f_equal. cbn [List.length]. lia.
      * rewrite length_app, Hrows, Hlen. cbn [map sum_list_with]. unfold line_count at 2.
        by rewrite Hc.
    + rewrite filter_cons_False in Hall |- * by (unfold is_json_name; congruence).
      apply IH, Hall.
Qed.

Lemma load_last_names_rows lib w lasts : forall st,
  Forall (fun last => Os.isdir (Os.path_join Digger.SCRAPING_SEARCH_DIR ["json"; last]) w = true)
         lasts ->
  Forall (readable lib w) (flat_map (dir_json_files w) lasts) ->
  exists rows,
    Digger.load_last_names lib lasts st w =
      (Ok ((fst st ++ rows)%list,
           snd st + Z.of_nat (List.length (flat_map (dir_json_files w) lasts))), w) /\
    List.length rows = sum_list_with (line_count w) (flat_map (dir_json_files w) lasts).
Proof.
  induction lasts as [|last lasts IH]; intros st Hdirs Hall.
  - exists []. simpl. rewrite app_nil_r, Z.add_0_r. by destruct st.
  - apply Forall_cons in Hdirs as [Hdir Hdirs]. cbn [flat_map] in Hall |- *.
    apply Forall_app in Hall as [Hhere Hrest].
    cbn [Digger.load_last_names]. unfold bind, Os.listdir. rewrite Hdir.
    destruct (load_first_names_rows lib w last _ st Hhere) as (rows1 & Hrun1 & Hrows1).
    rewrite Hrun1.
    match goal with |- context [Digger.load_last_names lib lasts ?st' w] =>
      destruct (IH st' Hdirs Hrest) as (rows2 & Hrun2 & Hrows2) end.
    rewrite Hrun2.
    exists (rows1 ++ rows2)%list. cbn [fst snd]. split.
    + rewrite app_assoc. do 3 f_equal. rewrite length_app.
      unfold dir_json_files at 2. rewrite length_map. lia.
    + rewrite length_app, Hrows1, Hrows2, sum_list_with_app. done.
Qed.

(** C7, as the code has it.  On a store laid out as the scraper lays it out,
    [load_search_results] ends normally with one row per line of the files
    [json/<last>/<first>.json]: the number of rows is the sum of their line
    counts, and the two counts are kept in the attributes.  When the
    directory [json] has no entry the table is empty; when it is not there
    at all, [os.listdir] raises [FileNotFoundError]. *)
Theorem rows_are_lines_of_json_files (lib : Library) (w : World) :
  (readable_store lib w ->
   exists df,
     Digger.load_search_results lib w = (Ok df, w) /\
     List.length (Digger.df_rows df) = sum_list_with (line_count w) (json_files w) /\
     Digger.df_attrs df !! "number_of_records" =
       Some (JInt (Z.of_nat (sum_list_with (line_count w) (json_files w)))) /\
     Digger.df_attrs df !! "number_of_files" =
       Some (JInt (Z.of_nat (List.length (json_files w))))) /\
  (Os.isdir json_dir w = true -> Os.entries json_dir w = [] ->
   exists df, Digger.load_search_results lib w = (Ok df, w) /\ Digger.df_rows df = []) /\
  (Os.exists_ json_dir w = false ->
   Digger.load_search_results lib w = (Raise FileNotFoundError, w)).
Proof.
  split_and!.
  - intros (Hdir & Hdirs & Hall).
    unfold Digger.load_search_results, bind, Os.listdir. fold json_dir. rewrite Hdir.
    destruct (load_last_names_rows lib w _ ([], 0) Hdirs Hall) as (rows & Hrun & Hrows).
    rewrite Hrun. cbn [fst snd app]. eexists. split; [reflexivity|]. cbn [Digger.df_rows Digger.df_attrs].
    split_and!; [done| |].
    + rewrite lookup_insert_ne by done. rewrite lookup_insert_eq. by rewrite Hrows.
    + do 2 rewrite lookup_insert_ne by done. rewrite lookup_insert_eq. done.
  - intros Hdir Hnil.
    unfold Digger.load_search_results, bind, Os.listdir. fold json_dir. rewrite Hdir, Hnil.
    eexists. split; reflexivity.
  - intros Hex. unfold Os.exists_ in Hex. apply orb_false_iff in Hex as [Hf Hd].
    unfold Digger.load_search_results, bind, Os.listdir. fold json_dir. by rewrite Hd, Hf.
Qed.

Lemma child_of_spec d : forall q n, Os.child_of d q = Some n <-> q = (d ++ [n])%list.
Proof.
  induction d as [|a d IH]; intros q n.
  - destruct q as [|b [|c q]]; simpl; split; intros H; try done.
    + by injection H as ->.
    + by injection H as ->.
  - destruct q as [|b q]; simpl; [split; intros H; done|].
    destruct (decide (a = b)) as [->|Hne].
    + rewrite IH. split; [by intros ->|by intros [= ->]].
    + split; [done|]. intros [= -> _]. done.
Qed.

(** The entries of a directory are the names of the files and directories
    right below it, each one once. *)
Lemma elem_of_entries d n w :
  n ∈ Os.entries d w <->
  is_Some (w_files w !! (d ++ [n])%list) \/ (d ++ [n])%list ∈ w_dirs w.
Proof.
  unfold Os.entries. rewrite list_elem_of_omap. split.
  - intros (q & Hq & Hc). apply child_of_spec in Hc as ->.
    apply elem_of_elements, elem_of_union in Hq as [Hq|Hq]; [left|by right].
    by apply elem_of_dom.
  - intros H. exists (d ++ [n])%list. split; [|by apply child_of_spec].
    apply elem_of_elements, elem_of_union.
    destruct H as [H|H]; [left; by apply elem_of_dom|by right].
Qed.

Lemma NoDup_entries d w : NoDup (Os.entries d w).
Proof.
  unfold Os.entries.
  assert (H : forall l : list Path, NoDup l -> NoDup (omap (Os.child_of d) l)).
  { induction 1 as [|q l Hq Hl IH]; simpl; [constructor|].
    destruct (Os.child_of d q) as [n|] eqn:Hc; [|done].
    constructor; [|done]. rewrite list_elem_of_omap. intros (q' & Hq' & Hc').
    apply child_of_spec in Hc, Hc'. congruence. }
  apply H, NoDup_elements.
Qed.

Lemma rows_are_lines_of_json_files_witness :
  let w := mkWorld
             {[ ["data"; "project"; "voter_registration_scraping"; "output"; "search";
                 "json"; "doe"; "jane.json"] := ("{}" ++ Str.nl ++ "{}" ++ Str.nl)%string ]}
             ({[ ["data"; "project"; "voter_registration_scraping"; "output"; "search"; "json"] ]} ∪
              {[ ["data"; "project"; "voter_registration_scraping"; "output"; "search";
                  "json"; "doe"] ]})
             [] [] [] [] in
  exists df, Digger.load_search_results Sample.lib w = (Ok df, w) /\
             List.length (Digger.df_rows df) = 2%nat.
Proof.
  intros w.
  assert (He : Os.entries json_dir w = ["doe"]) by (vm_compute; reflexivity).
  assert (Hf : json_files w =
               [["data"; "project"; "voter_registration_scraping"; "output"; "search";
                 "json"; "doe"; "jane.json"]]) by (vm_compute; reflexivity).
  destruct (proj1 (rows_are_lines_of_json_files Sample.lib w)) as (df & Hrun & Hrows & _).
  - split_and!.
    + vm_compute. reflexivity.
    + rewrite He. repeat constructor.
    + rewrite Hf. repeat constructor. eexists. split; [vm_compute; reflexivity|].
      vm_compute. repeat constructor; by eexists.
  - exists df. split; [exact Hrun|]. rewrite Hrows, Hf. vm_compute. reflexivity.
Defined.

(** C7 fails: before the first search there is no directory [json], and
    [load_search_results] ends by [FileNotFoundError] instead of giving an
    empty table. *)
Lemma empty_store_is_an_error :
  w_files Sample.empty_world = ∅ /\ w_dirs Sample.empty_world = ∅ /\
  Digger.load_search_results Sample.lib Sample.empty_world =
    (Raise FileNotFoundError, Sample.empty_world).
Proof. split_and!; reflexivity. Qed.

(** ** The limit of the test mode *)

Lemma mkdir_p_from_ok todo : forall done w,
  (forall q, q `prefix_of` (done ++ todo)%list -> Os.isfile q w = false) ->
  exists w',
    Kickstarter.mkdir_p_from done todo w = (0, w') /\
    w' = set_dirs (w_dirs w') w /\
    (forall q, q ∈ w_dirs w' ->
       q ∈ w_dirs w \/ (List.length q <= List.length (done ++ todo)%list)%nat) /\
    (todo <> [] -> Os.isdir (done ++ todo)%list w' = true).
Proof.
  induction todo as [|c todo IH]; intros done w Hclear.
  - exists w. split_and!; [done|apply set_dirs_same|by left|done].
  - cbn [Kickstarter.mkdir_p_from].
    rewrite (Hclear (done ++ [c])%list) by (exists todo; by rewrite <- app_assoc).
    set (w1 := if Os.isdir (done ++ [c])%list w then w
               else set_dirs ({[(done ++ [c])%list]} ∪ w_dirs w) w).
    assert (Hw1 : w1 = set_dirs (w_dirs w1) w).
    { unfold w1. destruct (Os.isdir _ w); [apply set_dirs_same|done]. }
    assert (Hd1 : Os.isdir (done ++ [c])%list w1 = true).
    { unfold w1. destruct (Os.isdir (done ++ [c])%list w) eqn:E; [done|].
      apply isdir_elem. simpl. apply elem_of_union_l. by apply elem_of_singleton. }
    assert (Hb1 : forall q, q ∈ w_dirs w1 -> q ∈ w_dirs w \/ q = (done ++ [c])%list).
    { unfold w1. destruct (Os.isdir _ w); [by left|]. simpl. intros q Hq.
      apply elem_of_union in Hq as [Hq|Hq]; [right; by apply elem_of_singleton in Hq|by left]. }
    destruct (IH (done ++ [c])%list w1) as (w' & Hrun & Hw' & Hb & Hdir).
    { intros q Hq. rewrite Hw1. apply Hclear. by rewrite (cons_middle c), app_assoc. }
    exists w'. rewrite Hrun. split_and!; [done| | |].
    + rewrite Hw' at 1. by rewrite Hw1.
    + intros q Hq. destruct (Hb q Hq) as [Hq1|Hlen].
      * destruct (Hb1 q Hq1) as [ Hq0 | -> ]; [by left|right].
        rewrite !length_app. simpl. lia.
      * right. rewrite <- app_assoc in Hlen. exact Hlen.
    + intros _. destruct todo as [|c' todo].
      * simpl in Hrun. injection Hrun as <-. exact Hd1.
      * rewrite (cons_middle c), app_assoc. by apply Hdir.
Qed.

Lemma scrape_project_ok lib g p c w :
  scrapable lib p = true -> ks_store g w ->
  exists w',
    Kickstarter.scrape_project lib g p c w = (Ok (c + 1), w') /\
    ks_store g w' /\
    w_writes w' = (w_writes w ++ [project_file lib g p])%list /\
    w_files w' = <[project_file lib g p := project_text lib g p]> (w_files w).
Proof.
  intros Hok [Hfiles Hdirs].
  unfold scrapable in Hok. unfold project_file, project_text.
  destruct (project_category lib p) as [category|] eqn:Hcat; [|done].
  apply andb_true_iff in Hok as [Hc Hp]. apply negb_true_iff, String.eqb_neq in Hc, Hp.
  unfold project_category in Hcat.
  destruct (cd_project p) as [s|] eqn:Hs; [|done].
  destruct (json_loads lib s) as [[| | | | |d]|] eqn:Hd; try done.
  destruct (d !! "category") as [[| | | | |dc]|] eqn:Hdc; try done.
  destruct (dc !! "slug") as [[| | |slug| |]|] eqn:Hslug; try done.
  injection Hcat as <-. simpl default.
  set (category := Kickstarter.clean_category_string slug) in *.
  set (pid := Kickstarter.format_pid (cd_pid p)) in *.
  assert (Hdest : Os.path_join Kickstarter.data_dir
                    (Kickstarter.web_scrape_path g ++ [category; pid])%list =
                  (run_dir g ++ [category; pid])%list).
  { unfold run_dir, Os.path_join. rewrite filter_app, app_assoc. f_equal.
    by rewrite !filter_cons_True, filter_nil by done. }
  unfold Kickstarter.scrape_project, bind, lift, Kickstarter.info, logging, ret, raise.
  rewrite Hs, Hd. cbn [Kickstarter.subscript]. rewrite Hdc. cbn [Kickstarter.subscript].
  rewrite Hslug. fold category. fold pid. rewrite Hdest.
  unfold Kickstarter.mkdir_p.
  match goal with |- context [Kickstarter.mkdir_p_from [] ?q ?w0] =>
    destruct (mkdir_p_from_ok q [] w0) as (w1 & Hmk & Hw1 & Hb & Hdir) end.
  { intros q Hq. destruct (Os.isfile q _) eqn:E; [|done]. exfalso.
    unfold Os.isfile in E. simpl in E. destruct (w_files w !! q) eqn:Eq; [|done].
    by apply (Hfiles q category pid ltac:(eauto)). }
  cbn [app] in Hdir, Hb. specialize (Hdir ltac:(by destruct (run_dir g))).
  rewrite Hmk. cbn [Z.eqb Kickstarter.set_item].
  assert (Hfile : Os.path_join (run_dir g ++ [category; pid])%list ["data.json"] =
                  (run_dir g ++ [category; pid; "data.json"])%list).
  { rewrite path_join_last by done. by rewrite <- app_assoc. }
  rewrite Hfile.
  assert (Hnd : Os.isdir (run_dir g ++ [category; pid; "data.json"])%list w1 = false).
  { destruct (Os.isdir (run_dir g ++ [category; pid; "data.json"])%list w1) eqn:E; [|done].
    exfalso. apply isdir_inv in E as [E|E]; [by destruct (run_dir g)|].
    destruct (Hb _ E) as [Hin|Hlen].
    - apply Hdirs in Hin; [|by apply prefix_app_r].
      rewrite length_app in Hin. cbn [List.length] in Hin. lia.
    - rewrite !length_app in Hlen. cbn [List.length] in Hlen. lia. }
  assert (Hpd : Os.isdir (Os.dirname (run_dir g ++ [category; pid; "data.json"])%list) w1 = true).
  { replace (run_dir g ++ [category; pid; "data.json"])%list
      with ((run_dir g ++ [category; pid]) ++ ["data.json"])%list by (by rewrite <- app_assoc).
    by rewrite dirname_snoc. }
  rewrite write_file_ok by done.
  eexists. split; [reflexivity|]. split_and!.
  - split.
    + intros q category' pid' [t Hq]. cbn [w_files add_write set_files] in Hq.
      destruct (decide (q = (run_dir g ++ [category; pid; "data.json"])%list)) as [->|Hne].
      * intros Hpre. apply prefix_length in Hpre.
        rewrite !length_app in Hpre. cbn [List.length] in Hpre. lia.
      * rewrite lookup_insert_ne in Hq by done. rewrite Hw1 in Hq. apply Hfiles. eauto.
    + intros q Hq Hpre. cbn [w_dirs add_write set_files] in Hq.
      destruct (Hb q Hq) as [Hin|Hlen]; [by apply Hdirs|].
      rewrite length_app in Hlen. exact Hlen.
  - cbn [w_writes add_write set_files]. by rewrite Hw1.
  - cbn [w_files add_write set_files]. by rewrite Hw1.
Qed.

Lemma loop_end_return limit c cards :
  limit + 1 - c <= Z.of_nat (List.length cards) ->
  loop_end limit c cards = Kickstarter.Return (limit + 1).
Proof. intros H. unfold loop_end. apply Z.leb_le in H. by rewrite H. Qed.

Lemma loop_end_continue limit c cards :
  Z.of_nat (List.length cards) < limit + 1 - c ->
  loop_end limit c cards = Kickstarter.Continue (c + Z.of_nat (List.length cards)).
Proof. intros H. unfold loop_end. apply Z.leb_gt in H. by rewrite H. Qed.

Lemma loop_end_nil limit c : c <= limit -> loop_end limit c [] = Kickstarter.Continue c.
Proof.
  intros H. rewrite loop_end_continue by (cbn [List.length]; lia).
  cbn [List.length]. f_equal. lia.
Qed.

Section Visits.

Context (lib : Library) (g : Kickstarter.Globals) (limit : Z).
Hypothesis limit_pos : 0 < limit.

Lemma visits_projects cs :
  visits lib g limit (Kickstarter.projects_loop lib g limit cs) (cs, false).
Proof.
  induction cs as [|p rest IH]; intros c w Hc Hks Hall Hsuff; cbn [fst snd] in *.
  - exists w. rewrite loop_end_nil, take_nil by done. cbn [map]. rewrite app_nil_r. done.
  - assert (Hn : Z.to_nat (limit + 1 - c) = S (Z.to_nat (limit - c))) by lia.
    rewrite Hn in Hall |- *. cbn [take] in Hall |- *.
    apply Forall_cons in Hall as [Hp Hall].
    destruct (scrape_project_ok lib g p c w Hp Hks) as (w1 & Hrun & Hks1 & Hwr1 & Hf1).
    cbn [Kickstarter.projects_loop]. unfold bind. rewrite Hrun.
    replace (0 <? limit) with true by (symmetry; apply Z.ltb_lt; lia). cbn [andb].
    destruct (limit <? c + 1) eqn:Hlim.
    + apply Z.ltb_lt in Hlim. assert (c = limit) as -> by lia.
      exists w1. rewrite loop_end_return by (cbn [List.length]; lia). unfold ret.
      replace (Z.to_nat (limit - limit)) with 0%nat by lia. rewrite take_0.
      split_and!; done.
    + apply Z.ltb_ge in Hlim.
      replace (Z.to_nat (limit - c)) with (Z.to_nat (limit + 1 - (c + 1))) in Hall |- * by lia.
      destruct (IH (c + 1) w1 ltac:(lia) Hks1 Hall ltac:(by left))
        as (w' & Hrun' & Hks' & Hwr' & Hf').
      exists w'. split_and!; [|done| |].
      * rewrite Hrun'. do 2 f_equal. cbn [fst].
        destruct (decide (limit + 1 - (c + 1) <= Z.of_nat (List.length rest))) as [Hle|Hgt].
        -- rewrite !loop_end_return by (cbn [List.length]; lia). done.
        -- rewrite !loop_end_continue by (cbn [List.length]; lia).
           f_equal. cbn [List.length]. lia.
      * rewrite Hwr', Hwr1. cbn [fst map]. by rewrite <- app_assoc.
      * rewrite Hf', Hf1. done.
Qed.

Lemma visits_chain (loop1 loop2 : Z -> M Kickstarter.Ctl) cr1 cr2 :
  visits lib g limit loop1 cr1 -> visits lib g limit loop2 cr2 ->
  visits lib g limit
    (fun c => bind (loop1 c) (fun ctl =>
                match ctl with
                | Kickstarter.Return n => ret (Kickstarter.Return n)
                | Kickstarter.Continue c' => loop2 c'
                end))
    (chain cr1 cr2).
Proof.
  intros H1 H2 c w Hc Hks Hall Hsuff. unfold chain in *.
  destruct (snd cr1) eqn:Hr1.
  - destruct Hsuff as [?|Hsuff]; [congruence|].
    destruct (H1 c w Hc Hks Hall (or_intror Hsuff)) as (w' & Hrun & Hks' & Hwr & Hf).
    exists w'. unfold bind. rewrite Hrun. rewrite loop_end_return by done. done.
  - cbn [fst snd] in *. rewrite length_app, Nat2Z.inj_add in Hsuff.
    destruct (decide (limit + 1 - c <= Z.of_nat (List.length (fst cr1)))) as [Hle|Hgt].
    + rewrite take_app_le in Hall |- * by lia.
      destruct (H1 c w Hc Hks Hall (or_intror Hle)) as (w' & Hrun & Hks' & Hwr & Hf).
      exists w'. unfold bind. rewrite Hrun.
      rewrite !loop_end_return by (rewrite ?length_app; lia). done.
    + rewrite take_app_ge in Hall |- * by lia.
      apply Forall_app in Hall as [Hall1 Hall2].
      assert (Ht1 : take (Z.to_nat (limit + 1 - c)) (fst cr1) = fst cr1)
        by (apply take_ge; lia).
      destruct (H1 c w Hc Hks ltac:(by rewrite Ht1) ltac:(by left))
        as (w1 & Hrun1 & Hks1 & Hwr1 & Hf1).
      rewrite Ht1 in Hwr1, Hf1.
      assert (Hn : (Z.to_nat (limit + 1 - c) - List.length (fst cr1))%nat =
                   Z.to_nat (limit + 1 - (c + Z.of_nat (List.length (fst cr1))))) by lia.
      rewrite Hn in Hall2 |- *.
      destruct (H2 (c + Z.of_nat (List.length (fst cr1))) w1 ltac:(lia) Hks1 Hall2
                  ltac:(destruct Hsuff; [by left|right; lia]))
        as (w' & Hrun' & Hks' & Hwr' & Hf').
      exists w'. unfold bind. rewrite Hrun1.
      rewrite (loop_end_continue limit c (fst cr1)) by lia.
      split_and!; [|done| |].
      * rewrite Hrun'. do 2 f_equal.
        destruct (decide (limit + 1 - (c + Z.of_nat (List.length (fst cr1))) <=
                          Z.of_nat (List.length (fst cr2)))) as [Hle|Hgt'].
        -- rewrite !loop_end_return by (rewrite ?length_app; lia). done.
        -- rewrite !loop_end_continue by (rewrite ?length_app; lia).
           f_equal. rewrite length_app. lia.
      * rewrite Hwr', Hwr1, map_app. by rewrite <- app_assoc.
      * rewrite Hf', Hf1. unfold store_projects. by rewrite foldl_app.
Qed.

(** Steps that touch neither the files nor the directories nor the list
    of writes may come first. *)
Lemma visits_after (pre : Z -> World -> World) (loop : Z -> M Kickstarter.Ctl) cr :
  (forall c w, w_files (pre c w) = w_files w /\ w_dirs (pre c w) = w_dirs w /\
               w_writes (pre c w) = w_writes w) ->
  visits lib g limit loop cr ->
  visits lib g limit (fun c w => loop c (pre c w)) cr.
Proof.
  intros Hpre H c w Hc [Hks1 Hks2] Hall Hsuff.
  destruct (Hpre c w) as (Hf & Hd & Hw).
  destruct (H c (pre c w) Hc) as (w' & Hrun & Hks' & Hwr & Hf'); [|done|done|].
  - split; [intros q category pid|intros q]; rewrite ?Hf, ?Hd; [apply Hks1|apply Hks2].
  - exists w'. rewrite Hrun, Hwr, Hf', Hw, Hf. done.
Qed.

Lemma visits_ext (loop loop' : Z -> M Kickstarter.Ctl) cr :
  (forall c w, loop c w = loop' c w) ->
  visits lib g limit loop cr -> visits lib g limit loop' cr.
Proof.
  intros Heq H c w Hc Hks Hall Hsuff. rewrite <- Heq. by apply H.
Qed.

Lemma visits_nothing : visits lib g limit (fun c => ret (Kickstarter.Continue c)) ([], false).
Proof.
  intros c w Hc Hks _ _. exists w. cbn [fst]. rewrite loop_end_nil, take_nil by done.
  cbn [map]. rewrite app_nil_r. done.
Qed.

Lemma visits_pages base_url answers : forall page_number,
  visits lib g limit
    (Kickstarter.pages_loop lib g limit base_url page_number answers)
    (listing_cards answers).
Proof.
  induction answers as [|[page|e] rest IH]; intros page_number.
  - apply (visits_ext
             (fun c w => ret (Kickstarter.Continue c)
                           (add_request (base_url ++ "&page=" ++
                                         Kickstarter.str_of_Z page_number) w))); [done|].
    apply (visits_after (fun _ w => add_request _ w)
                        (fun c => ret (Kickstarter.Continue c)) ([], false));
      [done|apply visits_nothing].
  - cbn [listing_cards]. destruct (status_code page =? 200) eqn:Hst.
    + apply (visits_ext
               (fun c w =>
                  bind (Kickstarter.projects_loop lib g limit (proj_cards (soup page)) c)
                       (fun ctl =>
                          match ctl with
                          | Kickstarter.Return n => ret (Kickstarter.Return n)
                          | Kickstarter.Continue c' =>
                              Kickstarter.pages_loop lib g limit base_url (page_number + 1) rest c'
                          end)
                       (add_log (mkLog INFO ("Page Number: " ++
                                             Digger.format_thousands page_number) [])
                          (add_request (base_url ++ "&page=" ++
                                        Kickstarter.str_of_Z page_number) w)))).
      { intros c w. cbn [Kickstarter.pages_loop]. by rewrite Hst. }
      apply (visits_after (fun _ w => add_log _ (add_request _ w))
               (fun c => bind (Kickstarter.projects_loop lib g limit (proj_cards (soup page)) c)
                       (fun ctl =>
                          match ctl with
                          | Kickstarter.Return n => ret (Kickstarter.Return n)
                          | Kickstarter.Continue c' =>
                              Kickstarter.pages_loop lib g limit base_url (page_number + 1) rest c'
                          end))
               (chain (proj_cards (soup page), false) (listing_cards rest))); [done|].
      apply visits_chain; [apply visits_projects|apply IH].
    + apply (visits_ext
               (fun c w => ret (Kickstarter.Continue c)
                             (add_request (base_url ++ "&page=" ++
                                           Kickstarter.str_of_Z page_number) w))).
      { intros c w. cbn [Kickstarter.pages_loop]. by rewrite Hst. }
      apply (visits_after (fun _ w => add_request _ w)
                          (fun c => ret (Kickstarter.Continue c)) ([], false));
        [done|apply visits_nothing].
  - intros c w Hc _ _ [Hf|Hle]; [done|]. cbn [listing_cards fst List.length] in Hle. simpl in Hle. lia.
Qed.

Lemma visits_states site category_id stloop :
  visits lib g limit
    (Kickstarter.states_loop lib g site limit category_id stloop)
    (states_cards site category_id stloop).
Proof.
  induction stloop as [|[state state_arg] rest IH]; [apply visits_nothing|].
  cbn [states_cards]. eapply visits_ext; [|apply visits_chain; [apply visits_pages|apply IH]].
  intros c w. reflexivity.
Qed.

Lemma visits_sections site stloop sections :
  visits lib g limit
    (Kickstarter.sections_loop lib g site limit stloop sections)
    (sections_cards site stloop sections).
Proof.
  induction sections as [|sect rest IH]; [apply visits_nothing|].
  cbn [sections_cards]. destruct (_ <? 0) eqn:Hid.
  - apply (visits_ext
             (fun c w => Kickstarter.sections_loop lib g site limit stloop rest c
                (add_log (mkLog INFO ("Unknown category '" ++ sect ++ "'") [])
                   (add_log (mkLog INFO ("Start section `" ++ sect ++ "`") []) w)))).
    { intros c w. cbn [Kickstarter.sections_loop]. unfold bind, Kickstarter.info, logging.
      by rewrite Hid. }
    apply (visits_after (fun _ w => add_log _ (add_log _ w))
             (Kickstarter.sections_loop lib g site limit stloop rest)
             (sections_cards site stloop rest)); [done|apply IH].
  - apply (visits_ext
             (fun c w =>
                bind (Kickstarter.states_loop lib g site limit
                        (Kickstarter.cat_dict_get Kickstarter.cat_dict sect) stloop c)
                     (fun ctl =>
                        match ctl with
                        | Kickstarter.Return n => ret (Kickstarter.Return n)
                        | Kickstarter.Continue c' =>
                            Kickstarter.sections_loop lib g site limit stloop rest c'
                        end)
                     (add_log (mkLog INFO ("Start section `" ++ sect ++ "`") []) w))).
    { intros c w. cbn [Kickstarter.sections_loop]. unfold bind at 1, Kickstarter.info, logging.
      by rewrite Hid. }
    apply (visits_after (fun _ w => add_log _ w)
             (fun c =>
                bind (Kickstarter.states_loop lib g site limit
                        (Kickstarter.cat_dict_get Kickstarter.cat_dict sect) stloop c)
                     (fun ctl =>
                        match ctl with
                        | Kickstarter.Return n => ret (Kickstarter.Return n)
                        | Kickstarter.Continue c' =>
                            Kickstarter.sections_loop lib g site limit stloop rest c'
                        end))
             (chain (states_cards site (Kickstarter.cat_dict_get Kickstarter.cat_dict sect) stloop)
                    (sections_cards site stloop rest))); [done|].
    apply visits_chain; [apply visits_states|apply IH].
Qed.

End Visits.

(** C10.  In test mode the limit is tested after the project was written and
    counted.  With a limit above zero, a store with room for the projects
    of the run, and at least [limit + 1] projects on offer, the first
    [limit + 1] of which can be stored, [scraping] returns [limit + 1] after
    it has written the files of exactly those [limit + 1] projects, one
    write each, in the order of the listing. *)
Theorem limit_is_overshot_by_one (lib : Library) (g : Kickstarter.Globals)
    (site : Kickstarter.Site) (sections : option (list string)) (anyState b : bool)
    (limit : Z) (w : World) :
  0 < limit ->
  Kickstarter.any_state g = Some b ->
  ks_store g w ->
  limit + 1 <= Z.of_nat (List.length (available site b sections)) ->
  Forall (fun p => scrapable lib p = true)
         (take (Z.to_nat (limit + 1)) (available site b sections)) ->
  exists w',
    Kickstarter.scraping lib g site sections anyState limit w = (Ok (limit + 1), w') /\
    w_writes w' =
      (w_writes w ++
       map (project_file lib g) (take (Z.to_nat (limit + 1)) (available site b sections)))%list /\
    w_files w' =
      store_projects lib g (take (Z.to_nat (limit + 1)) (available site b sections)) (w_files w) /\
    Z.of_nat (List.length (w_writes w')) = Z.of_nat (List.length (w_writes w)) + (limit + 1).
Proof.
  intros Hlimit Hany Hks Hlen Hall. unfold available in *.
  set (sects := match sections with Some l => l | None => map fst Kickstarter.cat_dict end) in *.
  destruct (visits_sections lib g limit Hlimit site (Kickstarter.stloop_of b) sects 0 w)
    as (w' & Hrun & _ & Hwr & Hf).
  - lia.
  - done.
  - by rewrite Z.sub_0_r.
  - right. by rewrite Z.sub_0_r.
  - rewrite Z.sub_0_r in Hwr, Hf. rewrite loop_end_return in Hrun by lia.
    exists w'. split_and!; [|done|done|].
    + unfold Kickstarter.scraping, bind, lift. rewrite Hany. fold sects. by rewrite Hrun.
    + rewrite Hwr, length_app, length_map, length_take. lia.
Qed.

Lemma limit_is_overshot_by_one_witness :
  let site : Kickstarter.Site :=
    fun _ => [Ok (Sample.listing [Sample.card "1"; Sample.card "2"; Sample.card "3"])] in
  exists w',
    Kickstarter.scraping Sample.ks_lib (Sample.ks_globals true) site (Some ["design"]) false 1
      Sample.empty_world = (Ok 2, w') /\
    w_writes w' =
      [["data"; "project"; "kickstarter_indiegogo2021"; "2022"; "0623"; "1600";
        "design_product"; "1"; "data.json"];
       ["data"; "project"; "kickstarter_indiegogo2021"; "2022"; "0623"; "1600";
        "design_product"; "2"; "data.json"]].
Proof.
  intros site.
  destruct (limit_is_overshot_by_one Sample.ks_lib (Sample.ks_globals true) site
              (Some ["design"]) false true 1 Sample.empty_world)
    as (w' & Hrun & Hwr & _).
  - lia.
  - reflexivity.
  - split.
    + intros q category pid Hq. simpl in Hq. rewrite lookup_empty in Hq. by destruct Hq.
    + intros q Hq. simpl in Hq. by apply not_elem_of_empty in Hq.
  - vm_compute. discriminate.
  - vm_compute. repeat constructor.
  - exists w'. split; [exact Hrun|]. rewrite Hwr. vm_compute. reflexivity.
Defined.

(** ** Strings: case, padding and the characters of a key *)

Lemma chars_of_chars l : Str.chars (Str.of_chars l) = l.
Proof. apply list_ascii_of_string_of_list_ascii. Qed.

Lemma of_chars_chars s : Str.of_chars (Str.chars s) = s.
Proof. apply string_of_list_ascii_of_string. Qed.

Lemma chars_app s t : Str.chars (s ++ t) = (Str.chars s ++ Str.chars t)%list.
Proof. unfold Str.chars. induction s as [|c s IH]; simpl; [done|]. by rewrite IH. Qed.

Lemma chars_length s : List.length (Str.chars s) = String.length s.
Proof. unfold Str.chars. induction s as [|c s IH]; simpl; [done|]. by rewrite IH. Qed.

Ltac by_cases_on_char c :=
  destruct c as [[] [] [] [] [] [] [] []]; vm_compute; try reflexivity; try discriminate.








Lemma lower_char_slug c :
  Str.is_lower c || Str.is_digit c || Ascii.eqb c "_" = true -> Str.lower_char c = c.
Proof. by_cases_on_char c. Qed.

Lemma slug_char_is_word c :
  Str.is_lower c || Str.is_digit c || Ascii.eqb c "_" = true -> Str.is_word c = true.
Proof. by_cases_on_char c. Qed.








Lemma lstrip_chars_idem l : Str.lstrip_chars (Str.lstrip_chars l) = Str.lstrip_chars l.
Proof.
  induction l as [|c l IH]; [done|]. simpl.
  destruct (Str.is_space c) eqn:E; [done|]. simpl. by rewrite E.
Qed.
















(** ** The key of a search task *)













(** ** Category and label strings *)

Lemma sub_runs_slug l : forall b,
  Forall (fun c => Str.is_lower c || Str.is_digit c || Ascii.eqb c "_" = true)
         (Str.sub_runs b l).
Proof.
  induction l as [|c l IH]; intros b; simpl; [constructor|].
  destruct (Str.is_lower c || Str.is_digit c) eqn:E.
  - constructor; [by rewrite E|apply IH].
  - destruct b; [apply IH|]. constructor; [done|apply IH].
Qed.

Lemma sub_runs_again l : forall b,
  Str.sub_runs false (Str.sub_runs b l) = Str.sub_runs b l /\
  (b = true -> Str.sub_runs true (Str.sub_runs b l) = Str.sub_runs b l).
Proof.
  induction l as [|c l IH]; intros b; simpl; [done|].
  destruct (Str.is_lower c || Str.is_digit c) eqn:E.
  - simpl. rewrite E. by rewrite (proj1 (IH false)).
  - destruct b.
    + split; [apply IH|intros _; by apply IH].
    + split; [|done]. simpl. by rewrite (proj2 (IH true)).
Qed.

Lemma map_lower_char_slug l :
  Forall (fun c => Str.is_lower c || Str.is_digit c || Ascii.eqb c "_" = true) l ->
  map Str.lower_char l = l.
Proof.
  induction 1 as [|c l Hc _ IH]; [done|]. simpl. by rewrite lower_char_slug, IH.
Qed.

(** X4.  The category of a project, which names its directory, holds
    lower-case letters, digits and underscores only (so no slash, no dot and
    no space), never two underscores in a row beyond what one cleaning
    gives: cleaning a cleaned string changes nothing. *)
Theorem clean_category_string_is_a_slug (s : string) :
  slug_only (Kickstarter.clean_category_string s) /\
  word_only (Kickstarter.clean_category_string s) /\
  Kickstarter.clean_category_string (Kickstarter.clean_category_string s) =
    Kickstarter.clean_category_string s.
Proof.
  unfold Kickstarter.clean_category_string, Str.sub_non_alnum_runs.
  assert (Hslug : slug_only (Str.of_chars (Str.sub_runs false (Str.chars (Str.lower s))))).
  { unfold slug_only. rewrite chars_of_chars. apply sub_runs_slug. }
  split_and!.
  - exact Hslug.
  - unfold word_only. eapply Forall_impl; [exact Hslug|]. intros c. apply slug_char_is_word.
  - set (out := Str.sub_runs false (Str.chars (Str.lower s))).
    unfold Str.lower at 1. rewrite !chars_of_chars.
    rewrite map_lower_char_slug by apply sub_runs_slug.
    unfold out. by rewrite (proj1 (sub_runs_again _ false)).
Qed.




(** ** The fields of a search record *)

Lemma scan_child_effect lib df rsb res res' :
  Digger.scan_child lib df rsb res = Ok res' ->
  res' = if born_child lib rsb then with_date lib df rsb "birth_date" "birth_date_text" res
         else if updated_child lib rsb
              then with_date lib df rsb "updated_date" "updated_date_text" res
              else res.
Proof.
  unfold Digger.scan_child, born_child, updated_child, is_tag, finds_date, with_date.
  destruct (c_name rsb) as [[|a n]|]; [by intros [= ->]| |by intros [= ->]].
  cbn [andb].
  destruct (Str.contains "born" _).
  - destruct (search_dates lib _) as [[|[dtext d] rest]|]; [| |done]; by intros [= ->].
  - cbn [negb andb]. destruct (Str.contains "updated" _); [|by intros [= ->]].
    destruct (search_dates lib _) as [[|[dtext d] rest]|]; [| |done]; by intros [= ->].
Qed.

Lemma with_date_lookup lib df rsb key key_text res k :
  finds_date lib (Str.strip (c_text rsb)) = true ->
  is_Some (with_date lib df rsb key key_text res !! k) <->
  k = key \/ k = key_text \/ is_Some (res !! k).
Proof.
  unfold finds_date, with_date.
  destruct (search_dates lib _) as [[|[dtext d] rest]|]; [done| |done]. intros _.
  destruct (decide (k = key_text)) as [->|Hkt].
  - rewrite lookup_insert_eq. split; [by right; left|by eexists].
  - rewrite lookup_insert_ne by done. destruct (decide (k = key)) as [->|Hk].
    + rewrite lookup_insert_eq. split; [by left|by eexists].
    + rewrite lookup_insert_ne by done. naive_solver.
Qed.

(** What the loop over the children adds to a record: the two fields of the
    birth date when one of the children gives it, the two fields of the
    update when one gives that, and nothing else. *)
Lemma scan_children_fields lib df children : forall res res',
  Digger.scan_children lib df children res = Ok res' ->
  forall k,
    is_Some (res' !! k) <->
    is_Some (res !! k) \/
    ((k = "birth_date" \/ k = "birth_date_text") /\ existsb (born_child lib) children = true) \/
    ((k = "updated_date" \/ k = "updated_date_text") /\
     existsb (updated_child lib) children = true).
Proof.
  induction children as [|rsb children IH]; intros res res' Hrun k.
  - injection Hrun as ->. simpl. naive_solver.
  - cbn [Digger.scan_children] in Hrun.
    destruct (Digger.scan_child lib df rsb res) as [res1|e] eqn:Hc; [|done].
    apply scan_child_effect in Hc. rewrite (IH _ _ Hrun k). cbn [existsb].
    destruct (born_child lib rsb) eqn:Hb.
    + assert (Hu : updated_child lib rsb = false).
      { unfold born_child, updated_child in *.
        destruct (is_tag rsb); [|done]. by destruct (Str.contains "born" _). }
      rewrite Hu, Hc. cbn [orb].
      rewrite with_date_lookup
        by (unfold born_child in Hb; by apply andb_true_iff in Hb as [_ ?]).
      naive_solver.
    + destruct (updated_child lib rsb) eqn:Hu.
      * rewrite Hc. cbn [orb].
        rewrite with_date_lookup
          by (unfold updated_child in Hu; by apply andb_true_iff in Hu as [_ ?]).
        naive_solver.
      * subst res1. cbn [orb]. done.
Qed.

Lemma startswith_app (p s : string) : Str.startswith (p ++ s) p = true.
Proof.
  unfold Str.startswith. rewrite chars_app.
  induction (Str.chars p) as [|c l IH]; [done|]. simpl. by rewrite Ascii.eqb_refl.
Qed.

Lemma parse_result_body_inv lib ld df b res :
  Digger.parse_result_body lib ld df b = Ok res ->
  exists a href,
    rb_h4_anchor b = Some (Some a) /\ a_href a = Some href /\
    Digger.scan_children lib df (rb_children b) (fields_before_children ld b a href) = Ok res.
Proof.
  unfold Digger.parse_result_body, Digger.complete_url_with_anchor.
  destruct (rb_h4_anchor b) as [[a|]|]; [|done|done].
  destruct (a_href a) as [href|] eqn:Hhref; [|done].
  intros H. exists a, href. split_and!; [done|done|exact H].
Qed.

Lemma lookup_insert_is_Some_or {A} (m : gmap string A) i x j :
  is_Some (<[i := x]> m !! j) <-> j = i \/ is_Some (m !! j).
Proof.
  destruct (decide (j = i)) as [->|Hne].
  - rewrite lookup_insert_eq. split; [by left|by eexists].
  - rewrite lookup_insert_ne by done. naive_solver.
Qed.

Lemma lookup_insert_if_is_Some {A B} (o : option B) (f : B -> A) (m : gmap string A) i j :
  is_Some (match o with Some x => <[i := f x]> m | None => m end !! j) <->
  (j = i /\ is_Some o) \/ is_Some (m !! j).
Proof.
  destruct o as [x|].
  - rewrite lookup_insert_is_Some_or. split; [intros [?|?]; [left|right]|intros [[? _]|?]; [left|right]]; eauto.
  - split; [by right|]. intros [[_ H]|H]; [by destruct H|done].
Qed.

Lemma fields_before_children_keys ld b a href k :
  is_Some (fields_before_children ld b a href !! k) <->
  (k = "phone_number" /\ is_Some (rb_fa_phone b)) \/
  (k = "email_address" /\ is_Some (rb_fa_envelope b)) \/
  (k = "home_address" /\ is_Some (rb_fa_home b)) \/
  k = "display_text" \/ k = "detail_url_text" \/ k = "detail_url".
Proof.
  unfold fields_before_children. cbv zeta.
  rewrite (lookup_insert_if_is_Some (rb_fa_phone b) Digger.next_text_only).
  rewrite (lookup_insert_if_is_Some (rb_fa_envelope b) Digger.next_text_only).
  rewrite (lookup_insert_if_is_Some (rb_fa_home b) (fun runs => JStr (Digger.text_with_nl runs ld))).
  rewrite !lookup_insert_is_Some_or, lookup_empty.
  split.
  - intros [?|[?|[?|[?|[?|[?|H]]]]]]; [tauto..|by destruct H].
  - tauto.
Qed.

Lemma fields_before_children_fixed ld b a href k :
  k = "display_text" \/ k = "detail_url_text" \/ k = "detail_url" ->
  fields_before_children ld b a href !! k =
  (<["display_text" := JStr (Str.join ld (rb_stripped_strings b))]>
     (<["detail_url_text" := JStr (Str.strip (a_text a))]>
        (<["detail_url" := JStr ("https://publicdatadigger.com" ++
             (if Str.startswith href "/" || String.eqb href "" then href
              else "/" ++ href))]> (∅ : Digger.Record_)))) !! k.
Proof.
  intros Hk. unfold fields_before_children. cbv zeta.
  destruct (rb_fa_phone b), (rb_fa_envelope b), (rb_fa_home b);
    rewrite ?lookup_insert_ne by (destruct Hk as [->|[->| ->]]; done); done.
Qed.

(** The loop over the children leaves the other fields alone. *)
Lemma scan_children_frame lib df children : forall res res' k v,
  Digger.scan_children lib df children res = Ok res' ->
  res !! k = Some v ->
  k <> "birth_date" -> k <> "birth_date_text" ->
  k <> "updated_date" -> k <> "updated_date_text" -> res' !! k = Some v.
Proof.
  induction children as [|rsb children IH]; intros r r' k v Hrun Hv H1 H2 H3 H4.
  - by injection Hrun as <-.
  - cbn [Digger.scan_children] in Hrun.
    destruct (Digger.scan_child lib df rsb r) as [r1|e] eqn:Hc; [|done].
    apply (IH r1 r' k v Hrun); try done.
    apply scan_child_effect in Hc. subst r1. unfold with_date.
    destruct (born_child lib rsb).
    + destruct (search_dates lib _) as [[|[dtext d] rest]|]; try done.
      by rewrite !lookup_insert_ne by done.
    + destruct (updated_child lib rsb); [|done].
      destruct (search_dates lib _) as [[|[dtext d] rest]|]; try done.
      by rewrite !lookup_insert_ne by done.
Qed.

(** X6.  A record the search parser hands over always has the link to the
    detail page, the text of that link and the text of the block; the link
    starts with the address of the site whatever the [href] was.  The
    address, the e-mail address and the phone number are there exactly when
    the block has the icon they are looked up by, a date never without its
    text nor the text without the date, and there is no other field. *)
Theorem search_record_is_sparse (lib : Library) (ld df : string)
    (b : ResultBody) (res : Digger.Record_) :
  Digger.parse_result_body lib ld df b = Ok res ->
  (exists url, res !! "detail_url" = Some (JStr url) /\
               Str.startswith url "https://publicdatadigger.com" = true) /\
  (exists a, rb_h4_anchor b = Some (Some a) /\
             res !! "detail_url_text" = Some (JStr (Str.strip (a_text a)))) /\
  res !! "display_text" = Some (JStr (Str.join ld (rb_stripped_strings b))) /\
  (is_Some (res !! "home_address") <-> is_Some (rb_fa_home b)) /\
  (is_Some (res !! "email_address") <-> is_Some (rb_fa_envelope b)) /\
  (is_Some (res !! "phone_number") <-> is_Some (rb_fa_phone b)) /\
  (is_Some (res !! "birth_date") <-> is_Some (res !! "birth_date_text")) /\
  (is_Some (res !! "updated_date") <-> is_Some (res !! "updated_date_text")) /\
  (forall k, is_Some (res !! k) -> k ∈ search_record_keys).
Proof.
  intros Hrun. apply parse_result_body_inv in Hrun as (a & href & Ha & Hhref & Hrun).
  pose proof (scan_children_fields lib df _ _ _ Hrun) as Hk.
  pose proof (fields_before_children_keys ld b a href) as H0.
  assert (Hget : forall k,
            k = "display_text" \/ k = "detail_url_text" \/ k = "detail_url" ->
            forall v, fields_before_children ld b a href !! k = Some v -> res !! k = Some v).
  { intros k Hcase v Hv. apply (scan_children_frame lib df _ _ _ k v Hrun Hv);
      destruct Hcase as [->|[->| ->]]; done. }
  split_and!.
  - eexists. split; [|apply startswith_app]. apply Hget; [by right; right|].
    by rewrite fields_before_children_fixed by (by right; right).
  - exists a. split; [done|]. apply Hget; [by right; left|].
    by rewrite fields_before_children_fixed by (by right; left).
  - apply Hget; [by left|]. by rewrite fields_before_children_fixed by (by left).
  - rewrite Hk, H0. split; [|tauto].
    intros [[[? _]|[[? _]|[[_ ?]|[?|[?|?]]]]]|[[[? | ?] _]|[[? | ?] _]]]; done.
  - rewrite Hk, H0. split; [|tauto].
    intros [[[? _]|[[_ ?]|[[? _]|[?|[?|?]]]]]|[[[? | ?] _]|[[? | ?] _]]]; done.
  - rewrite Hk, H0. split; [|tauto].
    intros [[[_ ?]|[[? _]|[[? _]|[?|[?|?]]]]]|[[[? | ?] _]|[[? | ?] _]]]; done.
  - rewrite !Hk, !H0. split.
    + intros [[[? _]|[[? _]|[[? _]|[?|[?|?]]]]]|[[_ ?]|[[? | ?] _]]]; try done.
      right; left. tauto.
    + intros [[[? _]|[[? _]|[[? _]|[?|[?|?]]]]]|[[_ ?]|[[? | ?] _]]]; try done.
      right; left. tauto.
  - rewrite !Hk, !H0. split.
    + intros [[[? _]|[[? _]|[[? _]|[?|[?|?]]]]]|[[[? | ?] _]|[_ ?]]]; try done.
      right; right. tauto.
    + intros [[[? _]|[[? _]|[[? _]|[?|[?|?]]]]]|[[[? | ?] _]|[_ ?]]]; try done.
      right; right. tauto.
  - intros k. rewrite Hk, H0. unfold search_record_keys.
    intros [[[-> _]|[[-> _]|[[-> _]|[->|[->| ->]]]]]|[[[-> | ->] _]|[[-> | ->] _]]];
      apply list_elem_of_In; cbn [In]; tauto.
Qed.

Lemma search_record_is_sparse_witness :
  let res : Digger.Record_ :=
    <["birth_date_text" := JStr "Jan 1, 1990"]>
      (<["birth_date" := JStr "1990-01-01"]>
         (<["display_text" := JStr "Jane Doe"]>
            (<["detail_url_text" := JStr "Jane Doe"]>
               (<["detail_url" := JStr "https://publicdatadigger.com/person/doe/jane/42"]> ∅)))) in
  Digger.parse_result_body Sample.lib Str.nl "%Y-%m-%d"
    (Sample.block [mkChild (Some "p") "Born: Jan 1, 1990"]) = Ok res /\
  (is_Some (res !! "birth_date") <-> is_Some (res !! "birth_date_text")) /\
  (is_Some (res !! "home_address") <-> is_Some (@None (list string))).
Proof.
  intros res.
  assert (H : Digger.parse_result_body Sample.lib Str.nl "%Y-%m-%d"
                (Sample.block [mkChild (Some "p") "Born: Jan 1, 1990"]) = Ok res)
    by (vm_compute; reflexivity).
  split; [exact H|].
  destruct (search_record_is_sparse Sample.lib Str.nl "%Y-%m-%d" _ res H)
    as (_ & _ & _ & Hhome & _ & _ & Hbirth & _).
  split; [exact Hbirth|exact Hhome].
Defined.

(** X7.  Where the dates of a search record come from.  A record has a
    birth date exactly when one of the element children of its block has
    "born" in its text, in any case, and a date [search_dates] finds; it has
    the date of an update exactly when an element child has "updated" and
    not "born" in its text, and a date: a text that holds both words counts
    for the birth date only. *)
Theorem dates_of_a_search_record (lib : Library) (ld df : string)
    (b : ResultBody) (res : Digger.Record_) :
  Digger.parse_result_body lib ld df b = Ok res ->
  (is_Some (res !! "birth_date") <-> existsb (born_child lib) (rb_children b) = true) /\
  (is_Some (res !! "updated_date") <-> existsb (updated_child lib) (rb_children b) = true) /\
  (forall rsb, rsb ∈ rb_children b ->
     Str.contains "born" (Str.lower (Str.strip (c_text rsb))) = true ->
     updated_child lib rsb = false).
Proof.
  intros Hrun. apply parse_result_body_inv in Hrun as (a & href & Ha & Hhref & Hrun).
  pose proof (scan_children_fields lib df _ _ _ Hrun) as Hk.
  pose proof (fields_before_children_keys ld b a href) as H0.
  split_and!.
  - rewrite Hk, H0. split; [|tauto].
    intros [[[? _]|[[? _]|[[? _]|[?|[?|?]]]]]|[[_ ?]|[[? | ?] _]]]; done.
  - rewrite Hk, H0. split; [|tauto].
    intros [[[? _]|[[? _]|[[? _]|[?|[?|?]]]]]|[[[? | ?] _]|[_ ?]]]; done.
  - intros rsb _ Hborn. unfold updated_child. rewrite Hborn.
    by destruct (is_tag rsb).
Qed.

Lemma dates_of_a_search_record_witness :
  let res : Digger.Record_ :=
    <["birth_date_text" := JStr "Jan 1, 1990"]>
      (<["birth_date" := JStr "1990-01-01"]>
         (<["display_text" := JStr "Jane Doe"]>
            (<["detail_url_text" := JStr "Jane Doe"]>
               (<["detail_url" := JStr "https://publicdatadigger.com/person/doe/jane/42"]> ∅)))) in
  Digger.parse_result_body Sample.lib Str.nl "%Y-%m-%d"
    (Sample.block [mkChild (Some "p") "Born and updated: Jan 1, 1990"]) = Ok res /\
  (is_Some (res !! "updated_date") <->
   existsb (updated_child Sample.lib) [mkChild (Some "p") "Born and updated: Jan 1, 1990"] = true).
Proof.
  intros res.
  assert (H : Digger.parse_result_body Sample.lib Str.nl "%Y-%m-%d"
                (Sample.block [mkChild (Some "p") "Born and updated: Jan 1, 1990"]) = Ok res)
    by (vm_compute; reflexivity).
  split; [exact H|].
  destruct (dates_of_a_search_record Sample.lib Str.nl "%Y-%m-%d" _ res H) as (_ & Hu & _).
  exact Hu.
Defined.

(** ** What a task touches *)

Lemma touches_only_mono {A} ps ps' (m : M A) :
  ps ⊆ ps' -> touches_only ps m -> touches_only ps' m.
Proof.
  intros Hsub H w. destruct (H w) as (Hf & Hk & Hd). split_and!; [|done|done].
  intros p Hp. apply Hf. intros Hin. by apply Hp, Hsub.
Qed.

Lemma touches_only_bind {A B} ps (m : M A) (f : A -> M B) :
  touches_only ps m -> (forall a, touches_only ps (f a)) -> touches_only ps (bind m f).
Proof.
  intros Hm Hf w. unfold bind. destruct (Hm w) as (H1 & H2 & H3).
  destruct (m w) as [[a|e] w1]; simpl in *; [|done].
  destruct (Hf a w1) as (H1' & H2' & H3'). split_and!.
  - intros p Hp. by rewrite H1', H1.
  - intros p Hp. by apply H2', H2.
  - set_solver.
Qed.

Lemma touches_only_same_store {A} (m : M A) :
  (forall w, same_store (snd (m w)) w) -> touches_only [] m.
Proof.
  intros H w. specialize (H w). split_and!.
  - intros p _. by rewrite (same_store_files _ _ H).
  - intros p Hp. by rewrite (isfile_same_store _ _ _ H).
  - by rewrite (same_store_dirs _ _ H).
Qed.

Lemma touches_only_observer {A} (m : M A) : observer m -> touches_only [] m.
Proof. intros [H _]. by apply touches_only_same_store. Qed.

Lemma touches_only_logging l fmt args : touches_only [] (logging l fmt args).
Proof. by apply touches_only_same_store. Qed.

Lemma touches_only_write_file p t : touches_only [p] (Os.write_file p t).
Proof.
  intros w. split_and!.
  - intros q Hq. destruct (write_file_cases p t w) as [(_ & _ & ->)|[e ->]]; [|done].
    simpl. apply lookup_insert_ne. intros ->. apply Hq. by apply list_elem_of_singleton.
  - intros q. apply keeps_files_write_file.
  - by destruct (write_file_cases p t w) as [(_ & _ & ->)|[e ->]].
Qed.

Lemma touches_only_ensure_dirs ps : touches_only [] (Digger.ensure_dirs ps).
Proof.
  intros w. destruct (ensure_dirs_outcome ps w) as (Hw1 & Hsub & _).
  split_and!; [| |done].
  - intros p _. by rewrite Hw1.
  - intros p Hp. by rewrite Hw1.
Qed.

Lemma touches_only_if {A} ps (c : World -> bool) (m1 m2 : M A) :
  touches_only ps m1 -> touches_only ps m2 ->
  touches_only ps (fun w => if c w then m1 w else m2 w).
Proof. intros H1 H2 w. destruct (c w); [apply H1|apply H2]. Qed.

Lemma touches_only_try_except ps (m : M unit) (h : exn -> M unit) :
  touches_only ps m -> (forall e, touches_only ps (h e)) -> touches_only ps (try_except m h).
Proof.
  intros Hm Hh w. unfold try_except. destruct (Hm w) as (H1 & H2 & H3).
  destruct (m w) as [[a|e] w1]; simpl in *; [done|].
  destruct (is_Exception e); [|done].
  destruct (Hh e w1) as (H1' & H2' & H3'). split_and!.
  - intros p Hp. by rewrite H1', H1.
  - intros p Hp. by apply H2', H2.
  - set_solver.
Qed.

Lemma touches_only_scrape_by_name lib env fname lname ld df :
  touches_only [Digger.search_html_name fname lname; Digger.search_output_name fname lname]
               (Digger.scrape_by_name lib env fname lname ld df).
Proof.
  unfold Digger.scrape_by_name.
  apply touches_only_bind;
    [eapply touches_only_mono; [|apply touches_only_logging]; set_solver|intros _].
  apply touches_only_if;
    [eapply touches_only_mono; [|apply touches_only_logging]; set_solver|].
  apply touches_only_bind;
    [eapply touches_only_mono; [|apply touches_only_ensure_dirs]; set_solver|intros _].
  apply touches_only_bind;
    [eapply touches_only_mono;
       [|apply touches_only_observer, observer_datadigger_by_name]; set_solver
    |intros [html results]].
  apply touches_only_bind;
    [eapply touches_only_mono; [|apply touches_only_write_file]; set_solver|intros _].
  destruct (0 <? _).
  - apply touches_only_bind;
      [eapply touches_only_mono; [|apply touches_only_logging]; set_solver|intros _].
    eapply touches_only_mono; [|apply touches_only_write_file]; set_solver.
  - eapply touches_only_mono; [|apply touches_only_logging]; set_solver.
Qed.

Lemma touches_only_scrape_details lib env url ld df :
  touches_only [Digger.details_html_name lib url; Digger.details_output_name lib url]
               (Digger.scrape_details lib env url ld df).
Proof.
  unfold Digger.scrape_details.
  apply touches_only_bind;
    [eapply touches_only_mono; [|apply touches_only_logging]; set_solver|intros _].
  apply touches_only_if;
    [eapply touches_only_mono; [|apply touches_only_logging]; set_solver|].
  apply touches_only_bind;
    [eapply touches_only_mono; [|apply touches_only_ensure_dirs]; set_solver|intros _].
  apply touches_only_bind;
    [eapply touches_only_mono;
       [|apply touches_only_observer, observer_datadigger_detail_page]; set_solver
    |intros [html results]].
  apply touches_only_bind;
    [eapply touches_only_mono; [|apply touches_only_write_file]; set_solver|intros _].
  destruct (Digger.dict_truthy results).
  - eapply touches_only_mono; [|apply touches_only_write_file]; set_solver.
  - eapply touches_only_mono; [|apply touches_only_logging]; set_solver.
Qed.



(** ** The requests of a task *)

Lemma quiet_ret {A} (a : A) : quiet (ret a).
Proof. done. Qed.

Lemma quiet_lift {A} (r : Res A) : quiet (lift r).
Proof. done. Qed.

Lemma quiet_logging l fmt args : quiet (logging l fmt args).
Proof. done. Qed.

Lemma quiet_bind {A B} (m : M A) (f : A -> M B) :
  quiet m -> (forall a, quiet (f a)) -> quiet (bind m f).
Proof.
  intros Hm Hf w. unfold bind. specialize (Hm w).
  destruct (m w) as [[a|e] w1]; simpl in *; [|done]. by rewrite Hf.
Qed.

Lemma quiet_write_file p t : quiet (Os.write_file p t).
Proof. intros w. by destruct (write_file_cases p t w) as [(_ & _ & ->)|[e ->]]. Qed.

Lemma quiet_ensure_dirs ps : quiet (Digger.ensure_dirs ps).
Proof. intros w. destruct (ensure_dirs_outcome ps w) as (Hw1 & _). by rewrite Hw1. Qed.

Lemma quiet_read_file p : quiet (Os.read_file p).
Proof.
  intros w. unfold Os.read_file. destruct (w_files w !! p); [done|]. by destruct (Os.isdir p w).
Qed.

Lemma quiet_parse_result_bodies lib ld df bodies :
  forall j results, quiet (Digger.parse_result_bodies lib ld df j bodies results).
Proof.
  induction bodies as [|b bodies IH]; intros j results; simpl; [apply quiet_ret|].
  destruct (_ <? j).
  - apply quiet_bind; [apply quiet_logging|intros; apply quiet_ret].
  - apply quiet_bind; [apply quiet_lift|intros; apply IH].
Qed.

Lemma quiet_search_persist lib env fname lname results :
  quiet (search_persist lib env fname lname results).
Proof.
  unfold search_persist. destruct (0 <? _); [|apply quiet_logging].
  apply quiet_bind; [apply quiet_logging|intros _; apply quiet_write_file].
Qed.

Lemma quiet_details_persist lib env url results :
  quiet (details_persist lib env url results).
Proof.
  unfold details_persist. destruct (Digger.dict_truthy results);
    [apply quiet_write_file|apply quiet_logging].
Qed.

(** A look-up makes one request, whatever the answer and whatever the
    parser does with it. *)
Lemma datadigger_by_name_requests lib env fname lname ld df w :
  w_requests (snd (Digger.datadigger_by_name lib env fname lname ld df w)) =
  (w_requests w ++ [Digger.complete_url_with_names fname lname])%list.
Proof.
  unfold Digger.datadigger_by_name, bind, logging, requests_get.
  destruct (net env _) as [page|e]; [|done].
  set (w0 := add_request _ (add_log _ w)).
  assert (Hq : forall m : M (list Digger.Record_), quiet m ->
            w_requests (snd (let (r, w') := m w0 in
                             match r with
                             | Ok a => ret (text page, a) w'
                             | Raise e => (Raise e, w')
                             end)) = w_requests w0).
  { intros m Hm. specialize (Hm w0). by destruct (m w0) as [[a|e] w1]. }
  rewrite Hq; [done|].
  destruct (_ =? 200); [apply quiet_parse_result_bodies|apply quiet_ret].
Qed.

Lemma datadigger_detail_page_requests lib env url ld df w :
  w_requests (snd (Digger.datadigger_detail_page lib env url ld df w)) =
  (w_requests w ++ [url])%list.
Proof.
  unfold Digger.datadigger_detail_page, bind, requests_get.
  destruct (net env _) as [page|e]; [|done].
  destruct (_ =? 200); [|done]. unfold lift.
  by destruct (Digger.parse_detail_page lib ld df (soup page)).
Qed.

(** The requests of the runner: none when the raw page is on disk or the
    directories cannot be made, the one of the look-up otherwise. *)
Lemma runner_requests {R} file_msg skip_msg html_name dirs
    (fetch : M (string * R)) (persist : R -> M unit) url w :
  (forall w, w_requests (snd (fetch w)) = (w_requests w ++ [url])%list) ->
  (forall r, quiet (persist r)) ->
  let out := runner file_msg skip_msg html_name dirs fetch persist w in
  (w_requests (snd out) = w_requests w \/ w_requests (snd out) = (w_requests w ++ [url])%list) /\
  (Os.isfile html_name w = false -> fst out = Ok tt ->
   w_requests (snd out) = (w_requests w ++ [url])%list) /\
  (Os.isfile html_name w = true -> w_requests (snd out) = w_requests w).
Proof.
  intros Hfetch Hpersist. unfold runner.
  replace (Os.isfile html_name (add_log file_msg w)) with (Os.isfile html_name w) by done.
  destruct (Os.isfile html_name w) eqn:Hfile; [simpl; split_and!; [by left|done|done]|].
  pose proof (quiet_ensure_dirs dirs (add_log file_msg w)) as He.
  destruct (Digger.ensure_dirs dirs (add_log file_msg w)) as [[[]|e] w1]; simpl in He;
    [|simpl; split_and!; [by left|done|done]].
  pose proof (Hfetch w1) as Hf.
  destruct (fetch w1) as [[[html results]|e] w2]; simpl in Hf;
    [|simpl; split_and!; [right; by rewrite Hf, He|done|done]].
  pose proof (quiet_write_file html_name html w2) as Hw.
  destruct (Os.write_file html_name html w2) as [[[]|e] w3]; simpl in Hw;
    [|simpl; split_and!; [right; by rewrite Hw, Hf, He|done|done]].
  rewrite (Hpersist results w3), Hw, Hf, He. simpl. split_and!; [by right|done|done].
Qed.

(** X9.  A look-up makes exactly one request, for the query of the names
    or for the URL of the detail page, whatever the answer is and whatever
    the parser makes of it.  A run of the task runner makes at most that one
    request; it makes it when it ends normally from a store without the raw
    page, and none when the raw page is on disk. *)
Theorem one_request_per_task (lib : Library) (env : Env) (ld df : string) :
  (forall fname lname w,
      w_requests (snd (Digger.datadigger_by_name lib env fname lname ld df w)) =
        (w_requests w ++ [Digger.complete_url_with_names fname lname])%list) /\
  (forall url w,
      w_requests (snd (Digger.datadigger_detail_page lib env url ld df w)) =
        (w_requests w ++ [url])%list) /\
  (forall fname lname w,
      let out := Digger.scrape_by_name lib env fname lname ld df w in
      (w_requests (snd out) = w_requests w \/
       w_requests (snd out) =
         (w_requests w ++ [Digger.complete_url_with_names fname lname])%list) /\
      (Os.isfile (Digger.search_html_name fname lname) w = false -> fst out = Ok tt ->
       w_requests (snd out) =
         (w_requests w ++ [Digger.complete_url_with_names fname lname])%list) /\
      (Os.isfile (Digger.search_html_name fname lname) w = true ->
       w_requests (snd out) = w_requests w)) /\
  (forall url w,
      let out := Digger.scrape_details lib env url ld df w in
      (w_requests (snd out) = w_requests w \/
       w_requests (snd out) = (w_requests w ++ [url])%list) /\
      (Os.isfile (Digger.details_html_name lib url) w = false -> fst out = Ok tt ->
       w_requests (snd out) = (w_requests w ++ [url])%list) /\
      (Os.isfile (Digger.details_html_name lib url) w = true ->
       w_requests (snd out) = w_requests w)).
Proof.
  split_and!.
  - intros. apply datadigger_by_name_requests.
  - intros. apply datadigger_detail_page_requests.
  - intros fname lname w. rewrite scrape_by_name_runner. apply runner_requests.
    + intros w0. apply datadigger_by_name_requests.
    + intros r. apply quiet_search_persist.
  - intros url w. rewrite scrape_details_runner. apply runner_requests.
    + intros w0. apply datadigger_detail_page_requests.
    + intros r. apply quiet_details_persist.
Qed.

Lemma one_request_per_task_witness :
  let out := Digger.scrape_by_name Sample.lib (Sample.env_of (Ok Sample.not_found))
               "Jane" "Doe" Str.nl "%Y-%m-%d" Sample.empty_world in
  w_requests (snd out) = ["https://publicdatadigger.com/search?q=JANE+DOE"].
Proof.
  intros out.
  apply (proj1 (proj2 (proj1 (proj2 (proj2 (one_request_per_task Sample.lib
            (Sample.env_of (Ok Sample.not_found)) Str.nl "%Y-%m-%d")))
            "Jane" "Doe" Sample.empty_world))).
  - vm_compute; reflexivity.
  - vm_compute; reflexivity.
Defined.

(** ** A look-up that fails *)

Lemma runner_fetch_fails {R} file_msg skip_msg html_name dirs
    (fetch : M (string * R)) (persist : R -> M unit) e w :
  observer fetch ->
  fst (fetch w) = Raise e ->
  Os.isfile html_name w = false ->
  let out := runner file_msg skip_msg html_name dirs fetch persist w in
  (exists e', fst out = Raise e') /\
  (fst (Digger.ensure_dirs dirs w) = Ok tt -> fst out = Raise e) /\
  w_files (snd out) = w_files w /\
  Os.isfile html_name (snd out) = false.
Proof.
  intros [Hq Ho] Hfetch Hfile. unfold runner.
  replace (Os.isfile html_name (add_log file_msg w)) with false by done.
  pose proof (ensure_dirs_outcome dirs (add_log file_msg w)) as He.
  destruct (store_only_ensure_dirs dirs (add_log file_msg w) w (same_store_add_log _ _))
    as [Hr _].
  destruct (Digger.ensure_dirs dirs (add_log file_msg w)) as [[[]|e1] w1];
    destruct He as (Hw1 & _ & _); simpl in Hw1, Hr.
  - pose proof (Ho w1 w) as Hr1. rewrite Hfetch in Hr1. pose proof (Hq w1) as Hs.
    destruct (fetch w1) as [rf w2] eqn:Hf1. simpl in Hr1, Hs. subst rf. simpl.
    split_and!; [by eexists|done| |].
    + rewrite (same_store_files _ _ Hs). by rewrite Hw1.
    + unfold Os.isfile. rewrite (same_store_files _ _ Hs), Hw1. exact Hfile.
  - simpl. split_and!; [by eexists| | |].
    + rewrite <- Hr. done.
    + by rewrite Hw1.
    + unfold Os.isfile. rewrite Hw1. exact Hfile.
Qed.

(** X10.  When the look-up of a task fails, by an exception of the network
    or of the parser, the run of the task ends by an exception (that of the
    look-up when the directories could be made), writes no file and leaves
    the task without its raw page: nothing marks the task as done, so the
    next run looks it up again. *)
Theorem failed_lookup_leaves_task_open (lib : Library) (env : Env) (ld df : string) :
  (forall fname lname w e,
      fst (Digger.datadigger_by_name lib env fname lname ld df w) = Raise e ->
      Os.isfile (Digger.search_html_name fname lname) w = false ->
      let out := Digger.scrape_by_name lib env fname lname ld df w in
      (exists e', fst out = Raise e') /\
      (fst (Digger.ensure_dirs [Digger.search_output_path lname; Digger.search_html_path lname] w)
         = Ok tt -> fst out = Raise e) /\
      w_files (snd out) = w_files w /\
      Os.isfile (Digger.search_html_name fname lname) (snd out) = false) /\
  (forall url w e,
      fst (Digger.datadigger_detail_page lib env url ld df w) = Raise e ->
      Os.isfile (Digger.details_html_name lib url) w = false ->
      let out := Digger.scrape_details lib env url ld df w in
      (exists e', fst out = Raise e') /\
      (fst (Digger.ensure_dirs [Os.dirname (Digger.details_output_name lib url);
                                Os.dirname (Digger.details_html_name lib url)] w)
         = Ok tt -> fst out = Raise e) /\
      w_files (snd out) = w_files w /\
      Os.isfile (Digger.details_html_name lib url) (snd out) = false).
Proof.
  split.
  - intros fname lname w e Hfetch Hfile. rewrite scrape_by_name_runner.
    by apply runner_fetch_fails; [apply observer_datadigger_by_name|..].
  - intros url w e Hfetch Hfile. rewrite scrape_details_runner.
    by apply runner_fetch_fails; [apply observer_datadigger_detail_page|..].
Qed.

Lemma failed_lookup_leaves_task_open_witness :
  let out := Digger.scrape_by_name Sample.lib (Sample.env_of (Raise ConnectionError))
               "Jane" "Doe" Str.nl "%Y-%m-%d" Sample.empty_world in
  fst out = Raise ConnectionError /\ w_files (snd out) = ∅.
Proof.
  intros out.
  destruct (proj1 (failed_lookup_leaves_task_open Sample.lib
                     (Sample.env_of (Raise ConnectionError)) Str.nl "%Y-%m-%d")
                  "Jane" "Doe" Sample.empty_world ConnectionError) as (_ & He & Hf & _).
  - vm_compute; reflexivity.
  - vm_compute; reflexivity.
  - split; [apply He; vm_compute; reflexivity|exact Hf].
Defined.

(** ** The batch of name searches *)

Lemma asks_within_quiet {A} (m : M A) urls : quiet m -> asks_within urls m.
Proof.
  intros H w. exists []. rewrite app_nil_r. split; [apply H|apply sublist_nil_l].
Qed.




Lemma asks_within_try_except urls (m : M unit) (h : exn -> M unit) :
  asks_within urls m -> (forall e, quiet (h e)) -> asks_within urls (try_except m h).
Proof.
  intros Hm Hh w. unfold try_except. destruct (Hm w) as (l & Hl & Hs).
  destruct (m w) as [[a|e] w1]; simpl in *; [by exists l|].
  destruct (is_Exception e); [|by exists l].
  exists l. by rewrite Hh.
Qed.

Lemma asks_within_scrape_by_name lib env fname lname ld df :
  asks_within [Digger.complete_url_with_names fname lname]
              (Digger.scrape_by_name lib env fname lname ld df).
Proof.
  intros w. rewrite scrape_by_name_runner.
  destruct (runner_requests
              (mkLog INFO "File: %s" [JStr (Os.path_str (Digger.search_output_name fname lname))])
              (mkLog INFO "Skip %s %s, file %s already exists."
                 [JStr fname; JStr lname; JStr (Os.path_str (Digger.search_html_name fname lname))])
              (Digger.search_html_name fname lname)
              [Digger.search_output_path lname; Digger.search_html_path lname]
              (Digger.datadigger_by_name lib env fname lname ld df)
              (search_persist lib env fname lname)
              (Digger.complete_url_with_names fname lname) w) as ([H|H] & _).
  - intros w0. apply datadigger_by_name_requests.
  - intros r. apply quiet_search_persist.
  - exists []. rewrite app_nil_r. split; [exact H|apply sublist_nil_l].
  - eexists. split; [exact H|done].
Qed.

Lemma asks_within_scrape_details lib env url ld df :
  asks_within [url] (Digger.scrape_details lib env url ld df).
Proof.
  intros w. rewrite scrape_details_runner.
  destruct (runner_requests
              (mkLog INFO "File: %s" [JStr (Os.path_str (Digger.details_output_name lib url))])
              (mkLog INFO "Skip %s, file %s already exists."
                 [JStr url; JStr (Os.path_str (Digger.details_html_name lib url))])
              (Digger.details_html_name lib url)
              [Os.dirname (Digger.details_output_name lib url);
               Os.dirname (Digger.details_html_name lib url)]
              (Digger.datadigger_detail_page lib env url ld df)
              (details_persist lib env url) url w) as ([H|H] & _).
  - intros w0. apply datadigger_detail_page_requests.
  - intros r. apply quiet_details_persist.
  - exists []. rewrite app_nil_r. split; [exact H|apply sublist_nil_l].
  - eexists. split; [exact H|done].
Qed.


Lemma search_row_valid lib env row w :
  valid_row row = true ->
  Digger.search_row lib env row w =
  try_except (Digger.scrape_by_name lib env (Digger.strip_if_str (Digger.f_name row))
                (Digger.strip_if_str (Digger.l_name row)) Str.nl "%Y-%m-%d")
             (fun ex => logging ERROR "Exception: %s" [JStr (Digger.exn_name ex)]) w.
Proof. unfold valid_row, Digger.search_row. by intros ->. Qed.

Lemma asks_within_search_row lib env row :
  asks_within (if valid_row row then [row_url row] else []) (Digger.search_row lib env row).
Proof.
  unfold valid_row, Digger.search_row, row_url.
  destruct ((_ <? _) && (_ <? _)).
  - apply asks_within_try_except; [apply asks_within_scrape_by_name|].
    intros e. apply quiet_logging.
  - apply asks_within_quiet, quiet_logging.
Qed.

Lemma touches_only_search_row lib env row :
  touches_only (if valid_row row then [row_html_name row; row_output_name row] else [])
               (Digger.search_row lib env row).
Proof.
  unfold valid_row, Digger.search_row, row_html_name, row_output_name.
  destruct ((_ <? _) && (_ <? _)).
  - apply touches_only_try_except; [apply touches_only_scrape_by_name|].
    intros e. eapply touches_only_mono; [|apply touches_only_logging]. set_solver.
  - apply touches_only_logging.
Qed.

Lemma filter_valid_cons row rows :
  filter (fun row => valid_row row = true) (row :: rows) =
  ((if valid_row row then [row] else []) ++ filter (fun row => valid_row row = true) rows)%list.
Proof.
  destruct (valid_row row) eqn:Hv.
  - by rewrite filter_cons_True.
  - rewrite filter_cons_False; [done|]. by rewrite Hv.
Qed.


Lemma touches_only_search_loop lib env signals rows : forall j terminate,
  touches_only (flat_map (fun row => [row_html_name row; row_output_name row])
                         (filter (fun row => valid_row row = true) rows))
               (Digger.search_loop lib env signals j terminate rows).
Proof.
  induction rows as [|row rows IH]; intros j terminate.
  - by apply touches_only_same_store.
  - cbn [Digger.search_loop]. destruct (Digger.terminate_now _).
    + eapply touches_only_mono; [|by apply (touches_only_same_store (ret tt))]. set_solver.
    + rewrite filter_valid_cons, flat_map_app. apply touches_only_bind.
      * eapply touches_only_mono; [|apply touches_only_search_row].
        destruct (valid_row row); set_solver.
      * intros _. eapply touches_only_mono; [|apply IH]. set_solver.
Qed.


(** ** The batch of detail pages *)

Lemma asks_within_details_row lib env url :
  asks_within [url] (Digger.details_row lib env url).
Proof.
  unfold Digger.details_row. destruct (0 <? _).
  - apply asks_within_try_except; [apply asks_within_scrape_details|].
    intros e. apply quiet_logging.
  - by apply asks_within_quiet.
Qed.

Lemma touches_only_details_row lib env url :
  touches_only [Digger.details_html_name lib url; Digger.details_output_name lib url]
               (Digger.details_row lib env url).
Proof.
  unfold Digger.details_row. destruct (0 <? _).
  - apply touches_only_try_except; [apply touches_only_scrape_details|].
    intros e. eapply touches_only_mono; [|apply touches_only_logging]. set_solver.
  - eapply touches_only_mono; [|by apply (touches_only_same_store (raise NameError))].
    set_solver.
Qed.


Lemma touches_only_details_loop lib env signals urls : forall j terminate,
  touches_only (urls_files lib urls) (Digger.details_loop lib env signals j terminate urls).
Proof.
  induction urls as [|url urls IH]; intros j terminate.
  - by apply touches_only_same_store.
  - cbn [Digger.details_loop]. destruct (Digger.terminate_now _).
    + eapply touches_only_mono; [|by apply (touches_only_same_store (ret tt))]. set_solver.
    + apply touches_only_bind.
      * eapply touches_only_mono; [|apply touches_only_details_row].
        unfold urls_files. cbn [flat_map]. set_solver.
      * intros _. eapply touches_only_mono; [|apply IH].
        unfold urls_files. cbn [flat_map]. set_solver.
Qed.


Lemma main_details_run lib env signals file content w :
  w_files w !! file = Some content ->
  Digger.main_details lib env signals file w =
  bind (Digger.details_loop lib env signals 0 Digger.GracefulTerminate_init (url_lines content))
       (fun _ => logging INFO "Finished" [])
       (add_log (mkLog INFO "Number of records: %d"
                   [JInt (Z.of_nat (List.length (url_lines content)))])
          (add_log (mkLog INFO "Started" []) w)).
Proof.
  intros Hc. unfold Digger.main_details, url_lines. unfold bind at 1 2 3, logging at 1 2.
  unfold Os.read_file. cbn [w_files add_log]. by rewrite Hc.
Qed.



(** ** The attributes of a detail page *)

Lemma parse_registrations_shape lib ld df headers : forall acc regs,
  Digger.parse_registrations lib ld df headers acc = Ok regs ->
  exists new, regs = (acc ++ new)%list /\ List.length new = List.length headers /\
              Forall is_registration new /\
              Forall (fun h => finds_date lib (ch_text h) = true /\ is_Some (ch_body h)) headers.
Proof.
  induction headers as [|h headers IH]; intros acc regs Hrun.
  - injection Hrun as <-. exists []. by rewrite app_nil_r.
  - cbn [Digger.parse_registrations] in Hrun.
    destruct (search_dates lib (ch_text h)) as [[|[t d] rest]|] eqn:Hd; [done| |done].
    destruct (ch_body h) as [labels|] eqn:Hbody; [|done].
    destruct (Digger.parse_labels _ _ _ _ _ _) as [vr_attr|e]; [|done].
    apply IH in Hrun as (new & -> & Hlen & Hall & Hheaders).
    eexists (_ :: new). split_and!.
    + by rewrite <- app_assoc.
    + simpl. by rewrite Hlen.
    + constructor; [by eexists _, _, _|done].
    + constructor; [|exact Hheaders].
      split; [unfold finds_date; by rewrite Hd|by eexists].
Qed.

Lemma parse_labels_keys lib d df keys labels : forall attrs attrs',
  Digger.parse_labels lib d df keys labels attrs = Ok attrs' ->
  forall k, is_Some (attrs' !! k) <->
            is_Some (attrs !! k) \/ k ∈ map Digger.clean_label labels.
Proof.
  induction labels as [|l labels IH]; intros attrs attrs' Hrun k.
  - injection Hrun as <-. cbn [map]. rewrite elem_of_nil. tauto.
  - cbn [Digger.parse_labels] in Hrun. destruct (lb_next_value l) as [runs|]; [|done].
    rewrite (IH _ _ Hrun k), lookup_insert_is_Some_or. cbn [map]. rewrite elem_of_cons. tauto.
Qed.

(** X13.  What the parser makes of a detail page.  Without a header that
    reads "Additional Information" it ends by [IndexError].  When it ends
    normally the result has the two keys [profile] and
    [voter_registrations] and no other, so it is never empty and the runner
    writes the JSON file; the profile has one key per label under its
    header; and there is one registration, with its date, the text of the
    date and its attributes, for each header that reads "Voter
    Registration", each of which had a date and a body. *)
Theorem detail_page_attributes (lib : Library) (ld df : string) (s : Soup) :
  (information_headers s = [] -> Digger.parse_detail_page lib ld df s = Raise IndexError) /\
  (forall attrs,
      Digger.parse_detail_page lib ld df s = Ok attrs ->
      exists header labels profile regs,
        head (information_headers s) = Some header /\
        ph_next_div header = Some labels /\
        attrs = <["voter_registrations" := JList regs]> (<["profile" := JDict profile]> ∅) /\
        Digger.dict_truthy attrs = true /\
        (forall k, is_Some (profile !! k) <-> k ∈ map Digger.clean_label labels) /\
        List.length regs = List.length (registration_headers s) /\
        Forall is_registration regs /\
        Forall (fun h => finds_date lib (ch_text h) = true /\ is_Some (ch_body h))
               (registration_headers s)).
Proof.
  unfold information_headers, registration_headers, Digger.parse_detail_page. split.
  - by intros ->.
  - intros attrs.
    destruct (filter _ (profile_headers s)) as [|header others]; [done|].
    destruct (ph_next_div header) as [labels|] eqn:Hdiv; [|done].
    destruct (Digger.parse_labels lib Str.nl df ["born"] labels ∅) as [profile|e] eqn:Hp; [|done].
    destruct (Digger.parse_registrations _ _ _ _ _) as [regs|e] eqn:Hr; [|done].
    intros [= <-].
    apply parse_registrations_shape in Hr as (new & -> & Hlen & Hall & Hheaders).
    exists header, labels, profile, new. split_and!; [done|done|done| | |done|done|done].
    + unfold Digger.dict_truthy. apply negb_true_iff, Nat.eqb_neq. intros E.
      apply map_size_empty_iff in E. by apply insert_non_empty in E.
    + intros k. rewrite (parse_labels_keys _ _ _ _ _ _ _ Hp k), lookup_empty.
      split; [intros [H|H]; [by destruct H|done]|by right].
Qed.

Lemma detail_page_attributes_witness :
  Digger.parse_detail_page Sample.lib Str.nl "%Y-%m-%d" Sample.empty_soup = Raise IndexError.
Proof.
  apply (proj1 (detail_page_attributes Sample.lib Str.nl "%Y-%m-%d" Sample.empty_soup)).
  reflexivity.
Defined.

(** ** The files of a detail page *)

Lemma path_join_root parts : Os.path_join [] parts = filter (fun s : string => s <> "") parts.
Proof. done. Qed.

Lemma details_file_cases lib url kind suffix :
  let path_parts := Str.split "/"%char (urlparse_path lib url) in
  (forall a b rest, path_parts <> a :: "" :: b :: rest) /\
    (exists rel, Digger.details_file lib url kind suffix =
                 Os.path_join Digger.SCRAPING_DETAILS_DIR (kind :: rel)) \/
  (exists a b rest, path_parts = a :: "" :: b :: rest /\
     Digger.details_file lib url kind suffix =
     filter (fun s : string => s <> "") [b; (Str.join "_" rest ++ suffix)%string]).
Proof.
  intros path_parts. unfold Digger.details_file. fold path_parts. clearbody path_parts.
  destruct path_parts as [|a [|b [|c rest]]]; cbn [drop take app];
    try (left; split; [done|by eexists]).
  - destruct b; left; (split; [done|by eexists]).
  - destruct b as [|b0 b1].
    + right. exists a, c, rest. split; [done|]. rewrite path_join_root.
      by rewrite filter_cons_False by (intros H; by apply H).
    + left. split; [done|by eexists].
Qed.

Lemma append_is_not_dots (x suffix : string) :
  (2 < String.length suffix)%nat -> (x ++ suffix)%string <> "..".
Proof.
  intros Hlen H. apply (f_equal Str.chars) in H. rewrite chars_app in H.
  apply (f_equal (@List.length ascii)) in H. rewrite length_app, !chars_length in H.
  cbn in H. lia.
Qed.

Lemma details_file_below lib url kind suffix :
  let path_parts := Str.split "/"%char (urlparse_path lib url) in
  (forall a b rest, path_parts <> a :: "" :: b :: rest) ->
  Digger.details_file lib url kind suffix =
    Os.path_join Digger.SCRAPING_DETAILS_DIR
      (kind :: take 2 (drop 1 path_parts) ++
               [(Str.join "_" (drop 3 path_parts) ++ suffix)%string]).
Proof.
  intros path_parts Hparts. unfold Digger.details_file. fold path_parts.
  clearbody path_parts.
  destruct path_parts as [|a [|b [|c rest]]]; cbn [drop take app]; try done.
  - by destruct b.
  - destruct b as [|b0 b1]; [|done]. by destruct (Hparts a c rest).
Qed.

(** X14.  Where the files of a detail page go.  The path of the URL is cut
    at its slashes and the two segments after the first slash become
    directories.  A segment [..] among them makes the name step out of its
    directory once the operating system resolves it, so the statement is
    for paths without it.  Then, unless the segment after the first slash
    is empty (a path that starts with two slashes) and another one follows,
    the two files of the page sit below [html] and [json] in the details
    directory.  In that other case [os.path.join] meets a part that starts
    with a slash and drops the directory: both files are named by two
    components from the top of the file system, too short a name to lie in
    the details directory. *)
Theorem details_files_and_the_details_directory (lib : Library) (url : string) :
  let path_parts := Str.split "/"%char (urlparse_path lib url) in
  ((forall a b rest, path_parts <> a :: "" :: b :: rest) ->
   ".." ∉ take 2 (drop 1 path_parts) ->
   (Digger.SCRAPING_DETAILS_DIR ++ ["html"])%list `prefix_of` Digger.details_html_name lib url /\
   (Digger.SCRAPING_DETAILS_DIR ++ ["json"])%list `prefix_of` Digger.details_output_name lib url /\
   ".." ∉ Digger.details_html_name lib url /\
   ".." ∉ Digger.details_output_name lib url) /\
  (forall a b rest,
      path_parts = a :: "" :: b :: rest ->
      Digger.details_html_name lib url =
        filter (fun s : string => s <> "") [b; (Str.join "_" rest ++ ".html")%string] /\
      Digger.details_output_name lib url =
        filter (fun s : string => s <> "") [b; (Str.join "_" rest ++ ".json")%string] /\
      (List.length (Digger.details_html_name lib url) <= 2)%nat /\
      (List.length (Digger.details_output_name lib url) <= 2)%nat /\
      ~ Digger.SCRAPING_DETAILS_DIR `prefix_of` Digger.details_html_name lib url /\
      ~ Digger.SCRAPING_DETAILS_DIR `prefix_of` Digger.details_output_name lib url).
Proof.
  intros path_parts.
  assert (Hin : forall kind suffix, kind <> "" -> kind <> ".." ->
            (2 < String.length suffix)%nat ->
            (forall a b rest, path_parts <> a :: "" :: b :: rest) ->
            ".." ∉ take 2 (drop 1 path_parts) ->
            (Digger.SCRAPING_DETAILS_DIR ++ [kind])%list `prefix_of`
              Digger.details_file lib url kind suffix /\
            ".." ∉ Digger.details_file lib url kind suffix).
  { intros kind suffix Hk Hkd Hs Hparts Hdots.
    rewrite (details_file_below lib url kind suffix Hparts). fold path_parts. split.
    - rewrite path_join_cons by done. unfold Os.path_join. by apply prefix_app_r.
    - unfold Os.path_join. intros Hel.
      apply elem_of_app in Hel as [Hel|Hel].
      + unfold Digger.SCRAPING_DETAILS_DIR in Hel. set_solver.
      + apply list_elem_of_filter in Hel as [_ Hel].
        apply elem_of_cons in Hel as [Hel|Hel]; [by apply Hkd|].
        apply elem_of_app in Hel as [Hel|Hel]; [by apply Hdots|].
        apply list_elem_of_singleton in Hel. symmetry in Hel.
        by apply append_is_not_dots in Hel. }
  assert (Hout : forall kind suffix a b rest,
            path_parts = a :: "" :: b :: rest ->
            Digger.details_file lib url kind suffix =
              filter (fun s : string => s <> "") [b; (Str.join "_" rest ++ suffix)%string] /\
            (List.length (Digger.details_file lib url kind suffix) <= 2)%nat /\
            ~ Digger.SCRAPING_DETAILS_DIR `prefix_of` Digger.details_file lib url kind suffix).
  { intros kind suffix a b rest Hparts.
    destruct (details_file_cases lib url kind suffix) as [[H _]|(a' & b' & rest' & H & Hf)].
    - by destruct (H a b rest).
    - fold path_parts in H. rewrite Hparts in H. injection H as <- <- <-.
      pose proof (length_filter (fun s : string => s <> "")
                    [b; (Str.join "_" rest ++ suffix)%string]) as Hl.
      cbn [List.length] in Hl.
      split; [exact Hf|]. rewrite Hf. split; [exact Hl|].
      intros Hpre. apply prefix_length in Hpre.
      unfold Digger.SCRAPING_DETAILS_DIR in Hpre. cbn [List.length] in Hpre. lia. }
  split.
  - intros Hparts Hdots.
    destruct (Hin "html" ".html" ltac:(done) ltac:(done) ltac:(cbn; lia) Hparts Hdots) as [H1 H2].
    destruct (Hin "json" ".json" ltac:(done) ltac:(done) ltac:(cbn; lia) Hparts Hdots) as [H3 H4].
    done.
  - intros a b rest Hparts.
    destruct (Hout "html" ".html" a b rest Hparts) as (H1 & H2 & H3).
    destruct (Hout "json" ".json" a b rest Hparts) as (H4 & H5 & H6). done.
Qed.

Lemma details_files_and_the_details_directory_witness :
  let lib := mkLibrary (fun _ => "{}") (fun _ => None) (fun _ => None) (fun _ => None)
               (fun _ _ => "") (fun _ => "//tmp/jane/42") in
  Digger.details_html_name lib "https://publicdatadigger.com//tmp/jane/42" = ["tmp"; "jane_42.html"] /\
  (Digger.SCRAPING_DETAILS_DIR ++ ["html"])%list `prefix_of`
    Digger.details_html_name Sample.lib "https://publicdatadigger.com/person/doe/jane/42".
Proof.
  intros lib. split.
  - destruct (proj2 (details_files_and_the_details_directory lib
                       "https://publicdatadigger.com//tmp/jane/42")
                    "" "tmp" ["jane"; "42"]) as (H & _).
    + reflexivity.
    + rewrite H. reflexivity.
  - apply (proj1 (details_files_and_the_details_directory Sample.lib
                    "https://publicdatadigger.com/person/doe/jane/42")).
    + intros a b rest H. vm_compute in H. discriminate H.
    + intros H. vm_compute in H. set_solver.
Defined.

(** ** The runs of the crowdfunding scraper that the limit does not stop *)

Lemma stored_refl lib g w : ks_store g w -> stored lib g [] [] w w.
Proof. intros H. split_and!; [done|by rewrite app_nil_r|done|by rewrite app_nil_r]. Qed.

Lemma stored_trans lib g cards1 cards2 reqs1 reqs2 w w1 w2 :
  stored lib g cards1 reqs1 w w1 -> stored lib g cards2 reqs2 w1 w2 ->
  stored lib g (cards1 ++ cards2) (reqs1 ++ reqs2) w w2.
Proof.
  intros (_ & Hw1 & Hf1 & Hr1) (Hks & Hw2 & Hf2 & Hr2). split_and!; [done| | |].
  - by rewrite Hw2, Hw1, map_app, app_assoc.
  - rewrite Hf2, Hf1. unfold store_projects. by rewrite foldl_app.
  - by rewrite Hr2, Hr1, app_assoc.
Qed.

Lemma stored_add_request lib g u w :
  ks_store g w -> stored lib g [] [u] w (add_request u w).
Proof. intros H. split_and!; [done|by rewrite app_nil_r|done|done]. Qed.

Lemma stored_add_log lib g r w :
  ks_store g w -> stored lib g [] [] w (add_log r w).
Proof. intros H. split_and!; [done|by rewrite app_nil_r|done|by rewrite app_nil_r]. Qed.

Lemma mkdir_p_from_requests todo : forall made w,
  w_requests (snd (Kickstarter.mkdir_p_from made todo w)) = w_requests w.
Proof.
  induction todo as [|c todo IH]; intros made w; [done|].
  cbn [Kickstarter.mkdir_p_from]. destruct (Os.isfile _ w); [done|].
  rewrite IH. by destruct (Os.isdir _ w).
Qed.

Lemma quiet_raise {A} (e : exn) : quiet (@raise A e).
Proof. done. Qed.

Lemma quiet_scrape_project lib g p c : quiet (Kickstarter.scrape_project lib g p c).
Proof.
  unfold Kickstarter.scrape_project.
  apply quiet_bind; [apply quiet_lift|intros data].
  apply quiet_bind; [apply quiet_logging|intros _].
  apply quiet_bind; [apply quiet_lift|intros slug].
  apply quiet_bind; [apply quiet_lift|intros category].
  apply quiet_bind.
  { intros w. unfold Kickstarter.mkdir_p.
    pose proof (mkdir_p_from_requests
                  (Os.path_join Kickstarter.data_dir
                     (Kickstarter.web_scrape_path g ++
                      [category; Kickstarter.format_pid (cd_pid p)])) [] w) as H.
    by destruct (Kickstarter.mkdir_p_from _ _ w). }
  intros res. apply quiet_bind.
  { destruct (res =? 0); [apply quiet_ret|apply quiet_raise]. }
  intros _. apply quiet_bind; [apply quiet_lift|intros data1].
  apply quiet_bind; [apply quiet_lift|intros data2].
  apply quiet_bind; [apply quiet_write_file|intros _; apply quiet_ret].
Qed.

(** A card that cannot be read ends the pass by an exception before a
    directory is made or a file written. *)
Lemma scrape_project_unreadable lib g p c w :
  project_category lib p = None -> ks_store g w ->
  exists e w',
    Kickstarter.scrape_project lib g p c w = (Raise e, w') /\
    unreadable e /\ stored lib g [] [] w w'.
Proof.
  intros Hcat Hks. unfold project_category in Hcat.
  unfold Kickstarter.scrape_project, bind, lift, Kickstarter.info, logging, ret, raise,
    unreadable.
  destruct (cd_project p) as [s|]; [|by eexists _, _; split_and!; eauto using stored_refl].
  destruct (json_loads lib s) as [data|];
    [|by eexists _, _; split_and!; eauto using stored_refl].
  destruct data as [| | | | |d]; cbn [Kickstarter.subscript];
    try (by eexists _, _; split_and!; eauto using stored_add_log).
  destruct (d !! "category") as [dc|];
    [|by eexists _, _; split_and!; eauto using stored_add_log].
  destruct dc as [| | | | |dc]; cbn [Kickstarter.subscript];
    try (by eexists _, _; split_and!; eauto using stored_add_log).
  destruct (dc !! "slug") as [slug|];
    [|by eexists _, _; split_and!; eauto using stored_add_log].
  destruct slug; try done; by eexists _, _; split_and!; eauto 6 using stored_add_log.
Qed.

Lemma split_at_card (a b pre post : list Card) (p : Card) :
  (a ++ b)%list = (pre ++ p :: post)%list ->
  (exists post', a = (pre ++ p :: post')%list) \/
  (exists pre', pre = (a ++ pre')%list /\ b = (pre' ++ p :: post)%list).
Proof.
  revert pre. induction a as [|x a IH]; intros pre H.
  - right. by exists pre.
  - destruct pre as [|y pre]; cbn [app] in H; injection H as -> H.
    + left. by exists a.
    + destruct (IH pre H) as [[post' ->]|(pre' & -> & ->)].
      * left. by exists post'.
      * right. by exists pre'.
Qed.

Lemma chain_split_at_card (a b : list Card * bool) pre p post :
  fst (chain a b) = (pre ++ p :: post)%list ->
  (exists post', fst a = (pre ++ p :: post')%list) \/
  (snd a = false /\ exists pre', pre = (fst a ++ pre')%list /\ fst b = (pre' ++ p :: post)%list).
Proof.
  unfold chain. destruct (snd a) eqn:Ha.
  - intros H. left. by exists post.
  - cbn [fst]. intros H. destruct (split_at_card _ _ _ _ _ H) as [?|?]; [by left|by right].
Qed.

Section NotStopped.

Context (lib : Library) (g : Kickstarter.Globals) (limit : Z).

Lemma limit_test_false c :
  limit <= 0 \/ c + 1 <= limit -> (0 <? limit) && (limit <? c + 1) = false.
Proof. intros H. apply andb_false_iff. destruct H; [left|right]; apply Z.ltb_ge; lia. Qed.

Lemma projects_loop_run cs : forall c w,
  limit <= 0 \/ c + Z.of_nat (List.length cs) <= limit ->
  ks_store g w -> Forall (fun p => scrapable lib p = true) cs ->
  exists w',
    Kickstarter.projects_loop lib g limit cs c w =
      (Ok (Kickstarter.Continue (c + Z.of_nat (List.length cs))), w') /\
    stored lib g cs [] w w'.
Proof.
  induction cs as [|p rest IH]; intros c w Hlim Hks Hall.
  - exists w. cbn [Kickstarter.projects_loop List.length]. rewrite Z.add_0_r.
    split; [done|by apply stored_refl].
  - apply Forall_cons in Hall as [Hp Hall]. cbn [List.length] in Hlim.
    destruct (scrape_project_ok lib g p c w Hp Hks) as (w1 & Hrun & Hks1 & Hwr1 & Hf1).
    pose proof (quiet_scrape_project lib g p c w) as Hq. rewrite Hrun in Hq. cbn [snd] in Hq.
    destruct (IH (c + 1) w1 ltac:(lia) Hks1 Hall) as (w' & Hrun' & Hst).
    exists w'. cbn [Kickstarter.projects_loop]. unfold bind. rewrite Hrun.
    rewrite limit_test_false by lia.
    rewrite Hrun'. split; [do 3 f_equal; cbn [List.length]; lia|].
    apply (stored_trans lib g [p] rest [] [] w w1 w'); [|done].
    split_and!; [done|done|done|by rewrite app_nil_r].
Qed.

Lemma projects_loop_unreadable p post pre : forall c w,
  limit <= 0 \/ c + Z.of_nat (List.length pre) <= limit ->
  ks_store g w -> Forall (fun p => scrapable lib p = true) pre ->
  project_category lib p = None ->
  exists e w',
    Kickstarter.projects_loop lib g limit (pre ++ p :: post) c w = (Raise e, w') /\
    unreadable e /\ stored lib g pre [] w w'.
Proof.
  induction pre as [|q pre IH]; intros c w Hlim Hks Hall Hbad.
  - destruct (scrape_project_unreadable lib g p c w Hbad Hks) as (e & w' & Hrun & He & Hst).
    exists e, w'. cbn [app Kickstarter.projects_loop]. unfold bind. by rewrite Hrun.
  - apply Forall_cons in Hall as [Hq Hall]. cbn [List.length] in Hlim.
    destruct (scrape_project_ok lib g q c w Hq Hks) as (w1 & Hrun & Hks1 & Hwr1 & Hf1).
    pose proof (quiet_scrape_project lib g q c w) as Hquiet. rewrite Hrun in Hquiet.
    cbn [snd] in Hquiet.
    destruct (IH (c + 1) w1 ltac:(lia) Hks1 Hall Hbad) as (e & w' & Hrun' & He & Hst).
    exists e, w'. cbn [app Kickstarter.projects_loop]. unfold bind. rewrite Hrun.
    rewrite limit_test_false by lia.
    rewrite Hrun'. split_and!; [done|done|].
    apply (stored_trans lib g [q] pre [] [] w w1 w'); [|done].
    split_and!; [done|done|done|by rewrite app_nil_r].
Qed.

Lemma pages_loop_run base_url answers : forall page_number c w,
  limit <= 0 \/ c + Z.of_nat (List.length (fst (listing_cards answers))) <= limit ->
  ks_store g w ->
  Forall (fun p => scrapable lib p = true) (fst (listing_cards answers)) ->
  exists out w',
    Kickstarter.pages_loop lib g limit base_url page_number answers c w = (out, w') /\
    ended (listing_cards answers) c out /\
    stored lib g (fst (listing_cards answers))
           (listing_requests base_url page_number answers) w w'.
Proof.
  induction answers as [|[page|e] rest IH]; intros page_number c w Hlim Hks Hall.
  - eexists _, _. cbn [Kickstarter.pages_loop listing_cards listing_requests fst].
    split_and!; [reflexivity| |by apply stored_add_request].
    unfold ended. cbn [fst snd List.length]. by rewrite Z.add_0_r.
  - cbn [Kickstarter.pages_loop listing_cards listing_requests] in *.
    destruct (status_code page =? 200) eqn:Hst.
    + cbn [fst snd] in Hlim, Hall |- *. apply Forall_app in Hall as [Hall1 Hall2].
      rewrite length_app in Hlim.
      unfold bind at 1, Kickstarter.info, logging.
      set (w0 := add_log _ (add_request _ w)).
      assert (Hks0 : ks_store g w0) by done.
      destruct (projects_loop_run (proj_cards (soup page)) c w0 ltac:(lia) Hks0 Hall1)
        as (w1 & Hrun1 & Hst1).
      unfold bind. rewrite Hrun1.
      destruct (IH (page_number + 1) (c + Z.of_nat (List.length (proj_cards (soup page)))) w1
                  ltac:(lia) (proj1 Hst1) Hall2) as (out & w' & Hrun' & Hend & Hst').
      exists out, w'. split_and!; [exact Hrun'| |].
      * unfold ended in *. cbn [fst snd]. destruct (snd (listing_cards rest)); [done|].
        rewrite Hend, length_app. do 2 f_equal. lia.
      * assert (H0 : stored lib g [] [(base_url ++ "&page=" ++
                                        Kickstarter.str_of_Z page_number)%string] w w0).
        { split_and!; [done|by rewrite app_nil_r|done|done]. }
        pose proof (stored_trans _ _ _ _ _ _ _ _ _ H0 Hst1) as H01.
        apply (stored_trans _ _ _ _ _ _ _ _ _ H01 Hst').
    + eexists _, _. split_and!; [reflexivity| |by apply stored_add_request].
      unfold ended. cbn [fst snd List.length]. by rewrite Z.add_0_r.
  - eexists _, _. cbn [Kickstarter.pages_loop listing_cards listing_requests fst].
    split_and!; [reflexivity|by exists e|by apply stored_add_request].
Qed.

Lemma pages_loop_unreadable base_url p post answers : forall pre page_number c w,
  fst (listing_cards answers) = (pre ++ p :: post)%list ->
  limit <= 0 \/ c + Z.of_nat (List.length pre) <= limit ->
  ks_store g w -> Forall (fun p => scrapable lib p = true) pre ->
  project_category lib p = None ->
  exists e w' reqs,
    Kickstarter.pages_loop lib g limit base_url page_number answers c w = (Raise e, w') /\
    unreadable e /\ stored lib g pre reqs w w'.
Proof.
  induction answers as [|[page|e] rest IH]; intros pre page_number c w Hcards Hlim Hks Hall Hbad.
  - by destruct pre.
  - cbn [Kickstarter.pages_loop listing_cards] in *.
    destruct (status_code page =? 200) eqn:Hst; [|by destruct pre].
    cbn [fst] in Hcards.
    unfold bind at 1, Kickstarter.info, logging.
    set (w0 := add_log _ (add_request _ w)).
    assert (Hks0 : ks_store g w0) by done.
    assert (H0 : stored lib g [] [(base_url ++ "&page=" ++
                                    Kickstarter.str_of_Z page_number)%string] w w0).
    { split_and!; [done|by rewrite app_nil_r|done|done]. }
    destruct (split_at_card _ _ _ _ _ Hcards) as [[post' Hpage]|(pre' & -> & Hrest)].
    + rewrite Hpage.
      destruct (projects_loop_unreadable p post' pre c w0 Hlim Hks0 Hall Hbad)
        as (e & w' & Hrun & He & Hst').
      exists e, w'. eexists. unfold bind. rewrite Hrun. split_and!; [done|done|].
      apply (stored_trans _ _ _ _ _ _ _ _ _ H0 Hst').
    + apply Forall_app in Hall as [Hall1 Hall2]. rewrite length_app in Hlim.
      destruct (projects_loop_run (proj_cards (soup page)) c w0 ltac:(lia) Hks0 Hall1)
        as (w1 & Hrun1 & Hst1).
      unfold bind. rewrite Hrun1.
      destruct (IH pre' (page_number + 1)
                  (c + Z.of_nat (List.length (proj_cards (soup page)))) w1
                  Hrest ltac:(lia) (proj1 Hst1) Hall2 Hbad) as (e & w' & reqs & Hrun' & He & Hst').
      exists e, w'. eexists. rewrite Hrun'. split_and!; [done|done|].
      pose proof (stored_trans _ _ _ _ _ _ _ _ _ H0 Hst1) as H01.
      apply (stored_trans _ _ _ _ _ _ _ _ _ H01 Hst').
  - by destruct pre.
Qed.

Lemma states_loop_run site category_id stloop : forall c w,
  limit <= 0 \/
    c + Z.of_nat (List.length (fst (states_cards site category_id stloop))) <= limit ->
  ks_store g w ->
  Forall (fun p => scrapable lib p = true) (fst (states_cards site category_id stloop)) ->
  exists out w',
    Kickstarter.states_loop lib g site limit category_id stloop c w = (out, w') /\
    ended (states_cards site category_id stloop) c out /\
    stored lib g (fst (states_cards site category_id stloop))
           (states_requests site category_id stloop) w w'.
Proof.
  induction stloop as [|[state state_arg] rest IH]; intros c w Hlim Hks Hall.
  - exists (Ok (Kickstarter.Continue c)), w.
    cbn [Kickstarter.states_loop states_cards fst states_requests].
    split_and!; [done| |by apply stored_refl].
    unfold ended. cbn [fst snd List.length]. by rewrite Z.add_0_r.
  - cbn [states_cards states_requests Kickstarter.states_loop] in *.
    set (url := Kickstarter.base_url state_arg category_id) in *.
    set (a := listing_cards (site url)) in *.
    unfold chain in *. unfold bind.
    destruct (snd a) eqn:Ha.
    + destruct (pages_loop_run url (site url) 1 c w Hlim Hks Hall)
        as (out & w1 & Hrun1 & Hend1 & Hst1).
      fold a in Hend1, Hst1. unfold ended in Hend1. rewrite Ha in Hend1.
      destruct Hend1 as [e ->]. rewrite Hrun1. exists (Raise e), w1.
      split_and!; [done| |by rewrite app_nil_r].
      unfold ended. rewrite Ha. by exists e.
    + cbn [fst snd] in Hlim, Hall |- *. apply Forall_app in Hall as [Hall1 Hall2].
      rewrite length_app in Hlim.
      destruct (pages_loop_run url (site url) 1 c w ltac:(fold a; lia) Hks Hall1)
        as (out & w1 & Hrun1 & Hend1 & Hst1).
      fold a in Hend1, Hst1. unfold ended in Hend1. rewrite Ha in Hend1. subst out.
      rewrite Hrun1.
      destruct (IH (c + Z.of_nat (List.length (fst a))) w1 ltac:(lia) (proj1 Hst1) Hall2)
        as (out & w' & Hrun' & Hend & Hst').
      exists out, w'. split_and!; [exact Hrun'| |].
      * unfold ended in *. cbn [fst snd].
        destruct (snd (states_cards site category_id rest)); [done|].
        rewrite Hend, length_app. do 2 f_equal. lia.
      * apply (stored_trans _ _ _ _ _ _ _ _ _ Hst1 Hst').
Qed.

Lemma states_loop_unreadable site category_id p post stloop : forall pre c w,
  fst (states_cards site category_id stloop) = (pre ++ p :: post)%list ->
  limit <= 0 \/ c + Z.of_nat (List.length pre) <= limit ->
  ks_store g w -> Forall (fun p => scrapable lib p = true) pre ->
  project_category lib p = None ->
  exists e w' reqs,
    Kickstarter.states_loop lib g site limit category_id stloop c w = (Raise e, w') /\
    unreadable e /\ stored lib g pre reqs w w'.
Proof.
  induction stloop as [|[state state_arg] rest IH]; intros pre c w Hcards Hlim Hks Hall Hbad.
  - by destruct pre.
  - cbn [states_cards Kickstarter.states_loop] in *.
    set (url := Kickstarter.base_url state_arg category_id) in *.
    unfold bind.
    destruct (chain_split_at_card _ _ _ _ _ Hcards)
      as [[post' Ha]|(Ha & pre' & -> & Hrest)].
    + destruct (pages_loop_unreadable url p post' (site url) pre 1 c w Ha Hlim Hks Hall Hbad)
        as (e & w' & reqs & Hrun & He & Hst).
      exists e, w', reqs. by rewrite Hrun.
    + apply Forall_app in Hall as [Hall1 Hall2]. rewrite length_app in Hlim.
      destruct (pages_loop_run url (site url) 1 c w ltac:(lia) Hks Hall1)
        as (out & w1 & Hrun1 & Hend1 & Hst1).
      unfold ended in Hend1. rewrite Ha in Hend1. subst out. rewrite Hrun1.
      destruct (IH pre' (c + Z.of_nat (List.length (fst (listing_cards (site url))))) w1
                  Hrest ltac:(lia) (proj1 Hst1) Hall2 Hbad)
        as (e & w' & reqs & Hrun' & He & Hst').
      exists e, w'. eexists. rewrite Hrun'. split_and!; [done|done|].
      apply (stored_trans _ _ _ _ _ _ _ _ _ Hst1 Hst').
Qed.

Lemma sections_loop_run site stloop sections : forall c w,
  limit <= 0 \/
    c + Z.of_nat (List.length (fst (sections_cards site stloop sections))) <= limit ->
  ks_store g w ->
  Forall (fun p => scrapable lib p = true) (fst (sections_cards site stloop sections)) ->
  exists out w',
    Kickstarter.sections_loop lib g site limit stloop sections c w = (out, w') /\
    ended (sections_cards site stloop sections) c out /\
    stored lib g (fst (sections_cards site stloop sections))
           (sections_requests site stloop sections) w w'.
Proof.
  induction sections as [|sect rest IH]; intros c w Hlim Hks Hall.
  - exists (Ok (Kickstarter.Continue c)), w.
    cbn [Kickstarter.sections_loop sections_cards fst sections_requests].
    split_and!; [done| |by apply stored_refl].
    unfold ended. cbn [fst snd List.length]. by rewrite Z.add_0_r.
  - cbn [sections_cards sections_requests Kickstarter.sections_loop] in *.
    unfold bind at 1, Kickstarter.info at 1, logging at 1.
    set (w0 := add_log _ w). assert (Hks0 : ks_store g w0) by done.
    assert (H0 : stored lib g [] [] w w0) by (by apply stored_add_log).
    set (category_id := Kickstarter.cat_dict_get Kickstarter.cat_dict sect) in *.
    destruct (category_id <? 0) eqn:Hid.
    + unfold bind at 1, Kickstarter.info at 1, logging at 1.
      set (w00 := add_log _ w0). assert (Hks00 : ks_store g w00) by done.
      destruct (IH c w00 Hlim Hks00 Hall) as (out & w' & Hrun' & Hend & Hst').
      exists out, w'. split_and!; [exact Hrun'|exact Hend|].
      assert (H00 : stored lib g [] [] w0 w00) by (by apply stored_add_log).
      pose proof (stored_trans _ _ _ _ _ _ _ _ _ H0 H00) as H1.
      apply (stored_trans _ _ _ _ _ _ _ _ _ H1 Hst').
    + set (a := states_cards site category_id stloop) in *.
      unfold chain in *. unfold bind.
      destruct (snd a) eqn:Ha.
      * destruct (states_loop_run site category_id stloop c w0 Hlim Hks0 Hall)
          as (out & w1 & Hrun1 & Hend1 & Hst1).
        fold a in Hend1, Hst1. unfold ended in Hend1. rewrite Ha in Hend1.
        destruct Hend1 as [e ->]. rewrite Hrun1. exists (Raise e), w1.
        split_and!; [done| |].
        -- unfold ended. rewrite Ha. by exists e.
        -- rewrite app_nil_r. apply (stored_trans _ _ _ _ _ _ _ _ _ H0 Hst1).
      * cbn [fst snd] in Hlim, Hall |- *. apply Forall_app in Hall as [Hall1 Hall2].
        rewrite length_app in Hlim.
        destruct (states_loop_run site category_id stloop c w0 ltac:(fold a; lia) Hks0 Hall1)
          as (out & w1 & Hrun1 & Hend1 & Hst1).
        fold a in Hend1, Hst1. unfold ended in Hend1. rewrite Ha in Hend1. subst out.
        rewrite Hrun1.
        destruct (IH (c + Z.of_nat (List.length (fst a))) w1 ltac:(lia) (proj1 Hst1) Hall2)
          as (out & w' & Hrun' & Hend & Hst').
        exists out, w'. split_and!; [exact Hrun'| |].
        -- unfold ended in *. cbn [fst snd].
           destruct (snd (sections_cards site stloop rest)); [done|].
           rewrite Hend, length_app. do 2 f_equal. lia.
        -- pose proof (stored_trans _ _ _ _ _ _ _ _ _ H0 Hst1) as H1.
           apply (stored_trans _ _ _ _ _ _ _ _ _ H1 Hst').
Qed.

Lemma sections_loop_unreadable site stloop p post sections : forall pre c w,
  fst (sections_cards site stloop sections) = (pre ++ p :: post)%list ->
  limit <= 0 \/ c + Z.of_nat (List.length pre) <= limit ->
  ks_store g w -> Forall (fun p => scrapable lib p = true) pre ->
  project_category lib p = None ->
  exists e w' reqs,
    Kickstarter.sections_loop lib g site limit stloop sections c w = (Raise e, w') /\
    unreadable e /\ stored lib g pre reqs w w'.
Proof.
  induction sections as [|sect rest IH]; intros pre c w Hcards Hlim Hks Hall Hbad.
  - by destruct pre.
  - cbn [sections_cards Kickstarter.sections_loop] in *.
    unfold bind at 1, Kickstarter.info at 1, logging at 1.
    set (w0 := add_log _ w). assert (Hks0 : ks_store g w0) by done.
    assert (H0 : stored lib g [] [] w w0) by (by apply stored_add_log).
    set (category_id := Kickstarter.cat_dict_get Kickstarter.cat_dict sect) in *.
    destruct (category_id <? 0) eqn:Hid.
    + unfold bind at 1, Kickstarter.info at 1, logging at 1.
      set (w00 := add_log _ w0). assert (Hks00 : ks_store g w00) by done.
      destruct (IH pre c w00 Hcards Hlim Hks00 Hall Hbad) as (e & w' & reqs & Hrun' & He & Hst').
      exists e, w'. eexists. split_and!; [exact Hrun'|done|].
      assert (H00 : stored lib g [] [] w0 w00) by (by apply stored_add_log).
      pose proof (stored_trans _ _ _ _ _ _ _ _ _ H0 H00) as H1.
      apply (stored_trans _ _ _ _ _ _ _ _ _ H1 Hst').
    + unfold bind.
      destruct (chain_split_at_card _ _ _ _ _ Hcards)
        as [[post' Ha]|(Ha & pre' & -> & Hrest)].
      * destruct (states_loop_unreadable site category_id p post' stloop pre c w0
                    Ha Hlim Hks0 Hall Hbad) as (e & w' & reqs & Hrun & He & Hst).
        exists e, w'. eexists. rewrite Hrun. split_and!; [done|done|].
        apply (stored_trans _ _ _ _ _ _ _ _ _ H0 Hst).
      * apply Forall_app in Hall as [Hall1 Hall2]. rewrite length_app in Hlim.
        destruct (states_loop_run site category_id stloop c w0 ltac:(lia) Hks0 Hall1)
          as (out & w1 & Hrun1 & Hend1 & Hst1).
        unfold ended in Hend1. rewrite Ha in Hend1. subst out. rewrite Hrun1.
        destruct (IH pre' (c + Z.of_nat (List.length
                                           (fst (states_cards site category_id stloop)))) w1
                    Hrest ltac:(lia) (proj1 Hst1) Hall2 Hbad)
          as (e & w' & reqs & Hrun' & He & Hst').
        exists e, w'. eexists. rewrite Hrun'. split_and!; [done|done|].
        pose proof (stored_trans _ _ _ _ _ _ _ _ _ H0 Hst1) as H1.
        apply (stored_trans _ _ _ _ _ _ _ _ _ H1 Hst').
Qed.

End NotStopped.

(** X15.  A run that nothing stops: the limit is off (at most zero, the
    normal mode) or at least the number of projects on offer, no request is
    answered by an exception, the store has room for the projects and every
    project on offer can be stored.  Then [scraping] returns the number of
    projects on offer after it wrote the file of each of them, one write
    each in the order of the listings; and each listing of a known section
    was asked for page after page up to the first page that is not answered
    with status 200, unknown sections drawing no request. *)
Theorem full_scrape_stores_every_project (lib : Library) (g : Kickstarter.Globals)
    (site : Kickstarter.Site) (sections : option (list string)) (anyState b : bool)
    (limit : Z) (w : World) :
  limit <= 0 \/ Z.of_nat (List.length (available site b sections)) <= limit ->
  Kickstarter.any_state g = Some b ->
  ks_store g w ->
  network_fails site b sections = false ->
  Forall (fun p => scrapable lib p = true) (available site b sections) ->
  exists w',
    Kickstarter.scraping lib g site sections anyState limit w =
      (Ok (Z.of_nat (List.length (available site b sections))), w') /\
    w_writes w' = (w_writes w ++ map (project_file lib g) (available site b sections))%list /\
    w_files w' = store_projects lib g (available site b sections) (w_files w) /\
    w_requests w' =
      (w_requests w ++
       sections_requests site (Kickstarter.stloop_of b) (sections_of sections))%list.
Proof.
  intros Hlimit Hany Hks Hnet Hall. unfold available, network_fails in *.
  fold (sections_of sections) in *.
  destruct (sections_loop_run lib g limit site (Kickstarter.stloop_of b)
              (sections_of sections) 0 w ltac:(lia) Hks Hall)
    as (out & w' & Hrun & Hend & _ & Hwr & Hf & Hr).
  unfold ended in Hend. rewrite Hnet in Hend. subst out.
  exists w'. split_and!; [|done|done|done].
  unfold Kickstarter.scraping, bind, lift. rewrite Hany. fold (sections_of sections).
  rewrite Hrun. by rewrite Z.add_0_l.
Qed.

Lemma full_scrape_stores_every_project_witness :
  let site : Kickstarter.Site :=
    fun _ => [Ok (Sample.listing [Sample.card "1"; Sample.card "2"])] in
  exists w',
    Kickstarter.scraping Sample.ks_lib (Sample.ks_globals true) site (Some ["design"; "knitting"])
      true 0 Sample.empty_world = (Ok 2, w') /\
    w_requests w' =
      ["https://www.kickstarter.com/discover/advanced?category_id=7&sort=newest&seed=2731239&page=1";
       "https://www.kickstarter.com/discover/advanced?category_id=7&sort=newest&seed=2731239&page=2"].
Proof.
  intros site.
  destruct (full_scrape_stores_every_project Sample.ks_lib (Sample.ks_globals true) site
              (Some ["design"; "knitting"]) true true 0 Sample.empty_world)
    as (w' & Hrun & _ & _ & Hr).
  - lia.
  - reflexivity.
  - split.
    + intros q category pid Hq. simpl in Hq. rewrite lookup_empty in Hq. by destruct Hq.
    + intros q Hq. simpl in Hq. by apply not_elem_of_empty in Hq.
  - vm_compute. reflexivity.
  - vm_compute. repeat constructor.
  - exists w'. split; [exact Hrun|]. rewrite Hr. vm_compute. reflexivity.
Defined.

(** X16.  A card that cannot be read ends the run.  When the projects on
    offer, in the order of the listings, are storable ones followed by a
    card without project data, or whose data is not JSON, is not an object,
    has no category object or no slug that is a string, [scraping] ends by
    [TypeError], [JSONDecodeError], [KeyError] or [AttributeError]: the
    projects before that card are stored, one write each, nothing is
    written for the card itself, and no card after it is looked at, not
    even those of other sections. *)
Theorem unreadable_card_ends_the_run (lib : Library) (g : Kickstarter.Globals)
    (site : Kickstarter.Site) (sections : option (list string)) (anyState b : bool)
    (limit : Z) (w : World) (pre post : list Card) (p : Card) :
  limit <= 0 \/ Z.of_nat (List.length pre) <= limit ->
  Kickstarter.any_state g = Some b ->
  ks_store g w ->
  available site b sections = (pre ++ p :: post)%list ->
  Forall (fun q => scrapable lib q = true) pre ->
  project_category lib p = None ->
  exists e w',
    Kickstarter.scraping lib g site sections anyState limit w = (Raise e, w') /\
    unreadable e /\
    w_writes w' = (w_writes w ++ map (project_file lib g) pre)%list /\
    w_files w' = store_projects lib g pre (w_files w).
Proof.
  intros Hlimit Hany Hks Hcards Hall Hbad. unfold available in Hcards.
  fold (sections_of sections) in Hcards.
  destruct (sections_loop_unreadable lib g limit site (Kickstarter.stloop_of b) p post
              (sections_of sections) pre 0 w Hcards ltac:(lia) Hks Hall Hbad)
    as (e & w' & reqs & Hrun & He & _ & Hwr & Hf & _).
  exists e, w'. split_and!; [|done|done|done].
  unfold Kickstarter.scraping, bind, lift. rewrite Hany. fold (sections_of sections).
  by rewrite Hrun.
Qed.

Lemma unreadable_card_ends_the_run_witness :
  let bad := mkCard (Some "2") None in
  let site : Kickstarter.Site :=
    fun _ => [Ok (Sample.listing [Sample.card "1"; bad; Sample.card "3"])] in
  exists e w',
    Kickstarter.scraping Sample.ks_lib (Sample.ks_globals true) site (Some ["design"])
      true 0 Sample.empty_world = (Raise e, w') /\
    unreadable e /\
    w_writes w' = [project_file Sample.ks_lib (Sample.ks_globals true) (Sample.card "1")].
Proof.
  intros bad site.
  destruct (unreadable_card_ends_the_run Sample.ks_lib (Sample.ks_globals true) site
              (Some ["design"]) true true 0 Sample.empty_world
              [Sample.card "1"] [Sample.card "3"] bad)
    as (e & w' & Hrun & He & Hwr & _).
  - lia.
  - reflexivity.
  - split.
    + intros q category pid Hq. simpl in Hq. rewrite lookup_empty in Hq. by destruct Hq.
    + intros q Hq. simpl in Hq. by apply not_elem_of_empty in Hq.
  - vm_compute. reflexivity.
  - vm_compute. repeat constructor.
  - reflexivity.
  - exists e, w'. split_and!; [exact Hrun|exact He|exact Hwr].
Defined.

(** X17.  A request that is answered by an exception ends the run by an
    exception, after the projects listed before it were stored: with the
    limit off or not reached and every project on offer storable, the files
    of all the projects on offer are written, one write each in the order
    of the listings, and the failed request is the last one made. *)
Theorem network_failure_keeps_what_was_stored (lib : Library) (g : Kickstarter.Globals)
    (site : Kickstarter.Site) (sections : option (list string)) (anyState b : bool)
    (limit : Z) (w : World) :
  limit <= 0 \/ Z.of_nat (List.length (available site b sections)) <= limit ->
  Kickstarter.any_state g = Some b ->
  ks_store g w ->
  network_fails site b sections = true ->
  Forall (fun p => scrapable lib p = true) (available site b sections) ->
  exists e w',
    Kickstarter.scraping lib g site sections anyState limit w = (Raise e, w') /\
    w_writes w' = (w_writes w ++ map (project_file lib g) (available site b sections))%list /\
    w_files w' = store_projects lib g (available site b sections) (w_files w) /\
    w_requests w' =
      (w_requests w ++
       sections_requests site (Kickstarter.stloop_of b) (sections_of sections))%list.
Proof.
  intros Hlimit Hany Hks Hnet Hall. unfold available, network_fails in *.
  fold (sections_of sections) in *.
  destruct (sections_loop_run lib g limit site (Kickstarter.stloop_of b)
              (sections_of sections) 0 w ltac:(lia) Hks Hall)
    as (out & w' & Hrun & Hend & _ & Hwr & Hf & Hr).
  unfold ended in Hend. rewrite Hnet in Hend. destruct Hend as [e ->].
  exists e, w'. split_and!; [|done|done|done].
  unfold Kickstarter.scraping, bind, lift. rewrite Hany. fold (sections_of sections).
  by rewrite Hrun.
Qed.

Lemma network_failure_keeps_what_was_stored_witness :
  let site : Kickstarter.Site :=
    fun _ => [Ok (Sample.listing [Sample.card "1"]); Raise ConnectionError] in
  exists e w',
    Kickstarter.scraping Sample.ks_lib (Sample.ks_globals true) site (Some ["design"; "food"])
      true 0 Sample.empty_world = (Raise e, w') /\
    w_writes w' = [project_file Sample.ks_lib (Sample.ks_globals true) (Sample.card "1")] /\
    w_requests w' =
      ["https://www.kickstarter.com/discover/advanced?category_id=7&sort=newest&seed=2731239&page=1";
       "https://www.kickstarter.com/discover/advanced?category_id=7&sort=newest&seed=2731239&page=2"].
Proof.
  intros site.
  destruct (network_failure_keeps_what_was_stored Sample.ks_lib (Sample.ks_globals true) site
              (Some ["design"; "food"]) true true 0 Sample.empty_world)
    as (e & w' & Hrun & Hwr & _ & Hr).
  - lia.
  - reflexivity.
  - split.
    + intros q category pid Hq. simpl in Hq. rewrite lookup_empty in Hq. by destruct Hq.
    + intros q Hq. simpl in Hq. by apply not_elem_of_empty in Hq.
  - vm_compute. reflexivity.
  - vm_compute. repeat constructor.
  - exists e, w'. split_and!; [exact Hrun|exact Hwr|]. rewrite Hr. vm_compute. reflexivity.
Defined.

(** ** From the file of a search task to the table *)

Lemma readlines_chars_line (l rest : list ascii) : forall cur,
  forallb (fun c => negb (Ascii.eqb c Str.LF) && negb (Ascii.eqb c Str.CR)) l = true ->
  Str.readlines_chars cur (l ++ Str.LF :: rest) =
  Str.of_chars (rev cur ++ l ++ [Str.LF]) :: Str.readlines_chars [] rest.
Proof.
  induction l as [|c l IH]; intros cur Hl.
  - cbn [app Str.readlines_chars]. replace (Ascii.eqb Str.LF Str.LF) with true by done.
    by cbn [rev].
  - cbn [forallb] in Hl. apply andb_true_iff in Hl as [Hc Hl].
    apply andb_true_iff in Hc as [Hlf Hcr]. apply negb_true_iff in Hlf, Hcr.
    cbn [app Str.readlines_chars]. rewrite Hlf, Hcr, IH by done.
    cbn [rev]. by rewrite <- app_assoc.
Qed.

Lemma readlines_line (s rest : string) :
  one_line s = true ->
  Str.readlines (s ++ Str.nl ++ rest) = (s ++ Str.nl)%string :: Str.readlines rest.
Proof.
  intros Hs. unfold Str.readlines. rewrite !chars_app.
  change (Str.chars Str.nl) with [Str.LF]. cbn [app].
  rewrite readlines_chars_line by done. cbn [rev app]. f_equal.
  rewrite <- (of_chars_chars (s ++ Str.nl)). by rewrite chars_app.
Qed.

Lemma search_json_lines_rows lib env fname lname output_name results : forall j,
  Forall (reads_back lib) (search_rows lib env fname lname output_name j results) ->
  Str.readlines (Digger.search_json_lines lib env fname lname output_name
                   "%Y-%m-%dT%H:%M:%S" j results) =
    map (fun v => (json_dumps lib v ++ Str.nl)%string)
        (search_rows lib env fname lname output_name j results) /\
  Digger.loads_lines lib
    (map (fun v => (json_dumps lib v ++ Str.nl)%string)
         (search_rows lib env fname lname output_name j results)) =
    Ok (search_rows lib env fname lname output_name j results).
Proof.
  induction results as [|res rest IH]; intros j Hall; [done|].
  cbn [search_rows Digger.search_json_lines map Digger.loads_lines] in *.
  apply Forall_cons in Hall as [[Hline Hback] Hall].
  destruct (IH (j + 1) Hall) as [Hlines Hloads].
  rewrite readlines_line by done. rewrite Hlines, Hback, Hloads. done.
Qed.

Lemma search_rows_length lib env fname lname output_name results : forall j,
  List.length (search_rows lib env fname lname output_name j results) = List.length results.
Proof. induction results as [|res rest IH]; intros j; [done|]. cbn. by rewrite IH. Qed.

Lemma starts_with_app (p l : list ascii) : Str.starts_with p (p ++ l) = true.
Proof. induction p as [|c p IH]; [done|]. simpl. by rewrite Ascii.eqb_refl. Qed.

Lemma endswith_app (s suffix : string) : Str.endswith (s ++ suffix) suffix = true.
Proof. unfold Str.endswith. rewrite chars_app, rev_app_distr. apply starts_with_app. Qed.

Lemma string_append_assoc (s t u : string) : ((s ++ t) ++ u)%string = (s ++ t ++ u)%string.
Proof.
  assert (H : Str.chars ((s ++ t) ++ u) = Str.chars (s ++ t ++ u))
    by (by rewrite !chars_app, app_assoc).
  apply (f_equal Str.of_chars) in H. by rewrite !of_chars_chars in H.
Qed.

Lemma join_snoc sep (y : string) (l : list string) :
  exists pre, Str.join sep (l ++ [y]) = (pre ++ y)%string.
Proof.
  induction l as [|p l [pre IH]]; [by exists ""|].
  cbn [app Str.join]. destruct (l ++ [y])%list as [|a b] eqn:E; [by destruct l|].
  rewrite IH. exists (p ++ sep ++ pre)%string. by rewrite !string_append_assoc.
Qed.

Lemma path_str_endswith (base : Path) (name suffix : string) :
  Str.endswith (Os.path_str (base ++ [(name ++ suffix)%string])) suffix = true.
Proof.
  unfold Os.path_str. destruct (join_snoc "/" (name ++ suffix)%string base) as [pre ->].
  rewrite <- !string_append_assoc. apply endswith_app.
Qed.

Lemma search_output_name_joined fname lname :
  Os.path_join Digger.SCRAPING_SEARCH_DIR
    ["json"; Digger.search_output_fname lname;
     (Digger.search_output_fname fname ++ ".json")%string] =
  Digger.search_output_name fname lname.
Proof.
  unfold Digger.search_output_name, Digger.search_output_path, Os.path_join.
  rewrite <- app_assoc. f_equal.
  change ["json"; Digger.search_output_fname lname;
          (Digger.search_output_fname fname ++ ".json")%string]
    with (["json"; Digger.search_output_fname lname] ++
          [(Digger.search_output_fname fname ++ ".json")%string])%list.
  by rewrite filter_app.
Qed.

Lemma search_output_name_last fname lname :
  exists base, Digger.search_output_name fname lname =
               (base ++ [(Digger.search_output_fname fname ++ ".json")%string])%list.
Proof.
  unfold Digger.search_output_name. rewrite path_join_last by (by apply append_nonempty).
  by eexists.
Qed.

(** What a search task leaves in its JSON file when it ends normally with
    records. *)
Lemma scrape_by_name_json_file lib env fname lname ld df w w' html results :
  Os.isfile (Digger.search_html_name fname lname) w = false ->
  fst (Digger.datadigger_by_name lib env fname lname ld df w) = Ok (html, results) ->
  results <> [] ->
  Digger.scrape_by_name lib env fname lname ld df w = (Ok tt, w') ->
  w_files w' !! Digger.search_output_name fname lname =
    Some (Digger.search_json_lines lib env fname lname (Digger.search_output_name fname lname)
            "%Y-%m-%dT%H:%M:%S" 0 results).
Proof.
  intros Hfile Hfetch Hres. rewrite scrape_by_name_runner. unfold runner.
  replace (Os.isfile (Digger.search_html_name fname lname) (add_log _ w)) with false by done.
  destruct (Digger.ensure_dirs _ _) as [[[]|e] w1]; [|done].
  destruct (observer_datadigger_by_name lib env fname lname ld df) as [_ Hsame].
  rewrite (Hsame w w1) in Hfetch.
  destruct (Digger.datadigger_by_name lib env fname lname ld df w1) as [[[html' results']|e] w2];
    [|done].
  cbn [fst] in Hfetch. injection Hfetch as -> ->.
  destruct (write_file_cases (Digger.search_html_name fname lname) html w2)
    as [(_ & _ & ->)|[e ->]]; [|done].
  unfold search_persist.
  replace (0 <? Z.of_nat (List.length results)) with true
    by (symmetry; apply Z.ltb_lt; destruct results; [done|cbn [List.length]; lia]).
  unfold bind, logging.
  match goal with |- context [Os.write_file ?p ?t ?w0] =>
    destruct (write_file_cases p t w0) as [(_ & _ & ->)|[e ->]]; [|done] end.
  intros [= <-]. cbn [w_files add_write set_files]. by rewrite lookup_insert_eq.
Qed.

(** X18.  What a search task writes is what the aggregation reads.  After
    a run of [scrape_by_name] that ended normally, from a store without the
    raw page and with at least one record found, the JSON file of the task
    has one line per record; and when [json.dumps] writes each of them on
    one line that [json.loads] reads back, the pass of
    [load_search_results] over that file adds to the table exactly the
    records of the parser, in their order, each with the fields
    [order_number] (from 0 on), [first_name], [last_name], [json_file] and
    [scrape_date], counts one file, and changes nothing. *)
Theorem search_file_reads_back (lib : Library) (env : Env) (fname lname ld df : string)
    (w w' : World) (html : string) (results : list Digger.Record_) :
  let rows := search_rows lib env fname lname (Digger.search_output_name fname lname) 0 results in
  Os.isfile (Digger.search_html_name fname lname) w = false ->
  fst (Digger.datadigger_by_name lib env fname lname ld df w) = Ok (html, results) ->
  results <> [] ->
  Digger.scrape_by_name lib env fname lname ld df w = (Ok tt, w') ->
  Forall (reads_back lib) rows ->
  line_count w' (Digger.search_output_name fname lname) = List.length results /\
  forall st,
    Digger.load_first_names lib (Digger.search_output_fname lname)
      [(Digger.search_output_fname fname ++ ".json")%string] st w' =
    (Ok ((fst st ++ rows)%list, snd st + 1), w').
Proof.
  intros rows Hfile Hfetch Hres Hrun Hback.
  pose proof (scrape_by_name_json_file _ _ _ _ _ _ _ _ _ _ Hfile Hfetch Hres Hrun) as Hjson.
  destruct (search_json_lines_rows lib env fname lname
              (Digger.search_output_name fname lname) results 0 Hback) as [Hlines Hloads].
  fold rows in Hlines, Hloads. split.
  - unfold line_count. rewrite Hjson, Hlines, length_map. apply search_rows_length.
  - intros st. cbn [Digger.load_first_names]. rewrite search_output_name_joined.
    destruct (search_output_name_last fname lname) as [base Hlast].
    replace (Str.endswith (Os.path_str (Digger.search_output_name fname lname)) ".json")
      with true by (symmetry; rewrite Hlast; apply path_str_endswith).
    unfold bind, Os.read_file, lift, ret. by rewrite Hjson, Hlines, Hloads.
Qed.

Lemma search_file_reads_back_witness :
  let res : Digger.Record_ :=
    <["display_text" := JStr "Jane Doe"]>
      (<["detail_url_text" := JStr "Jane Doe"]>
         (<["detail_url" := JStr "https://publicdatadigger.com/person/doe/jane/42"]> ∅)) in
  let row : JValue :=
    JDict (<["scrape_date" := JStr "1990-01-01T00:00:00"]>
          (<["json_file" := JStr (Os.path_str (Digger.search_output_name "Jane" "Doe"))]>
          (<["last_name" := JStr "Doe"]>
          (<["first_name" := JStr "Jane"]>
          (<["order_number" := JInt 0]> res))))) in
  let lib := mkLibrary (fun _ => "{}") (fun _ => Some row) (fun _ => None) (fun _ => None)
               (fun _ _ => "1990-01-01T00:00:00") (fun url => url) in
  let env := Sample.env_of (Ok (Sample.search_page [Sample.block []])) in
  exists w',
    Digger.scrape_by_name lib env "Jane" "Doe" Str.nl "%Y-%m-%d" Sample.empty_world =
      (Ok tt, w') /\
    Digger.load_first_names lib "doe" ["jane.json"] ([], 0) w' = (Ok ([row], 1), w').
Proof.
  intros res row lib env.
  assert (Hfetch : fst (Digger.datadigger_by_name lib env "Jane" "Doe" Str.nl "%Y-%m-%d"
                          Sample.empty_world) = Ok ("<html>results</html>", [res]))
    by (vm_compute; reflexivity).
  destruct (scrape_by_name_fresh lib env "Jane" "Doe" Str.nl "%Y-%m-%d" Sample.empty_world
              "<html>results</html>" [res]) as (w' & Hrun & _).
  - apply fresh_task_empty; [reflexivity|reflexivity|vm_compute; discriminate|vm_compute; discriminate].
  - exact Hfetch.
  - exists w'. split; [exact Hrun|].
    destruct (search_file_reads_back lib env "Jane" "Doe" Str.nl "%Y-%m-%d"
                Sample.empty_world w' "<html>results</html>" [res]) as [_ H].
    + reflexivity.
    + exact Hfetch.
    + done.
    + exact Hrun.
    + constructor; [|constructor]. split; vm_compute; reflexivity.
    + exact (H ([], 0)).
Defined.

(** ** The aggregation reads only, and gives all of the table or none *)

Lemma loads_lines_inv lib lines :
  match Digger.loads_lines lib lines with
  | Ok vs => Forall (fun l => is_Some (json_loads lib l)) lines
  | Raise e => e = JSONDecodeError
  end.
Proof.
  induction lines as [|l lines IH]; [by constructor|].
  cbn [Digger.loads_lines]. destruct (json_loads lib l) as [v|] eqn:Hl; [|done].
  destruct (Digger.loads_lines lib lines) as [vs|e]; [|done].
  constructor; [by eexists|done].
Qed.

Lemma load_first_names_reads lib last firsts : forall st w,
  snd (Digger.load_first_names lib last firsts st w) = w.
Proof.
  induction firsts as [|first firsts IH]; intros st w; [done|].
  cbn [Digger.load_first_names]. unfold bind, Os.read_file, lift, ret.
  destruct (Str.endswith _ ".json"); [|apply IH].
  destruct (w_files w !! _) as [content|]; [|by destruct (Os.isdir _ w)].
  destruct (Digger.loads_lines lib (Str.readlines content)); [apply IH|done].
Qed.

Lemma load_last_names_reads lib lasts : forall st w,
  snd (Digger.load_last_names lib lasts st w) = w.
Proof.
  induction lasts as [|last lasts IH]; intros st w; [done|].
  cbn [Digger.load_last_names]. unfold bind, Os.listdir.
  destruct (Os.isdir _ w); [|by destruct (Os.isfile _ w)].
  pose proof (load_first_names_reads lib last
                (Os.entries (Os.path_join Digger.SCRAPING_SEARCH_DIR ["json"; last]) w) st w) as H.
  destruct (Digger.load_first_names _ _ _ _ _) as [[st'|e] w1]; cbn [snd] in H; subst w1;
    [apply IH|done].
Qed.

Lemma load_first_names_inv lib w last firsts : forall st,
  Forall (fun p => Os.isfile p w = true)
         (map (fun first => Os.path_join Digger.SCRAPING_SEARCH_DIR ["json"; last; first])
              (filter (is_json_name last) firsts)) ->
  match fst (Digger.load_first_names lib last firsts st w) with
  | Ok _ =>
      Forall (readable lib w)
             (map (fun first => Os.path_join Digger.SCRAPING_SEARCH_DIR ["json"; last; first])
                  (filter (is_json_name last) firsts))
  | Raise e => e = JSONDecodeError
  end.
Proof.
  induction firsts as [|first firsts IH]; intros st Hfiles; [by constructor|].
  cbn [Digger.load_first_names]. unfold bind.
  destruct (Str.endswith _ ".json") eqn:Hjson.
  - rewrite filter_cons_True in Hfiles |- * by done. cbn [map] in Hfiles |- *.
    apply Forall_cons in Hfiles as [Hfile Hfiles].
    unfold Os.read_file, lift, ret. unfold Os.isfile in Hfile.
    destruct (w_files w !! _) as [content|] eqn:Hc; [|done].
    pose proof (loads_lines_inv lib (Str.readlines content)) as Hlines.
    destruct (Digger.loads_lines lib (Str.readlines content)) as [vs|e]; [|done].
    specialize (IH ((fst st ++ vs)%list, snd st + 1) Hfiles).
    destruct (fst (Digger.load_first_names _ _ _ _ _)); [|done].
    constructor; [by exists content|done].
  - rewrite filter_cons_False in Hfiles |- * by (unfold is_json_name; congruence).
    unfold ret. apply IH, Hfiles.
Qed.

Lemma load_last_names_inv lib w lasts : forall st,
  Forall (fun last => Os.isdir (Os.path_join Digger.SCRAPING_SEARCH_DIR ["json"; last]) w = true)
         lasts ->
  Forall (fun p => Os.isfile p w = true) (flat_map (dir_json_files w) lasts) ->
  match fst (Digger.load_last_names lib lasts st w) with
  | Ok _ => Forall (readable lib w) (flat_map (dir_json_files w) lasts)
  | Raise e => e = JSONDecodeError
  end.
Proof.
  induction lasts as [|last lasts IH]; intros st Hdirs Hfiles; [by constructor|].
  apply Forall_cons in Hdirs as [Hdir Hdirs]. cbn [flat_map] in Hfiles |- *.
  apply Forall_app in Hfiles as [Hhere Hrest].
  cbn [Digger.load_last_names]. unfold bind, Os.listdir. rewrite Hdir.
  pose proof (load_first_names_inv lib w last _ st Hhere) as H1.
  pose proof (load_first_names_reads lib last
                (Os.entries (Os.path_join Digger.SCRAPING_SEARCH_DIR ["json"; last]) w) st w) as Hw.
  destruct (Digger.load_first_names _ _ _ _ _) as [[st'|e] w1]; cbn [fst snd] in H1, Hw;
    subst w1; [|done].
  specialize (IH st' Hdirs Hrest).
  destruct (fst (Digger.load_last_names _ _ _ _)); [|done].
  apply Forall_app. by split.
Qed.

(** X19.  The aggregation reads only and gives all of the table or none.
    Whatever the store holds and however it ends, [load_search_results]
    leaves the world as it found it.  On a store laid out as the scraper
    lays it out, the directories of the last names below [json] holding
    files under the names that end in [.json], one line that [json.loads]
    rejects in one of these files ends it by [JSONDecodeError]: the rows
    read so far are dropped, no table is returned. *)
Theorem aggregation_reads_only_all_or_nothing (lib : Library) (w : World) :
  snd (Digger.load_search_results lib w) = w /\
  (Os.isdir json_dir w = true ->
   Forall (fun last => Os.isdir (Os.path_join Digger.SCRAPING_SEARCH_DIR ["json"; last]) w = true)
          (Os.entries json_dir w) ->
   Forall (fun p => Os.isfile p w = true) (json_files w) ->
   ~ Forall (readable lib w) (json_files w) ->
   Digger.load_search_results lib w = (Raise JSONDecodeError, w)).
Proof.
  assert (Hreads : snd (Digger.load_search_results lib w) = w).
  { unfold Digger.load_search_results, bind, Os.listdir. fold json_dir.
    destruct (Os.isdir json_dir w); [|by destruct (Os.isfile json_dir w)].
    pose proof (load_last_names_reads lib (Os.entries json_dir w) ([], 0) w) as H.
    destruct (Digger.load_last_names _ _ _ _) as [[[data num_files]|e] w1]; cbn [snd] in H;
      by subst w1. }
  split; [exact Hreads|].
  intros Hdir Hdirs Hfiles Hbad.
  rewrite (surjective_pairing (Digger.load_search_results lib w)), Hreads. f_equal.
  unfold Digger.load_search_results, bind, Os.listdir. fold json_dir. rewrite Hdir.
  pose proof (load_last_names_inv lib w (Os.entries json_dir w) ([], 0) Hdirs Hfiles) as H.
  destruct (Digger.load_last_names _ _ _ _) as [[[data num_files]|e] w1]; cbn [fst] in H |- *.
  - by destruct Hbad.
  - by subst e.
Qed.

Lemma aggregation_reads_only_all_or_nothing_witness :
  let lib := mkLibrary (fun _ => "{}")
               (fun l => if Str.startswith l "{" then Some (JDict ∅) else None)
               (fun _ => None) (fun _ => None) (fun _ _ => "") (fun url => url) in
  let w := mkWorld
             {[ ["data"; "project"; "voter_registration_scraping"; "output"; "search";
                 "json"; "doe"; "jane.json"] := ("{}" ++ Str.nl ++ "oops" ++ Str.nl)%string ]}
             ({[ ["data"; "project"; "voter_registration_scraping"; "output"; "search"; "json"] ]} ∪
              {[ ["data"; "project"; "voter_registration_scraping"; "output"; "search";
                  "json"; "doe"] ]})
             [] [] [] [] in
  Digger.load_search_results lib w = (Raise JSONDecodeError, w).
Proof.
  intros lib w.
  assert (He : Os.entries json_dir w = ["doe"]) by (vm_compute; reflexivity).
  assert (Hf : json_files w =
               [["data"; "project"; "voter_registration_scraping"; "output"; "search";
                 "json"; "doe"; "jane.json"]]) by (vm_compute; reflexivity).
  apply (proj2 (aggregation_reads_only_all_or_nothing lib w)).
  - vm_compute. reflexivity.
  - rewrite He. repeat constructor.
  - rewrite Hf. repeat constructor.
  - rewrite Hf. intros H. apply Forall_cons in H as [(content & Hc & Hlines) _].
    assert (Hcontent : content = ("{}" ++ Str.nl ++ "oops" ++ Str.nl)%string).
    { vm_compute in Hc. by injection Hc as <-. }
    subst content. vm_compute in Hlines.
    apply Forall_cons in Hlines as [_ Hlines]. apply Forall_cons in Hlines as [[v Hv] _].
    discriminate Hv.
Defined.

(** ** A batch takes up where the last one stopped *)

Lemma search_row_asks lib env row w :
  exists l,
    w_requests (snd (Digger.search_row lib env row w)) = (w_requests w ++ l)%list /\
    l `sublist_of`
      map row_url (filter (fun row => Os.isfile (row_html_name row) w = false)
                          (if valid_row row then [row] else [])).
Proof.
  pose proof (asks_within_search_row lib env row w) as H.
  destruct (valid_row row) eqn:Hv; [|exact H].
  destruct (Os.isfile (row_html_name row) w) eqn:Hf.
  - rewrite filter_cons_False by (by rewrite Hf). rewrite search_row_valid by done.
    destruct (scrape_by_name_no_op lib env (Digger.strip_if_str (Digger.f_name row))
                (Digger.strip_if_str (Digger.l_name row)) Str.nl "%Y-%m-%d" w Hf)
      as (Hok & _ & Hreq & _).
    unfold try_except.
    destruct (Digger.scrape_by_name _ _ _ _ _ _ w) as [[[]|e] w1]; [|done].
    exists []. by rewrite app_nil_r.
  - by rewrite filter_cons_True, filter_nil by done.
Qed.

Lemma details_row_asks lib env url w :
  exists l,
    w_requests (snd (Digger.details_row lib env url w)) = (w_requests w ++ l)%list /\
    l `sublist_of` filter (fun u => Os.isfile (Digger.details_html_name lib u) w = false) [url].
Proof.
  pose proof (asks_within_details_row lib env url w) as H.
  destruct (Os.isfile (Digger.details_html_name lib url) w) eqn:Hf.
  - rewrite filter_cons_False by (by rewrite Hf). unfold Digger.details_row.
    destruct (0 <? _); [|exists []; by rewrite app_nil_r].
    destruct (scrape_details_no_op lib env url Str.nl "%Y-%m-%d" w Hf) as (Hok & _ & Hreq & _).
    unfold try_except.
    destruct (Digger.scrape_details _ _ _ _ _ w) as [[[]|e] w1]; [|done].
    exists []. by rewrite app_nil_r.
  - by rewrite filter_cons_True, filter_nil by done.
Qed.

Lemma filter_holds {A} (f : A -> Path) (w0 w : World) (l k : list A) (g : A -> string)
    (reqs : list string) :
  holds w0 w ->
  reqs `sublist_of` map g (filter (fun x => Os.isfile (f x) w = false) l) ->
  reqs `sublist_of` map g (filter (fun x => Os.isfile (f x) w0 = false) l).
Proof.
  intros Hh Hs. etrans; [exact Hs|]. clear Hs reqs.
  induction l as [|x l IH]; [done|].
  destruct (Os.isfile (f x) w0) eqn:H0.
  - rewrite (filter_cons_False _ x l) by (by rewrite (Hh _ H0)).
    by rewrite (filter_cons_False _ x l) by (by rewrite H0).
  - rewrite (filter_cons_True (fun x => Os.isfile (f x) w0 = false)) by done. cbn [map].
    destruct (Os.isfile (f x) w) eqn:H1.
    + rewrite filter_cons_False by (by rewrite H1). by apply sublist_cons.
    + rewrite filter_cons_True by done. cbn [map]. by apply sublist_skip.
Qed.

Lemma search_loop_asks lib env signals w0 rows : forall j terminate w,
  holds w0 w ->
  exists l,
    w_requests (snd (Digger.search_loop lib env signals j terminate rows w)) =
      (w_requests w ++ l)%list /\
    l `sublist_of`
      map row_url (filter (fun row => Os.isfile (row_html_name row) w0 = false)
                          (filter (fun row => valid_row row = true) rows)).
Proof.
  induction rows as [|row rows IH]; intros j terminate w Hh.
  - exists []. by rewrite app_nil_r.
  - cbn [Digger.search_loop]. destruct (Digger.terminate_now _).
    + exists []. rewrite app_nil_r. split; [done|apply sublist_nil_l].
    + unfold bind. destruct (search_row_asks lib env row w) as (l1 & Hl1 & Hs1).
      apply (filter_holds row_html_name w0 w _ [] row_url) in Hs1; [|done].
      pose proof (touches_only_search_row lib env row w) as (_ & Hkeep & _).
      rewrite filter_valid_cons, filter_app, map_app.
      destruct (Digger.search_row lib env row w) as [[[]|e] w1]; cbn [snd] in *.
      * edestruct (IH (S j)) as (l2 & Hl2 & Hs2); [intros p Hp; apply Hkeep, Hh, Hp|].
        exists (l1 ++ l2)%list. rewrite Hl2, Hl1, app_assoc. split; [done|].
        by apply sublist_app.
      * exists l1. split; [done|]. by apply sublist_inserts_r.
Qed.

Lemma details_loop_asks lib env signals w0 urls : forall j terminate w,
  holds w0 w ->
  exists l,
    w_requests (snd (Digger.details_loop lib env signals j terminate urls w)) =
      (w_requests w ++ l)%list /\
    l `sublist_of` pending_urls lib w0 urls.
Proof.
  unfold pending_urls.
  induction urls as [|url urls IH]; intros j terminate w Hh.
  - exists []. by rewrite app_nil_r.
  - cbn [Digger.details_loop]. destruct (Digger.terminate_now _).
    + exists []. rewrite app_nil_r. split; [done|apply sublist_nil_l].
    + unfold bind. destruct (details_row_asks lib env url w) as (l1 & Hl1 & Hs1).
      rewrite <- (map_id (filter _ [url])) in Hs1.
      apply (filter_holds (Digger.details_html_name lib) w0 w _ [] id) in Hs1; [|done].
      rewrite map_id in Hs1.
      pose proof (touches_only_details_row lib env url w) as (_ & Hkeep & _).
      change (url :: urls) with ([url] ++ urls)%list. rewrite filter_app.
      destruct (Digger.details_row lib env url w) as [[[]|e] w1]; cbn [snd] in *.
      * edestruct (IH (S j)) as (l2 & Hl2 & Hs2); [intros p Hp; apply Hkeep, Hh, Hp|].
        exists (l1 ++ l2)%list. rewrite Hl2, Hl1, app_assoc. split; [done|].
        by apply sublist_app.
      * exists l1. split; [done|]. by apply sublist_inserts_r.
Qed.

(** X20.  A batch takes up where the last one stopped.  Whatever the
    network answers and whenever a signal arrives, [main_search] asks only
    for rows whose raw page is not in the store when it starts, in the order
    of the table and at most once each, and [main_details] only for URLs
    whose raw page is not there: what an earlier run fetched is not fetched
    again. *)
Theorem batch_asks_only_for_what_is_missing (lib : Library) (env : Env)
    (signals : nat -> option Digger.Signal) (w : World) :
  (forall rows,
     exists l,
       w_requests (snd (Digger.main_search lib env signals rows w)) = (w_requests w ++ l)%list /\
       l `sublist_of` map row_url (pending_rows w rows)) /\
  (forall file content,
     w_files w !! file = Some content ->
     exists l,
       w_requests (snd (Digger.main_details lib env signals file w)) = (w_requests w ++ l)%list /\
       l `sublist_of` pending_urls lib w (url_lines content)).
Proof.
  split.
  - intros rows. unfold Digger.main_search, pending_rows, valid_rows.
    unfold bind at 1 2, logging at 1 2.
    set (w2 := add_log _ (add_log _ w)).
    destruct (search_loop_asks lib env signals w (Digger.dropna rows) 0
                Digger.GracefulTerminate_init w2) as (l & Hl & Hs); [by intros p Hp|].
    exists l. split; [|exact Hs]. unfold bind.
    destruct (Digger.search_loop _ _ _ _ _ _ w2) as [[[]|e] w3]; exact Hl.
  - intros file content Hc. rewrite (main_details_run _ _ _ _ content) by done.
    set (w2 := add_log _ (add_log _ w)).
    destruct (details_loop_asks lib env signals w (url_lines content) 0
                Digger.GracefulTerminate_init w2) as (l & Hl & Hs); [by intros p Hp|].
    exists l. split; [|exact Hs]. unfold bind.
    destruct (Digger.details_loop _ _ _ _ _ _ w2) as [[[]|e] w3]; exact Hl.
Qed.

(** ** A batch without an error record covered its tasks *)

Lemma errors_add_log r w :
  errors (add_log r w) = (errors w + if is_error r then 1 else 0)%nat.
Proof.
  unfold errors. cbn [w_log add_log]. rewrite filter_app, length_app. f_equal.
  destruct (is_error r) eqn:Hr.
  - by rewrite filter_cons_True.
  - rewrite filter_cons_False; [done|]. by rewrite Hr.
Qed.

Lemma errors_calm {A} (m : M A) w : calm m -> (errors w <= errors (snd (m w)))%nat.
Proof.
  intros Hm. destruct (Hm w) as [_ (l & Hl & _)]. unfold errors.
  rewrite Hl, filter_app, length_app. lia.
Qed.

Section Covered.

Context (lib : Library) (env : Env) (signals : nat -> option Digger.Signal).
Hypothesis never_exits : forall url, net env url <> Raise SystemExit.
Hypothesis no_signal : forall j, signals j = None.

(** A task of the batch leaves its raw page, or an error record. *)
Lemma search_row_covers row w :
  valid_row row = true ->
  Os.isfile (row_html_name row) (snd (Digger.search_row lib env row w)) = true \/
  (errors w < errors (snd (Digger.search_row lib env row w)))%nat.
Proof.
  intros Hv. rewrite search_row_valid by done. unfold try_except.
  pose proof (scrape_by_name_done lib env (Digger.strip_if_str (Digger.f_name row))
                (Digger.strip_if_str (Digger.l_name row)) Str.nl "%Y-%m-%d" w) as Hdone.
  pose proof (calm_scrape_by_name lib env never_exits (Digger.strip_if_str (Digger.f_name row))
                (Digger.strip_if_str (Digger.l_name row)) Str.nl "%Y-%m-%d") as Hcalm.
  pose proof (errors_calm _ w Hcalm) as Hmono. destruct (Hcalm w) as [Hne _].
  destruct (Digger.scrape_by_name _ _ _ _ _ _ w) as [[[]|e] w1]; cbn [fst snd] in *.
  - left. by apply Hdone.
  - right. replace (is_Exception e) with true by (by destruct e).
    unfold logging. cbn [snd]. rewrite errors_add_log. cbn. lia.
Qed.

Lemma details_row_covers url w :
  (0 <? Z.of_nat (String.length url)) = true ->
  Os.isfile (Digger.details_html_name lib url) (snd (Digger.details_row lib env url w)) = true \/
  (errors w < errors (snd (Digger.details_row lib env url w)))%nat.
Proof.
  intros Hv. unfold Digger.details_row. rewrite Hv. unfold try_except.
  pose proof (scrape_details_done lib env url Str.nl "%Y-%m-%d" w) as Hdone.
  pose proof (calm_scrape_details lib env never_exits url Str.nl "%Y-%m-%d") as Hcalm.
  pose proof (errors_calm _ w Hcalm) as Hmono. destruct (Hcalm w) as [Hne _].
  destruct (Digger.scrape_details _ _ _ _ _ w) as [[[]|e] w1]; cbn [fst snd] in *.
  - left. by apply Hdone.
  - right. replace (is_Exception e) with true by (by destruct e).
    unfold logging. cbn [snd]. rewrite errors_add_log. cbn. lia.
Qed.

Lemma details_row_calm url :
  (0 <? Z.of_nat (String.length url)) = true ->
  calm (Digger.details_row lib env url) /\
  forall w, fst (Digger.details_row lib env url w) = Ok tt.
Proof.
  intros Hv. unfold Digger.details_row. rewrite Hv.
  apply try_except_calm; [by apply calm_scrape_details|done|].
  intros e. by apply calm_logging.
Qed.

Lemma search_loop_covers rows : forall j terminate w,
  Digger.terminate_now terminate = false ->
  errors (snd (Digger.search_loop lib env signals j terminate rows w)) = errors w ->
  Forall (fun row =>
            Os.isfile (row_html_name row)
                      (snd (Digger.search_loop lib env signals j terminate rows w)) = true)
         (filter (fun row => valid_row row = true) rows).
Proof.
  induction rows as [|row rows IH]; intros j terminate w Hterm Herr; [by constructor|].
  cbn [Digger.search_loop] in *. rewrite no_signal in *. cbn [Digger.deliver] in *.
  rewrite Hterm in *. unfold bind in *.
  destruct (search_row_calm lib env never_exits row) as [Hcalm Hok]. specialize (Hok w).
  pose proof (errors_calm _ w Hcalm) as Hmono.
  pose proof (fun Hv => search_row_covers row w Hv) as Hrow.
  destruct (Digger.search_row lib env row w) as [[[]|e] w1]; cbn [fst snd] in *; [|done].
  destruct (search_loop_calm lib env never_exits signals rows (S j) terminate) as [Hcalm2 _].
  pose proof (errors_calm _ w1 Hcalm2) as Hmono2.
  pose proof (touches_only_search_loop lib env signals rows (S j) terminate w1)
    as (_ & Hkeep & _).
  rewrite filter_valid_cons. apply Forall_app. split.
  - destruct (valid_row row); [|by constructor].
    apply Forall_singleton. destruct (Hrow eq_refl) as [H|H]; [by apply Hkeep|lia].
  - apply IH; [done|lia].
Qed.

Lemma details_loop_covers urls : forall j terminate w,
  Digger.terminate_now terminate = false ->
  Forall (fun u => (0 <? Z.of_nat (String.length u)) = true) urls ->
  errors (snd (Digger.details_loop lib env signals j terminate urls w)) = errors w ->
  Forall (fun u =>
            Os.isfile (Digger.details_html_name lib u)
                      (snd (Digger.details_loop lib env signals j terminate urls w)) = true)
         urls.
Proof.
  induction urls as [|url urls IH]; intros j terminate w Hterm Hall Herr; [by constructor|].
  apply Forall_cons in Hall as [Hurl Hall].
  cbn [Digger.details_loop] in *. rewrite no_signal in *. cbn [Digger.deliver] in *.
  rewrite Hterm in *. unfold bind in *.
  destruct (details_row_calm url Hurl) as [Hcalm Hok]. specialize (Hok w).
  pose proof (errors_calm _ w Hcalm) as Hmono.
  pose proof (details_row_covers url w Hurl) as Hrow.
  destruct (Digger.details_row lib env url w) as [[[]|e] w1]; cbn [fst snd] in *; [|done].
  pose proof (errors_calm _ w1 (details_loop_calm lib env never_exits signals urls (S j) terminate))
    as Hmono2.
  pose proof (touches_only_details_loop lib env signals urls (S j) terminate w1)
    as (_ & Hkeep & _).
  constructor.
  - destruct Hrow as [H|H]; [by apply Hkeep|lia].
  - apply IH; [done|done|lia].
Qed.

End Covered.

(** X21.  A batch without an error record covered its tasks.  When no
    signal arrives and the network does not end the process, every task of
    a batch leaves its raw page in the store or an ERROR record in the log:
    so after a [main_search] that added no ERROR record the raw page of
    every row with two names is in the store, and after such a
    [main_details] the raw page of every URL of the list is. *)
Theorem clean_batch_covered_its_tasks (lib : Library) (env : Env)
    (signals : nat -> option Digger.Signal) (w : World) :
  (forall j, signals j = None) ->
  (forall url, net env url <> Raise SystemExit) ->
  (forall rows,
     let w' := snd (Digger.main_search lib env signals rows w) in
     errors w' = errors w ->
     Forall (fun row => Os.isfile (row_html_name row) w' = true) (valid_rows rows)) /\
  (forall file content,
     w_files w !! file = Some content ->
     let w' := snd (Digger.main_details lib env signals file w) in
     errors w' = errors w ->
     Forall (fun u => Os.isfile (Digger.details_html_name lib u) w' = true) (url_lines content)).
Proof.
  intros Hsig Hnet. split.
  - intros rows. cbv zeta. unfold Digger.main_search, valid_rows, bind, logging.
    set (w2 := add_log _ (add_log _ w)).
    assert (H2 : errors w2 = errors w) by (unfold w2; rewrite !errors_add_log; cbn; lia).
    pose proof (search_loop_covers lib env signals Hnet Hsig (Digger.dropna rows) 0
                  Digger.GracefulTerminate_init w2 eq_refl) as Hcov.
    pose proof (errors_calm _ w2
                  (proj1 (search_loop_calm lib env Hnet signals (Digger.dropna rows) 0
                            Digger.GracefulTerminate_init))) as Hmono.
    destruct (Digger.search_loop _ _ _ _ _ _ w2) as [[[]|e] w3]; cbn [snd] in *.
    + intros Herr. rewrite errors_add_log in Herr. cbn in Herr.
      eapply Forall_impl; [apply Hcov; lia|]. intros row Hrow. exact Hrow.
    + intros Herr. apply Hcov. lia.
  - intros file content Hc. cbv zeta. rewrite (main_details_run _ _ _ _ content) by done.
    set (w2 := add_log _ (add_log _ w)).
    assert (H2 : errors w2 = errors w) by (unfold w2; rewrite !errors_add_log; cbn; lia).
    assert (Hlines : Forall (fun u => (0 <? Z.of_nat (String.length u)) = true)
                            (url_lines content)).
    { unfold url_lines. apply Forall_forall. intros u Hu.
      by apply list_elem_of_filter in Hu as [? _]. }
    pose proof (details_loop_covers lib env signals Hnet Hsig (url_lines content) 0
                  Digger.GracefulTerminate_init w2 eq_refl Hlines) as Hcov.
    pose proof (errors_calm _ w2
                  (details_loop_calm lib env Hnet signals (url_lines content) 0
                     Digger.GracefulTerminate_init)) as Hmono.
    unfold bind, logging.
    destruct (Digger.details_loop _ _ _ _ _ _ w2) as [[[]|e] w3]; cbn [snd] in *.
    + intros Herr. rewrite errors_add_log in Herr. cbn in Herr.
      eapply Forall_impl; [apply Hcov; lia|]. intros u Hu. exact Hu.
    + intros Herr. apply Hcov. lia.
Qed.

Lemma clean_batch_covered_its_tasks_witness :
  let env := Sample.env_of (Ok Sample.not_found) in
  let rows := [Digger.mkRow (JStr "Jane") (JStr "Doe"); Digger.mkRow (JStr "John") JNull] in
  Os.isfile (Digger.search_html_name "Jane" "Doe")
            (snd (Digger.main_search Sample.lib env (fun _ => None) rows Sample.empty_world)) = true.
Proof.
  intros env rows.
  destruct (clean_batch_covered_its_tasks Sample.lib env (fun _ => None) Sample.empty_world)
    as [H _].
  - reflexivity.
  - intros url. discriminate.
  - specialize (H rows ltac:(vm_compute; reflexivity)).
    assert (Hv : valid_rows rows = [Digger.mkRow (JStr "Jane") (JStr "Doe")])
      by (vm_compute; reflexivity).
    rewrite Hv in H. apply Forall_cons in H as [H _]. exact H.
Defined.
